(** * OpenDMD: distribution matching distillation, training loop and losses

    A shallow embedding of [dmd/model.py] and of the training script
    [train_dmd.py], and the properties of the written specification that
    were checked against them.

    Conventions of the embedding.
    - A tensor element is a [num]: either a finite value, carried as a real
      number, or [NonFinite], which stands for every element torch would
      print as [nan] or [inf].  Arithmetic on finite values is exact real
      arithmetic: rounding, overflow and underflow of the float formats are
      not modelled.  [NonFinite] is absorbing.  Where a property depends on
      rounding, the lines concerned are embedded a second time over the
      binary32 format, in [Float32].
    - A tensor of rank [n] is a list nested [n] deep; shapes are checked by
      the boolean [shape_ok], and the binary element-wise operators follow
      torch's broadcasting rule dimension by dimension.
    - Python exceptions are values of [exn]; code that can raise returns a
      [result].
    - Random draws (timesteps, noise, initial latents) are inputs.
    - The networks, the text encoder, the image codec, the optimizers, the
      schedulers of [diffusers] and the file system are external
      collaborators: they appear as fields of records or as section
      variables. *)

From Stdlib Require Import String Ascii DecimalString DecimalZ.
From Stdlib Require Import Reals Lra ZArith Lia Bool List Sorted Permutation.
From Stdlib Require Import SpecFloat.
Import ListNotations.

(** ** Python: exceptions and results *)

Module Py.

Inductive exn : Type :=
| ValueError (msg : string)
| RuntimeError (msg : string)
| IndexError
| UnboundLocalError (name : string)
| ZeroDivisionError.

Inductive result (A : Type) : Type :=
| Ok (a : A)
| Raise (e : exn).

Arguments Ok {A} a.
Arguments Raise {A} e.

Definition bind {A B} (r : result A) (k : A -> result B) : result B :=
  match r with
  | Ok a => k a
  | Raise e => Raise e
  end.

(** [xs[i]] for a Python sequence: a negative index counts from the end. *)
Definition getitem {A} (xs : list A) (i : Z) : result A :=
  let len := Z.of_nat (length xs) in
  let j := if (i <? 0)%Z then (i + len)%Z else i in
  if ((0 <=? j) && (j <? len))%Z%bool then
    match nth_error xs (Z.to_nat j) with
    | Some x => Ok x
    | None => Raise IndexError
    end
  else Raise IndexError.

(** [[f(x) for x in xs]] where [f] may raise: the first exception wins. *)
Fixpoint mapM {A B} (f : A -> result B) (xs : list A) : result (list B) :=
  match xs with
  | [] => Ok []
  | x :: xs' =>
      bind (f x) (fun y => bind (mapM f xs') (fun ys => Ok (y :: ys)))
  end.

(** Pairwise application over two lists of the same length. *)
Fixpoint zipM {A B C} (f : A -> B -> result C) (xs : list A) (ys : list B)
  : result (list C) :=
  match xs, ys with
  | x :: xs', y :: ys' =>
      bind (f x y) (fun z => bind (zipM f xs' ys') (fun zs => Ok (z :: zs)))
  | _, _ => Ok []
  end.

End Py.

Import Py.

Declare Scope py_scope.
Delimit Scope py_scope with py.
Notation "x <- c ;; k" := (Py.bind c (fun x => k))
  (at level 61, c at next level, right associativity) : py_scope.
Open Scope py_scope.

(** ** Torch: elements and tensors *)

Module Torch.

Open Scope R_scope.

Inductive num : Type :=
| Finite (r : R)
| NonFinite.

Definition lift2 (f : R -> R -> R) (x y : num) : num :=
  match x, y with
  | Finite a, Finite b => Finite (f a b)
  | _, _ => NonFinite
  end.

Definition nadd : num -> num -> num := lift2 Rplus.
Definition nsub : num -> num -> num := lift2 Rminus.
Definition nmul : num -> num -> num := lift2 Rmult.
Definition nmin : num -> num -> num := lift2 Rmin.

(** [x / y]: a zero divisor gives [inf] or [nan]. *)
Definition ndiv (x y : num) : num :=
  match x, y with
  | Finite a, Finite b => if Req_dec_T b 0 then NonFinite else Finite (a / b)
  | _, _ => NonFinite
  end.

(** [x ** 0.5]: [nan] on a negative base. *)
Definition npow_half (x : num) : num :=
  match x with
  | Finite a => if Rlt_dec a 0 then NonFinite else Finite (sqrt a)
  | NonFinite => NonFinite
  end.

Definition nabs (x : num) : num :=
  match x with
  | Finite a => Finite (Rabs a)
  | NonFinite => NonFinite
  end.

Definition is_finite (x : num) : bool :=
  match x with
  | Finite _ => true
  | NonFinite => false
  end.

(** A tensor of rank [n]. *)
Fixpoint tensor (n : nat) : Type :=
  match n with
  | O => num
  | S k => list (tensor k)
  end.

Arguments tensor n : simpl never.

(** [shape_ok sh t]: [t] is rectangular with [t.shape == sh]. *)
Fixpoint shape_ok (sh : list nat) (n : nat) {struct n} : tensor n -> bool :=
  match n with
  | O => fun _ => match sh with [] => true | _ => false end
  | S k => fun t : list (tensor k) =>
      match sh with
      | [] => false
      | d :: sh' => Nat.eqb (length t) d && forallb (shape_ok sh' k) t
      end
  end.

Fixpoint all_finite (n : nat) : tensor n -> bool :=
  match n with
  | O => fun x => is_finite x
  | S k => fun t : list (tensor k) => forallb (all_finite k) t
  end.

(** A unary element-wise operator. *)
Fixpoint tmap (f : num -> num) (n : nat) : tensor n -> tensor n :=
  match n with
  | O => fun x => f x
  | S k => fun t : list (tensor k) => map (tmap f k) t
  end.

(** A binary element-wise operator on two tensors of the same rank, with
    torch's broadcasting: in each dimension the sizes agree, or one of them
    is 1 and is repeated; anything else raises. *)
Fixpoint bcast2 (f : num -> num -> num) (n : nat)
  : tensor n -> tensor n -> result (tensor n) :=
  match n with
  | O => fun x y => Ok (f x y)
  | S k => fun a b : list (tensor k) =>
      if Nat.eqb (length a) (length b) then zipM (bcast2 f k) a b
      else match a, b with
           | [x], _ => mapM (fun y => bcast2 f k x y) b
           | _, [y] => mapM (fun x => bcast2 f k x y) a
           | _, _ =>
               Raise (RuntimeError "The size of tensor a must match the size of tensor b")
           end
  end.

(** [t.unsqueeze(-1)] repeated [n] times on a rank-0 tensor. *)
Fixpoint unsqueeze_last (n : nat) (a : num) : tensor n :=
  match n with
  | O => a
  | S k => [unsqueeze_last k a]
  end.

(** [t[i0, i1, ...]] with one index per dimension. *)
Fixpoint tget (n : nat) : tensor n -> list nat -> option num :=
  match n with
  | O => fun x idx => match idx with [] => Some x | _ => None end
  | S k => fun (t : list (tensor k)) idx =>
      match idx with
      | [] => None
      | i :: idx' =>
          match nth_error t i with
          | Some s => tget k s idx'
          | None => None
          end
      end
  end.

(** All the elements, in row-major order. *)
Fixpoint flatten (n : nat) : tensor n -> list num :=
  match n with
  | O => fun x => [x]
  | S k => fun t : list (tensor k) => flat_map (flatten k) t
  end.

Definition nsum (xs : list num) : num := fold_right nadd (Finite 0) xs.

(** The sum of finite values. *)
Definition rsum (rs : list R) : R := fold_right Rplus 0 rs.

(** [mean] of a list of elements; the mean of no element is [nan]. *)
Definition nmean (xs : list num) : num :=
  ndiv (nsum xs) (Finite (INR (length xs))).

(** [torch.zeros_like]. *)
Definition zeros_like (n : nat) (t : tensor n) : tensor n :=
  tmap (fun _ => Finite 0) n t.

(** [xs[idx]] with a rank-1 integer tensor [idx]. *)
Definition index_select (xs : list num) (idx : list Z) : result (list num) :=
  mapM (getitem xs) idx.

End Torch.

Import Torch.

(** ** Autograd: which parameter sets a value's graph reaches *)

Module Autograd.

(** The three parameter sets: [real_unet], [fake_unet], [student_unet]. *)
Inductive net : Type := Teacher | Fake | Student.

Definition net_eqb (a b : net) : bool :=
  match a, b with
  | Teacher, Teacher | Fake, Fake | Student, Student => true
  | _, _ => false
  end.

(** A tensor together with the parameter sets that [backward], called on a
    value computed from it, would write a gradient to.  [graph = []] is a
    tensor that does not require grad. *)
Record var (n : nat) : Type := Var { data : tensor n; graph : list net }.

Arguments Var {n} data graph.
Arguments data {n} v.
Arguments graph {n} v.

(** A tensor that enters from outside (a batch, a random draw). *)
Definition const {n} (t : tensor n) : var n := Var t [].

(** [x.detach()]. *)
Definition detach {n} (x : var n) : var n := Var (data x) [].

(** The result of an operation run under [with torch.no_grad():]. *)
Definition no_grad {n} (r : result (var n)) : result (var n) :=
  x <- r ;; Ok (Var (data x) []).

Definition vmap (f : num -> num) {n} (x : var n) : var n :=
  Var (tmap f n (data x)) (graph x).

Definition vbcast2 (f : num -> num -> num) {n} (x y : var n) : result (var n) :=
  d <- bcast2 f n (data x) (data y) ;;
  Ok (Var d (graph x ++ graph y)).

(** [torch.cat([x, y], dim=0)]; the check that the other dimensions agree
    is left out. *)
Definition cat {n} (x y : var (S n)) : var (S n) :=
  Var (n := S n) (data x ++ data y) (graph x ++ graph y).

(** [a, b = x.chunk(2)]: chunks of [ceil(len / 2)] rows along dimension 0.
    A tensor with one row has one chunk only, and the unpacking raises. *)
Definition chunk2 {n} (x : var (S n)) : result (var (S n) * var (S n)) :=
  let rows : list (tensor n) := data x in
  match rows with
  | [_] => Raise (ValueError "not enough values to unpack (expected 2, got 1)")
  | _ =>
      let c := Nat.div2 (S (length rows)) in
      Ok (Var (n := S n) (firstn c rows) (graph x),
          Var (n := S n) (skipn c rows) (graph x))
  end.

(** [x.mean(dim=[1, 2, 3], keepdim=True)] on a rank-4 tensor. *)
Definition mean_dim123_keepdim (x : var 4) : var 4 :=
  Var (n := 4)
      (map (fun s : tensor 3 => unsqueeze_last 3 (nmean (flatten 3 s))) (data x))
      (graph x).

(** [F.mse_loss(input, target)] with the default [reduction="mean"]. *)
Definition mse_loss {n} (input target : var n) : result (var 0) :=
  d <- bcast2 nsub n (data input) (data target) ;;
  Ok (Var (n := 0) (nmean (flatten n (tmap (fun v => nmul v v) n d)))
          (graph input ++ graph target)).

End Autograd.

Import Autograd.

(** ** The command-line arguments ([dmd/args.py] is not part of the sources:
    the fields are the ones the two files read) *)

Record Args : Type := {
  min_dm_step_ratio : R;
  max_dm_step_ratio : R;
  guidance_scale : R;
  reg_loss_weight : R;
  snr_gamma : option R;
  max_grad_norm : R;
  gradient_checkpointing : bool;
  max_train_steps : Z;
  checkpointing_steps : Z;
  checkpoints_total_limit : option Z;
  resume_from_checkpoint : option string;
  output_dir : string
}.

(** ** dmd/model.py *)

Module Model.

Open Scope R_scope.

(** [int(x)] on a float: truncation towards zero. *)
Definition py_int (x : R) : Z :=
  if Rlt_dec x 0 then (- Int_part (- x))%Z else Int_part x.

(** The noise scheduler object.  [alphas_cumprod] and the configuration are
    data; [add_noise] and [get_velocity] are methods of [diffusers]. *)
Record Scheduler : Type := {
  num_train_timesteps : Z;
  prediction_type : string;
  alphas_cumprod : list num;
  add_noise : tensor 4 -> tensor 4 -> list Z -> result (tensor 4);
  get_velocity : tensor 4 -> tensor 4 -> list Z -> result (tensor 4)
}.

(** A denoising network as the functions of this file see it: who owns its
    parameters, whether they require grad, and its forward pass (the
    [.sample] of the output). *)
Record Unet : Type := {
  owner : net;
  requires_grad : bool;
  forward : tensor 4 -> list Z -> tensor 3 -> result (tensor 4)
}.

(** [unet(x, t, encoder_hidden_states=e).sample]; [grad_enabled] is false
    inside [with torch.no_grad():]. *)
Definition call_unet (grad_enabled : bool) (unet : Unet)
    (x : var 4) (t : list Z) (e : var 3) : result (var 4) :=
  y <- forward unet (data x) t (data e) ;;
  Ok (Var (n := 4) y
        (if grad_enabled
         then (if requires_grad unet then [owner unet] else []) ++ graph x ++ graph e
         else [])).

(** [noise_scheduler.add_noise(x, noise, t)]. *)
Definition vadd_noise (scheduler : Scheduler) (x noise : var 4) (t : list Z)
  : result (var 4) :=
  y <- add_noise scheduler (data x) (data noise) t ;;
  Ok (Var (n := 4) y (graph x ++ graph noise)).

(** Lines 89 and 90. *)
Definition stopgrad {n} (x : var n) : var n := detach x.

(** [prepare_latents]: a fresh draw [draw] of [randn_tensor], of shape
    [[batch_size, in_channels, sample_size, sample_size]]
    ([height // vae_scale_factor] is [sample_size] again). *)
Definition prepare_latents (draw : tensor 4) : var 4 := const (n := 4) draw.

(** [encode_prompt]: the tokenizer and the text encoder, composed in
    [text_encoder], run under [torch.no_grad()]. *)
Definition encode_prompt (captions : list string)
    (text_encoder : list string -> tensor 3) : var 3 :=
  const (n := 3) (text_encoder captions).

(** Lines 45 to 52.  [timesteps] has rank 1 and [sample] rank [n + 1], so
    the loop unsqueezes [alpha_prod_t] [n] times, to [[B, 1, ..., 1]]. *)
Definition eps_to_mu (scheduler : Scheduler) {n}
    (model_output sample : var (S n)) (timesteps : list Z) : result (var (S n)) :=
  alpha_prod_t <- index_select (alphas_cumprod scheduler) timesteps ;;
  (* while len(alpha_prod_t.shape) < len(sample.shape): unsqueeze(-1) *)
  let alpha_prod_t : var (S n) := const (n := S n) (map (unsqueeze_last n) alpha_prod_t) in
  let beta_prod_t := vmap (nsub (Finite 1)) alpha_prod_t in
  scaled <- vbcast2 nmul (vmap npow_half beta_prod_t) model_output ;;
  diff <- vbcast2 nsub sample scaled ;;
  vbcast2 ndiv diff (vmap npow_half alpha_prod_t).

(** Lines 30 to 42: one evaluation of the network at the last timestep. *)
Definition generate (unet : Unet) (scheduler : Scheduler)
    (latents : var 4) (prompt_embeds : var 3) : result (var 4) :=
  let bsz := length (data latents : list (tensor 3)) in
  let timesteps := repeat (num_train_timesteps scheduler - 1)%Z bsz in
  noise_pred <- call_unet true unet latents timesteps prompt_embeds ;;
  eps_to_mu scheduler noise_pred latents timesteps.

(** [torch.randint(low, high, size)] raises when the range is empty; the
    values drawn are an input of the model. *)
Definition randint_check (low high : Z) : result unit :=
  if (low <? high)%Z then Ok tt
  else Raise (RuntimeError "random_ expects 'from' to be less than 'to'").

(** What [torch.randint(low, high, (n,))] can return. *)
Definition randint_draw (low high : Z) (n : nat) (draw : list Z) : bool :=
  Nat.eqb (length draw) n
  && forallb (fun t => (low <=? t)%Z && (t <? high)%Z) draw.

(** Lines 57 to 80: the two clean-latent estimates, [pred_fake_latents] and
    [pred_real_latents].  [timestep] and [noise] are the two random draws of
    the function. *)
Definition dm_estimates (real_unet fake_unet : Unet)
    (noise_scheduler : Scheduler) (latents : var 4)
    (prompt_embeds negative_prompt_embeds : var 3) (args : Args)
    (timestep : list Z) (noise : tensor 4) : result (var 4 * var 4) :=
  let min_dm_step :=
    py_int (IZR (num_train_timesteps noise_scheduler) * min_dm_step_ratio args) in
  let max_dm_step :=
    py_int (IZR (num_train_timesteps noise_scheduler) * max_dm_step_ratio args) in
  _ <- randint_check min_dm_step max_dm_step ;;
  noisy_latents <- vadd_noise noise_scheduler latents (const (n := 4) noise) timestep ;;
  (* with torch.no_grad(): *)
  noise_pred <- call_unet false fake_unet noisy_latents timestep prompt_embeds ;;
  pred_fake_latents <- no_grad (eps_to_mu noise_scheduler noise_pred noisy_latents timestep) ;;
  let noisy_latents_input := cat (n := 3) noisy_latents noisy_latents in
  let timestep_input := (timestep ++ timestep)%list in
  let prompt_embeds := cat (n := 2) negative_prompt_embeds prompt_embeds in
  noise_pred <- call_unet false real_unet noisy_latents_input timestep_input prompt_embeds ;;
  halves <- chunk2 (n := 3) noise_pred ;;
  let noise_pred_uncond := fst halves in
  let noise_pred_text := snd halves in
  delta <- no_grad (vbcast2 nsub noise_pred_text noise_pred_uncond) ;;
  noise_pred <- no_grad (vbcast2 nadd noise_pred_uncond
                           (vmap (nmul (Finite (guidance_scale args))) delta)) ;;
  pred_real_latents <- no_grad (eps_to_mu noise_scheduler noise_pred noisy_latents timestep) ;;
  Ok (pred_fake_latents, pred_real_latents).

(** Line 82: [torch.abs(latents - pred_real_latents).mean(dim=[1, 2, 3],
    keepdim=True)]. *)
Definition weighting_factor (latents pred_real_latents : var 4) : result (var 4) :=
  diff <- vbcast2 nsub latents pred_real_latents ;;
  Ok (mean_dim123_keepdim (vmap nabs diff)).

(** Line 84: [(pred_fake_latents - pred_real_latents) / weighting_factor]. *)
Definition dm_grad (pred_fake_latents pred_real_latents weighting_factor : var 4)
  : result (var 4) :=
  num <- vbcast2 nsub pred_fake_latents pred_real_latents ;;
  vbcast2 ndiv num weighting_factor.

(** Lines 55 to 86. *)
Definition distribution_matching_loss (real_unet fake_unet : Unet)
    (noise_scheduler : Scheduler) (latents : var 4)
    (prompt_embeds negative_prompt_embeds : var 3) (args : Args)
    (timestep : list Z) (noise : tensor 4) : result (var 0) :=
  estimates <- dm_estimates real_unet fake_unet noise_scheduler latents
                 prompt_embeds negative_prompt_embeds args timestep noise ;;
  let pred_fake_latents := fst estimates in
  let pred_real_latents := snd estimates in
  w <- weighting_factor latents pred_real_latents ;;
  grad <- dm_grad pred_fake_latents pred_real_latents w ;;
  target <- vbcast2 nsub latents grad ;;
  mse_loss latents (stopgrad target).

End Model.

Import Model.

(** ** Python strings and sorting *)

Module PyStr.

Definition startswith (s prefix : string) : bool := String.prefix prefix s.

(** [s.split(sep)] for a separator of one character. *)
Fixpoint split (sep : ascii) (s : string) : list string :=
  match s with
  | EmptyString => [EmptyString]
  | String c rest =>
      if Ascii.eqb c sep then EmptyString :: split sep rest
      else match split sep rest with
           | hd :: tl => String c hd :: tl
           | [] => [String c EmptyString]
           end
  end.

(** [int(s)]: an optional minus sign and decimal digits.  Python also
    accepts a plus sign, surrounding blanks and underscores between digits;
    those spellings raise here. *)
Definition int (s : string) : result Z :=
  match NilZero.int_of_string s with
  | Some d => Ok (Z.of_int d)
  | None => Raise (ValueError ("invalid literal for int() with base 10: " ++ s))
  end.

(** [c.isascii() and c.isalpha()]: a letter of [a-z] or [A-Z].  No
    spelling of an integer that [int] accepts in base 10 holds one. *)
Definition is_ascii_letter (c : ascii) : bool :=
  let n := nat_of_ascii c in
  (Nat.leb 65 n && Nat.leb n 90) || (Nat.leb 97 n && Nat.leb n 122).

(** [str(z)], as in an f-string. *)
Definition str (z : Z) : string := NilZero.string_of_int (Z.to_int z).

(** [os.path.basename]. *)
Definition basename (path : string) : string :=
  last (split "/" path) EmptyString.

Fixpoint insert_by_key {A} (k : Z) (x : A) (l : list (Z * A)) : list (Z * A) :=
  match l with
  | [] => [(k, x)]
  | (k', y) :: l' =>
      if (k' <? k)%Z then (k', y) :: insert_by_key k x l'
      else (k, x) :: (k', y) :: l'
  end.

(** [sorted(xs, key=key)]: the keys are computed first, left to right, and
    the sort is stable. *)
Definition isort {A} (l : list (Z * A)) : list (Z * A) :=
  fold_right (fun p acc => insert_by_key (fst p) (snd p) acc) [] l.

Definition sorted {A} (key : A -> result Z) (xs : list A) : result (list A) :=
  keys <- mapM key xs ;;
  Ok (map snd (isort (combine keys xs))).

(** The order of two keyed entries. *)
Definition key_le {A} (p q : Z * A) : Prop := (fst p <= fst q)%Z.

(** [xs[0:stop]]. *)
Definition slice_to {A} (xs : list A) (stop : Z) : list A :=
  if (stop <? 0)%Z then firstn (Z.to_nat (Z.of_nat (length xs) + stop)) xs
  else firstn (Z.to_nat stop) xs.

(** [a % b] on integers. *)
Definition mod_ (a b : Z) : result Z :=
  if (b =? 0)%Z then Raise ZeroDivisionError else Ok (a mod b)%Z.

(** [a, b, ... = t] with [n] names on the left. *)
Definition unpack {A} (n : nat) (t : list A) : result (list A) :=
  if Nat.ltb (length t) n then
    Raise (ValueError ("not enough values to unpack (expected "
                       ++ str (Z.of_nat n) ++ ", got " ++ str (Z.of_nat (length t)) ++ ")"))
  else if Nat.ltb n (length t) then
    Raise (ValueError ("too many values to unpack (expected " ++ str (Z.of_nat n) ++ ")"))
  else Ok t.

End PyStr.

(** ** train_dmd.py *)

Module TrainDmd.

Open Scope R_scope.

(** What [setup_training] hands back: the [Accelerator] of [accelerate]. *)
Record Accelerator : Type := {
  mixed_precision : string;
  sync_gradients : bool;
  is_main_process : bool
}.

(** The libraries the script drives.  Parameter sets, gradient buffers and
    optimizer states are opaque; every operation on them is a function of
    the library. *)
Record Externals : Type := {
  Weights : Type;
  Grad : Type;
  Optim : Type;
  (* diffusers, transformers, piq *)
  pretrained_scheduler : Args -> Scheduler;
  pretrained_unet : Args -> Weights;
  unet_forward : Weights -> tensor 4 -> list Z -> tensor 3 -> result (tensor 4);
  text_encode : list string -> tensor 3;
  vae_decode : tensor 4 -> result (tensor 4);
  vae_scaling_factor : R;
  lpips : tensor 4 -> tensor 4 -> result num;
  compute_snr : Scheduler -> list Z -> list num;
  (* torch.autograd and torch.optim *)
  autograd : net -> var 0 -> Grad;
  grad_add : Grad -> Grad -> Grad;
  clip_grad_norm : R -> Grad -> Grad;
  new_optim : Args -> Optim;
  adamw_step : Optim -> Weights -> Grad -> Weights * Optim;
  lr_step : Optim -> Optim;
  (* accelerate *)
  new_accelerator : Args -> Accelerator;
  load_state : string -> (Weights * Optim) * (Weights * Optim)
               -> (Weights * Optim) * (Weights * Optim)
}.

(** What one pass of the loop reads from the two data loaders, and the
    random tensors drawn in it. *)
Record Batch : Type := {
  prompts : list string;
  latents_ref : tensor 4;
  images_ref : tensor 4;
  prompts_ref : list string;
  z : tensor 4;                (* prepare_latents *)
  dm_timestep : list Z;        (* distribution_matching_loss: torch.randint *)
  dm_noise : tensor 4;         (* distribution_matching_loss: torch.randn_like *)
  fake_noise : tensor 4;       (* line 397 *)
  fake_timesteps : list Z      (* line 400 *)
}.

Inductive event : Type :=
| OptimizerStep (who : net)
| RemoveTree (name : string)
| SaveState (name : string)
| Log (loss_g loss_d : num) (step : Z).

(** [d.startswith("checkpoint")]. *)
Definition is_checkpoint (d : string) : bool := PyStr.startswith d "checkpoint".

(** Whether the entry [f] of a directory stays when [removing] is removed. *)
Definition kept (removing : list string) (f : string) : bool :=
  negb (existsb (String.eqb f) removing).

(** An event that is not an optimizer step. *)
Definition quiet (ev : event) : Prop :=
  match ev with
  | OptimizerStep _ => False
  | _ => True
  end.

(** A line of scalar logs. *)
Definition is_log (ev : event) : Prop :=
  match ev with
  | Log _ _ _ => True
  | _ => False
  end.

(** An event of the checkpoint directory. *)
Definition file_event (ev : event) : Prop :=
  match ev with
  | RemoveTree _ | SaveState _ => True
  | _ => False
  end.

(** How many optimizer steps of the network [who] a trace holds. *)
Definition steps (who : net) (evs : list event) : nat :=
  length (filter (fun ev => match ev with
                            | OptimizerStep w => net_eqb w who
                            | _ => false
                            end) evs).

Section Script.

Context (E : Externals).

(** The objects a Python tuple can hold here. *)
Inductive pyobj : Type :=
| ObjUnet (who : net) (trainable : bool) (w : Weights E)
| ObjScheduler (s : Scheduler)
| ObjTokenizer
| ObjTextEncoder
| ObjVae.

(** The mutable state of [main] once the models exist. *)
Record State : Type := {
  teacher_w : Weights E;
  fake_w : Weights E;
  student_w : Weights E;
  fake_grad : option (Grad E);
  student_grad : option (Grad E);
  fake_optimizer : Optim E;         (* with its lr scheduler *)
  student_optimizer : Optim E;
  global_step : Z;
  loss_local : option (var 1);      (* the local variable [loss]; [None]: unbound *)
  files : list string;              (* os.listdir(args.output_dir) *)
  trace : list event
}.

Definition M (A : Type) : Type := State -> result A * State.

Definition ret {A} (a : A) : M A := fun st => (Ok a, st).

Definition mbind {A B} (c : M A) (k : A -> M B) : M B :=
  fun st =>
    match c st with
    | (Ok a, st') => k a st'
    | (Raise e, st') => (Raise e, st')
    end.

Definition lift {A} (r : result A) : M A := fun st => (r, st).
Definition get : M State := fun st => (Ok st, st).
Definition put (st : State) : M unit := fun _ => (Ok tt, st).
Definition emit (ev : event) : M unit :=
  fun st =>
    (Ok tt,
     {| teacher_w := teacher_w st; fake_w := fake_w st; student_w := student_w st;
        fake_grad := fake_grad st; student_grad := student_grad st;
        fake_optimizer := fake_optimizer st;
        student_optimizer := student_optimizer st;
        global_step := global_step st; loss_local := loss_local st;
        files := files st; trace := trace st ++ [ev] |}).

Notation "x <-- c ;; k" := (mbind c (fun x => k))
  (at level 61, c at next level, right associativity).
Notation "c ;;; k" := (mbind c (fun _ => k))
  (at level 61, right associativity).

(** *** The models as the functions of [dmd/model.py] receive them *)

Definition real_unet (st : State) : Unet :=
  {| owner := Teacher; requires_grad := false;
     forward := unet_forward E (teacher_w st) |}.

Definition fake_unet (st : State) : Unet :=
  {| owner := Fake; requires_grad := true;
     forward := unet_forward E (fake_w st) |}.

Definition student_unet (st : State) : Unet :=
  {| owner := Student; requires_grad := true;
     forward := unet_forward E (student_w st) |}.

(** *** Gradients and optimizers *)

Definition accumulate (old : option (Grad E)) (g : Grad E) : option (Grad E) :=
  match old with
  | None => Some g
  | Some g0 => Some (grad_add E g0 g)
  end.

Definition reaches (who : net) (loss : var 0) : bool :=
  existsb (net_eqb who) (graph loss).

(** [accelerator.backward(loss)]: every parameter set the graph of [loss]
    reaches receives its gradient; a loss with no graph raises. *)
Definition backward (loss : var 0) : M unit :=
  fun st =>
    match graph loss with
    | [] => (Raise (RuntimeError "element 0 of tensors does not require grad and does not have a grad_fn"), st)
    | _ =>
        (Ok tt,
         {| teacher_w := teacher_w st; fake_w := fake_w st; student_w := student_w st;
            fake_grad :=
              if reaches Fake loss
              then accumulate (fake_grad st) (autograd E Fake loss)
              else fake_grad st;
            student_grad :=
              if reaches Student loss
              then accumulate (student_grad st) (autograd E Student loss)
              else student_grad st;
            fake_optimizer := fake_optimizer st;
            student_optimizer := student_optimizer st;
            global_step := global_step st; loss_local := loss_local st;
            files := files st; trace := trace st |})
    end.

(** [accelerator.clip_grad_norm_(student_unet.parameters(), max_norm)]. *)
Definition clip_student (max_norm : R) : M unit :=
  fun st =>
    (Ok tt,
     {| teacher_w := teacher_w st; fake_w := fake_w st; student_w := student_w st;
        fake_grad := fake_grad st;
        student_grad := option_map (clip_grad_norm E max_norm) (student_grad st);
        fake_optimizer := fake_optimizer st;
        student_optimizer := student_optimizer st;
        global_step := global_step st; loss_local := loss_local st;
        files := files st; trace := trace st |}).

Definition clip_fake (max_norm : R) : M unit :=
  fun st =>
    (Ok tt,
     {| teacher_w := teacher_w st; fake_w := fake_w st; student_w := student_w st;
        fake_grad := option_map (clip_grad_norm E max_norm) (fake_grad st);
        student_grad := student_grad st;
        fake_optimizer := fake_optimizer st;
        student_optimizer := student_optimizer st;
        global_step := global_step st; loss_local := loss_local st;
        files := files st; trace := trace st |}).

(** [student_optimizer.step(); student_lr_scheduler.step();
    student_optimizer.zero_grad(set_to_none=True)].  A parameter whose
    [.grad] is [None] is skipped by the optimizer. *)
Definition student_optimizer_step : M unit :=
  fun st =>
    let wo := match student_grad st with
              | Some g => adamw_step E (student_optimizer st) (student_w st) g
              | None => (student_w st, student_optimizer st)
              end in
    (Ok tt,
     {| teacher_w := teacher_w st; fake_w := fake_w st; student_w := fst wo;
        fake_grad := fake_grad st; student_grad := None;
        fake_optimizer := fake_optimizer st;
        student_optimizer := lr_step E (snd wo);
        global_step := global_step st; loss_local := loss_local st;
        files := files st; trace := trace st ++ [OptimizerStep Student] |}).

(** [fake_optimizer.step(); fake_lr_scheduler.step();
    fake_optimizer.zero_grad()]. *)
Definition fake_optimizer_step : M unit :=
  fun st =>
    let wo := match fake_grad st with
              | Some g => adamw_step E (fake_optimizer st) (fake_w st) g
              | None => (fake_w st, fake_optimizer st)
              end in
    (Ok tt,
     {| teacher_w := teacher_w st; fake_w := fst wo; student_w := student_w st;
        fake_grad := None; student_grad := student_grad st;
        fake_optimizer := lr_step E (snd wo);
        student_optimizer := student_optimizer st;
        global_step := global_step st; loss_local := loss_local st;
        files := files st; trace := trace st ++ [OptimizerStep Fake] |}).

(** *** The student pass (lines 362 to 386) *)

(** [x.clamp(0, 1)]. *)
Definition nclamp01 (x : num) : num :=
  match x with
  | Finite r => Finite (Rmax 0 (Rmin r 1))
  | NonFinite => NonFinite
  end.

(** [loss_kl + loss_reg * args.reg_loss_weight]. *)
Definition generator_loss (args : Args) (loss_kl loss_reg : var 0) : var 0 :=
  Var (n := 0)
      (nadd (data loss_kl) (nmul (data loss_reg) (Finite (reg_loss_weight args))))
      (graph loss_kl ++ graph loss_reg).

(** The perceptual term: [lpips(images_ref, decoded)] on the decoded,
    rescaled and clamped prediction. *)
Definition perceptual_loss (images_ref : tensor 4) (latents_ref_pred : var 4)
  : result (var 0) :=
  decoded <- vae_decode E
               (tmap (fun v => ndiv v (Finite (vae_scaling_factor E))) 4
                     (data latents_ref_pred)) ;;
  let images_ref_pred :=
    tmap nclamp01 4
         (tmap (fun v => nadd (ndiv v (Finite 2)) (Finite (1 / 2))) 4 decoded) in
  l <- lpips E images_ref images_ref_pred ;;
  Ok (Var (n := 0) l (graph latents_ref_pred)).

(** Returns [latents_pred_cat], the concatenated [prompt_embeds] and
    [loss_g]. *)
Definition train_student (args : Args) (acc : Accelerator)
    (noise_scheduler : Scheduler) (b : Batch) : M (var 4 * var 3 * var 0) :=
  st <-- get ;;
  let prompt_embeds := encode_prompt (prompts b) (text_encode E) in
  let latents := prepare_latents (z b) in
  latents_pred <-- lift (generate (student_unet st) noise_scheduler latents prompt_embeds) ;;
  let prompt_ref_embeds := encode_prompt (prompts_ref b) (text_encode E) in
  latents_ref_pred <-- lift (generate (student_unet st) noise_scheduler
                               (const (n := 4) (latents_ref b)) prompt_ref_embeds) ;;
  let latents_pred_cat := cat (n := 3) latents_pred latents_ref_pred in
  let prompt_embeds := cat (n := 2) prompt_embeds prompt_ref_embeds in
  let negative_prompt_embeds :=
    encode_prompt (repeat EmptyString (length (prompts b ++ prompts_ref b)))
                  (text_encode E) in
  loss_kl <-- lift (distribution_matching_loss (real_unet st) (fake_unet st)
                      noise_scheduler latents_pred_cat prompt_embeds
                      negative_prompt_embeds args (dm_timestep b) (dm_noise b)) ;;
  loss_reg <-- lift (perceptual_loss (images_ref b) latents_ref_pred) ;;
  let loss_g := generator_loss args loss_kl loss_reg in
  backward loss_g ;;;
  (if sync_gradients acc then clip_student (max_grad_norm args) else ret tt) ;;;
  student_optimizer_step ;;;
  ret (latents_pred_cat, prompt_embeds, loss_g).

(** *** The fake-score pass (lines 388 to 438) *)

(** Lines 405 to 410. *)
Definition select_target (noise_scheduler : Scheduler)
    (latents noise : var 4) (timesteps : list Z) : result (var 4) :=
  if String.eqb (prediction_type noise_scheduler) "epsilon" then Ok noise
  else if String.eqb (prediction_type noise_scheduler) "v_prediction" then
    v <- get_velocity noise_scheduler (data latents) (data noise) timesteps ;;
    Ok (Var (n := 4) v (graph latents ++ graph noise))
  else Raise (ValueError ("Unknown prediction type " ++ prediction_type noise_scheduler)).

(** Lines 421 to 424: the signal-to-noise ratios the weights are computed
    from, one more in velocity mode. *)
Definition effective_snr (noise_scheduler : Scheduler) (timesteps : list Z)
  : list num :=
  let snr := compute_snr E noise_scheduler timesteps in
  if String.eqb (prediction_type noise_scheduler) "v_prediction"
  then map (fun s => nadd s (Finite 1)) snr
  else snr.

(** Lines 425 to 427: [min(snr, gamma) / snr] for each sample. *)
Definition mse_loss_weights (noise_scheduler : Scheduler) (gamma : R)
    (timesteps : list Z) : result (list num) :=
  let snr := effective_snr noise_scheduler timesteps in
  (* torch.stack([snr, gamma * ones_like(timesteps)], dim=1) *)
  if Nat.eqb (length snr) (length timesteps) then
    Ok (map (fun s => ndiv (nmin s (Finite gamma)) s) snr)
  else Raise (RuntimeError "stack expects each tensor to be equal size").

(** Lines 415 to 431.  Returns [loss_d] and, when the branch assigns it, the
    new value of the local variable [loss]. *)
Definition fake_loss (args : Args) (noise_scheduler : Scheduler)
    (model_pred target : var 4) (timesteps : list Z)
  : result (var 0 * option (var 1)) :=
  match snr_gamma args with
  | None =>
      loss_d <- mse_loss model_pred target ;;
      Ok (loss_d, None)
  | Some gamma =>
      weights <- mse_loss_weights noise_scheduler gamma timesteps ;;
      (* F.mse_loss(..., reduction="none") *)
      d <- bcast2 nsub 4 (data model_pred) (data target) ;;
      let squared : tensor 4 := tmap (fun v => nmul v v) 4 d in
      (* loss.mean(dim=list(range(1, len(loss.shape)))) * mse_loss_weights *)
      let per_sample : tensor 1 := map (fun s : tensor 3 => nmean (flatten 3 s)) squared in
      weighted <- bcast2 nmul 1 per_sample weights ;;
      let g := (graph model_pred ++ graph target)%list in
      Ok (Var (n := 0) (nmean (flatten 1 weighted)) g,
          Some (Var (n := 1) weighted g))
  end.

Definition assign_loss (new : option (var 1)) : M unit :=
  fun st =>
    (Ok tt,
     {| teacher_w := teacher_w st; fake_w := fake_w st; student_w := student_w st;
        fake_grad := fake_grad st; student_grad := student_grad st;
        fake_optimizer := fake_optimizer st;
        student_optimizer := student_optimizer st;
        global_step := global_step st;
        loss_local := match new with Some l => Some l | None => loss_local st end;
        files := files st; trace := trace st |}).

(** Returns [loss_d]. *)
Definition train_fake (args : Args) (acc : Accelerator)
    (noise_scheduler : Scheduler) (latents_pred_cat : var 4)
    (prompt_embeds : var 3) (b : Batch) : M (var 0) :=
  st <-- get ;;
  let latents := stopgrad latents_pred_cat in
  let encoder_hidden_states := stopgrad prompt_embeds in
  let noise := const (n := 4) (fake_noise b) in
  (* line 400: torch.randint(0, num_train_timesteps, (bsz,)) *)
  lift (randint_check 0 (num_train_timesteps noise_scheduler)) ;;;
  let timesteps := fake_timesteps b in
  noisy_latents <-- lift (vadd_noise noise_scheduler latents noise timesteps) ;;
  target <-- lift (select_target noise_scheduler latents noise timesteps) ;;
  model_pred <-- lift (call_unet true (fake_unet st) noisy_latents timesteps
                         encoder_hidden_states) ;;
  l <-- lift (fake_loss args noise_scheduler model_pred target timesteps) ;;
  assign_loss (snd l) ;;;
  backward (fst l) ;;;
  (if sync_gradients acc then clip_fake (max_grad_norm args) else ret tt) ;;;
  fake_optimizer_step ;;;
  ret (fst l).

(** *** Checkpoints (lines 441 to 466) *)

(** [int(x.split("-")[1])]. *)
Definition checkpoint_key (x : string) : result Z :=
  piece <- getitem (PyStr.split "-" x) 1 ;;
  PyStr.int piece.

Definition set_files (fs : list string) (ev : list event) : M unit :=
  fun st =>
    (Ok tt,
     {| teacher_w := teacher_w st; fake_w := fake_w st; student_w := student_w st;
        fake_grad := fake_grad st; student_grad := student_grad st;
        fake_optimizer := fake_optimizer st;
        student_optimizer := student_optimizer st;
        global_step := global_step st; loss_local := loss_local st;
        files := fs; trace := trace st ++ ev |}).

(** [shutil.rmtree(os.path.join(args.output_dir, name))] for each name. *)
Definition remove_trees (names : list string) : M unit :=
  st <-- get ;;
  set_files (filter (kept names) (files st)) (map RemoveTree names).

(** [accelerator.save_state(os.path.join(args.output_dir, name))]. *)
Definition save_state (name : string) : M unit :=
  st <-- get ;;
  set_files (if existsb (String.eqb name) (files st) then files st
             else files st ++ [name])
            [SaveState name].

(** Lines 447 to 462: the checkpoints to remove before a save. *)
Definition removing_checkpoints (limit : Z) (listing : list string)
  : result (list string) :=
  let checkpoints := filter is_checkpoint listing in
  checkpoints <- PyStr.sorted checkpoint_key checkpoints ;;
  if (Z.of_nat (length checkpoints) >=? limit)%Z then
    let num_to_remove := (Z.of_nat (length checkpoints) - limit + 1)%Z in
    Ok (PyStr.slice_to checkpoints num_to_remove)
  else Ok [].

(** Lines 447 to 466: one checkpoint save with its retention limit. *)
Definition save_checkpoint (args : Args) : M unit :=
  st <-- get ;;
  match checkpoints_total_limit args with
  | Some limit =>
      removing <-- lift (removing_checkpoints limit (files st)) ;;
      remove_trees removing
  | None => ret tt
  end ;;;
  save_state ("checkpoint-" ++ PyStr.str (global_step st)).

Definition set_global_step (step : Z) : M unit :=
  fun st =>
    (Ok tt,
     {| teacher_w := teacher_w st; fake_w := fake_w st; student_w := student_w st;
        fake_grad := fake_grad st; student_grad := student_grad st;
        fake_optimizer := fake_optimizer st;
        student_optimizer := student_optimizer st;
        global_step := step; loss_local := loss_local st;
        files := files st; trace := trace st |}).

Definition increment_global_step : M unit :=
  st <-- get ;; set_global_step (global_step st + 1)%Z.

Definition checkpoint_block (args : Args) (acc : Accelerator) : M unit :=
  if sync_gradients acc then
    increment_global_step ;;;
    if is_main_process acc then
      st <-- get ;;
      r <-- lift (PyStr.mod_ (global_step st) (checkpointing_steps args)) ;;
      if (r =? 0)%Z then save_checkpoint args else ret tt
    else ret tt
  else ret tt.

(** *** Logs (lines 472 to 474) *)

(** [x.item()] on a rank-1 tensor. *)
Definition item (x : var 1) : result num :=
  match data x with
  | [v] => Ok v
  | _ => Raise (RuntimeError "a Tensor with more or fewer than 1 element cannot be converted to Scalar")
  end.

(** [logs = {"loss_g": loss.detach().item(), "loss_d": loss_d.detach().item()}]
    and [accelerator.log(logs, step=global_step)]. *)
Definition emit_logs (loss_d : var 0) : M unit :=
  st <-- get ;;
  match loss_local st with
  | None => lift (Raise (UnboundLocalError "loss"))
  | Some loss =>
      v <-- lift (item (detach loss)) ;;
      emit (Log v (data (detach loss_d)) (global_step st))
  end.

(** *** One pass of the loop, and the loop *)

(** Returns whether the loop breaks. *)
Definition train_iteration (args : Args) (acc : Accelerator)
    (noise_scheduler : Scheduler) (b : Batch) : M bool :=
  r <-- train_student args acc noise_scheduler b ;;
  loss_d <-- train_fake args acc noise_scheduler (fst (fst r)) (snd (fst r)) b ;;
  checkpoint_block args acc ;;;
  emit_logs loss_d ;;;
  st <-- get ;;
  ret (global_step st >=? max_train_steps args)%Z.

(** [for step in range(args.max_train_steps)], with [remaining] passes to
    go. *)
Fixpoint train_loop (args : Args) (acc : Accelerator)
    (noise_scheduler : Scheduler) (batches : nat -> Batch)
    (step remaining : nat) : M unit :=
  match remaining with
  | O => ret tt
  | S remaining' =>
      stop <-- train_iteration args acc noise_scheduler (batches step) ;;
      if stop then ret tt
      else train_loop args acc noise_scheduler batches (S step) remaining'
  end.

(** *** [setup_model] and [main] *)

(** The tuple [setup_model] returns.  The three denoising networks start
    from the teacher's weights. *)
Definition setup_model (args : Args) (acc : Accelerator) : list pyobj :=
  let noise_scheduler := pretrained_scheduler E args in
  let tokenizer := ObjTokenizer in
  let text_encoder := ObjTextEncoder in
  let vae := ObjVae in
  let real_unet := pretrained_unet E args in
  let fake_unet := real_unet in
  let student_unet := real_unet in
  [ObjUnet Teacher false real_unet; ObjUnet Fake true fake_unet;
   ObjUnet Student true student_unet; ObjScheduler noise_scheduler;
   tokenizer; text_encoder; vae].

(** Lines 333 to 349. *)
Definition resume (args : Args) : M unit :=
  match resume_from_checkpoint args with
  | None => ret tt
  | Some EmptyString => ret tt
  | Some name =>
      st <-- get ;;
      path <-- lift (
        if negb (String.eqb name "latest") then Ok (Some (PyStr.basename name))
        else
          let dirs := filter is_checkpoint (files st) in
          dirs <- PyStr.sorted checkpoint_key dirs ;;
          Ok (match dirs with [] => None | _ => Some (last dirs EmptyString) end)) ;;
      match path with
      | None => ret tt
      | Some path =>
          let loaded := load_state E path
                          ((student_w st, student_optimizer st),
                           (fake_w st, fake_optimizer st)) in
          put {| teacher_w := teacher_w st;
                 fake_w := fst (snd loaded); student_w := fst (fst loaded);
                 fake_grad := fake_grad st; student_grad := student_grad st;
                 fake_optimizer := snd (snd loaded);
                 student_optimizer := snd (fst loaded);
                 global_step := global_step st; loss_local := loss_local st;
                 files := files st; trace := trace st |} ;;;
          step <-- lift (checkpoint_key path) ;;
          set_global_step step
      end
  end.

(** [main(args)], started in a directory listing [listing], with the stream
    of batches the two data loaders and the random generator will give.
    Returns the outcome, and the state of the training if it was reached. *)
Definition main (args : Args) (batches : nat -> Batch) (listing : list string)
  : result unit * option State :=
  let accelerator := new_accelerator E args in
  match PyStr.unpack 8 (setup_model args accelerator) with
  | Raise e => (Raise e, None)
  | Ok [ObjUnet _ _ real_unet; ObjUnet _ _ fake_unet; ObjUnet _ _ student_unet;
        ObjScheduler noise_scheduler; tokenizer; text_encoder; vae; small_vae] =>
      let st0 :=
        {| teacher_w := real_unet; fake_w := fake_unet; student_w := student_unet;
           fake_grad := None; student_grad := None;
           fake_optimizer := new_optim E args;
           student_optimizer := new_optim E args;
           global_step := 0%Z; loss_local := None;
           files := listing; trace := [] |} in
      let run :=
        resume args ;;;
        train_loop args accelerator noise_scheduler batches 0
                   (Z.to_nat (max_train_steps args)) in
      let out := run st0 in
      (fst out, Some (snd out))
  | Ok _ => (Raise (RuntimeError "not a model"), None)
  end.

End Script.

Arguments teacher_w {E} s.
Arguments fake_w {E} s.
Arguments student_w {E} s.
Arguments fake_grad {E} s.
Arguments student_grad {E} s.
Arguments fake_optimizer {E} s.
Arguments student_optimizer {E} s.
Arguments global_step {E} s.
Arguments loss_local {E} s.
Arguments files {E} s.
Arguments trace {E} s.
Arguments mbind {E A B} c k _.
Arguments lift {E A} r _.
Arguments get {E} _.
Arguments ret {E A} a _.

(** Two states with the same parameters, gradient buffers and optimizers. *)
Definition same_networks {E : Externals} (st st' : State E) : Prop :=
  teacher_w st' = teacher_w st
  /\ fake_w st' = fake_w st
  /\ student_w st' = student_w st
  /\ fake_grad st' = fake_grad st
  /\ student_grad st' = student_grad st
  /\ fake_optimizer st' = fake_optimizer st
  /\ student_optimizer st' = student_optimizer st.

End TrainDmd.

Import TrainDmd.

(** ** train_dmd.py, [setup_model_saving]: the two checkpoint hooks

    [accelerate] calls [save_model_hook] from [save_state] with the list of
    the models it prepared and the list of their state dicts, and
    [load_model_hook] from [load_state] with a fresh list of the same
    models.  A network object is named by its [net]; what it holds in memory
    is a state dict of type [W].  The configuration of the networks is the
    same for all three and is left out. *)

Module ModelSaving.

(** What a hook can raise: an exception of [Py], or [OSError] from
    [from_pretrained] on a folder that does not exist. *)
Inductive raised : Type :=
| PyExn (e : exn)
| OSError (folder : string).

Section Hooks.

Context {W : Type}.

(** The parameters each network object holds. *)
Definition Store : Type := net -> W.

(** [model.load_state_dict(w)]. *)
Definition load_state_dict (model : net) (w : W) (store : Store) : Store :=
  fun m => if net_eqb m model then w else store m.

(** The model folders of one checkpoint directory. *)
Definition Folders : Type := string -> option W.

(** [model.save_pretrained(os.path.join(output_dir, name))]: what the
    folder held is overwritten. *)
Definition save_pretrained (name : string) (w : W) (dir : Folders) : Folders :=
  fun f => if String.eqb f name then Some w else dir f.

(** Lines 219 to 223: every model goes to the same folder ["unet"], and one
    state dict is popped for each. *)
Fixpoint save_models (store : Store) (models : list net) (weights : list W)
    (dir : Folders) : option raised * (Folders * list W) :=
  match models with
  | [] => (None, (dir, weights))
  | model :: models' =>
      let dir := save_pretrained "unet" (store model) dir in
      match weights with
      | [] => (Some (PyExn IndexError), (dir, weights))
      | _ => save_models store models' (removelast weights) dir
      end
  end.

(** Lines 215 to 223.  Returns what was raised, if anything, with the
    directory and the list [weights] as the hook leaves them. *)
Definition save_model_hook (is_main_process : bool) (student_unet : net)
    (store : Store) (models : list net) (weights : list W) (output_dir : Folders)
  : option raised * (Folders * list W) :=
  if is_main_process then
    save_models store models weights
      (save_pretrained "student_unet" (store student_unet) output_dir)
  else (None, (output_dir, weights)).

(** Lines 231 to 240, with [n] passes to go: [models.pop()] takes the last
    model of the list. *)
Fixpoint load_models (n : nat) (models : list net) (input_dir : Folders)
    (store : Store) : option raised * (Store * list net) :=
  match n with
  | O => (None, (store, models))
  | S n' =>
      match rev models with
      | [] => (Some (PyExn IndexError), (store, models))
      | model :: _ =>
          match input_dir "unet"%string with
          | None => (Some (OSError "unet"), (store, removelast models))
          | Some w =>
              load_models n' (removelast models) input_dir
                          (load_state_dict model w store)
          end
      end
  end.

(** Lines 225 to 240.  Returns what was raised, if anything, with the
    parameters in memory and the list [models] as the hook leaves them. *)
Definition load_model_hook (student_unet : net) (store : Store)
    (models : list net) (input_dir : Folders)
  : option raised * (Store * list net) :=
  match input_dir "student_unet"%string with
  | None => (Some (OSError "student_unet"), (store, models))
  | Some w =>
      load_models (length models) models input_dir
                  (load_state_dict student_unet w store)
  end.

End Hooks.

End ModelSaving.

(** ** The written specification's formulas *)

Module Spec.

Fixpoint zip_with {A B C} (f : A -> B -> C) (xs : list A) (ys : list B) : list C :=
  match xs, ys with
  | x :: xs', y :: ys' => f x y :: zip_with f xs' ys'
  | _, _ => []
  end.

Fixpoint zip3_with {A B C D} (f : A -> B -> C -> D)
    (xs : list A) (ys : list B) (zs : list C) : list D :=
  match xs, ys, zs with
  | x :: xs', y :: ys', z :: zs' => f x y z :: zip3_with f xs' ys' zs'
  | _, _, _ => []
  end.

(** Element-wise combination of two tensors of the same shape, with no
    broadcasting. *)
Fixpoint tmap2 (f : num -> num -> num) (n : nat) : tensor n -> tensor n -> tensor n :=
  match n with
  | O => fun x y => f x y
  | S k => fun a b : list (tensor k) => zip_with (tmap2 f k) a b
  end.

(** [pred_clean = (noisy_latent - sqrt(1 - alpha_prod[t]) * predicted_noise)
    / sqrt(alpha_prod[t])], on one element. *)
Definition pred_clean (alpha_prod_t predicted_noise noisy_latent : num) : num :=
  ndiv (nsub noisy_latent (nmul (npow_half (nsub (Finite 1) alpha_prod_t)) predicted_noise))
       (npow_half alpha_prod_t).

(** The formula applied to a batch: sample [b] uses the scalar of its own
    timestep on every one of its elements. *)
Definition epsilon_to_sample (n : nat) (alpha_prod : list num)
    (predicted_noise noisy_latent : tensor (S n)) : tensor (S n) :=
  zip3_with (fun a e x => tmap2 (pred_clean a) n e x)
            alpha_prod predicted_noise noisy_latent.

(** [noisy = sqrt(alpha_prod[t]) * latent + sqrt(1 - alpha_prod[t]) * noise],
    on one element. *)
Definition noisy (alpha_prod_t latent noise : num) : num :=
  nadd (nmul (npow_half alpha_prod_t) latent)
       (nmul (npow_half (nsub (Finite 1) alpha_prod_t)) noise).

(** Modelled from the spec: [sample_to_epsilon_target], the closed-form
    forward diffusion.  The sources call [noise_scheduler.add_noise] of
    [diffusers] for it; the formula is the one of section 4.1. *)
Definition sample_to_epsilon_target (n : nat) (alphas_cumprod : list num)
    (timestep : list Z) (noise latent : tensor (S n)) : result (tensor (S n)) :=
  alpha_prod <- index_select alphas_cumprod timestep ;;
  Ok (zip3_with (fun a x e => tmap2 (noisy a) n x e) alpha_prod latent noise).

(** The per-sample normalizing weight of section 4.5: the mean absolute
    difference between the latents and the real estimate, one scalar per
    sample. *)
Definition sample_weights (latents pred_real_latents : tensor 4) : list num :=
  zip_with (fun l p => nmean (flatten 3 (tmap nabs 3 (tmap2 nsub 3 l p))))
           latents pred_real_latents.

(** A weight that is a finite number other than zero. *)
Definition usable_weight (c : num) : Prop :=
  exists r, c = Finite r /\ r <> 0%R.

(** An entry of a schedule: a cumulative product of factors in (0, 1]. *)
Definition valid_alpha (a : num) : Prop :=
  match a with
  | Finite r => (0 < r <= 1)%R
  | NonFinite => False
  end.

End Spec.

Import Spec.

(** ** Lines 82 and 84 of [dmd/model.py] in binary32

    The tensors of the training script are float tensors.  The two lines
    that form the weighting factor and divide by it are embedded here over
    the binary32 format of IEEE 754 (24 bits of precision, round to nearest
    even), one sample at a time, its elements in row-major order. *)

Module Float32.

Definition prec : Z := 24.
Definition emax : Z := 128.

Definition f32 : Type := spec_float.

Definition zero : f32 := S754_zero false.

(** The float nearest to an integer. *)
Definition of_Z (z : Z) : f32 := binary_normalize prec emax z 0 false.

Definition add : f32 -> f32 -> f32 := SFadd prec emax.
Definition sub : f32 -> f32 -> f32 := SFsub prec emax.
Definition div : f32 -> f32 -> f32 := SFdiv prec emax.
Definition abs : f32 -> f32 := SFabs.

(** Neither [inf] nor [nan]. *)
Definition is_finite (x : f32) : bool :=
  match x with
  | S754_zero _ | S754_finite _ _ _ => true
  | S754_infinity _ | S754_nan => false
  end.

(** [x.mean()] over the elements of one sample: their sum, divided by their
    number.  The sum is taken from left to right; torch adds in another
    order, which gives the same float whenever every partial sum is exact.
    A kernel that multiplies the sum by [1 / N] instead of dividing gives
    the same float when [N] is a power of two. *)
Definition mean (xs : list f32) : f32 :=
  div (fold_left add xs zero) (of_Z (Z.of_nat (length xs))).

(** Line 82 on one sample: [torch.abs(latents - pred_real_latents).mean()]. *)
Definition weighting_factor (latents pred_real_latents : list f32) : f32 :=
  mean (map abs (zip_with sub latents pred_real_latents)).

(** Line 84 on one sample:
    [(pred_fake_latents - pred_real_latents) / weighting_factor]. *)
Definition dm_grad (pred_fake_latents pred_real_latents : list f32)
    (weighting_factor : f32) : list f32 :=
  map (fun d => div d weighting_factor)
      (zip_with sub pred_fake_latents pred_real_latents).

End Float32.

(** ** Small concrete objects, for the examples *)

Module Demo.

Open Scope R_scope.

(** The velocity of a v-prediction schedule, on one element. *)
Definition velocity (alpha_prod_t latent noise : num) : num :=
  nsub (nmul (npow_half alpha_prod_t) noise)
       (nmul (npow_half (nsub (Finite 1) alpha_prod_t)) latent).

Definition scheduler (T : Z) (pt : string) (alphas : list num) : Scheduler :=
  {| num_train_timesteps := T;
     prediction_type := pt;
     alphas_cumprod := alphas;
     add_noise := fun x noise t => sample_to_epsilon_target 3 alphas t noise x;
     get_velocity := fun x noise t =>
       alpha_prod <- index_select alphas t ;;
       Ok (zip3_with (fun a x0 e0 => tmap2 (velocity a) 3 x0 e0) alpha_prod x noise) |}.

(** A network that predicts no noise at all. *)
Definition zero_unet (who : net) : Unet :=
  {| owner := who; requires_grad := true;
     forward := fun x _ _ => Ok (zeros_like 4 x) |}.

Definition E : Externals :=
  {| Weights := unit; Grad := unit; Optim := unit;
     pretrained_scheduler := fun _ => scheduler 1 "epsilon" [Finite (1 / 4)];
     pretrained_unet := fun _ => tt;
     unet_forward := fun _ x _ _ => Ok (zeros_like 4 x);
     text_encode := fun ps => map (fun _ => [[Finite 0]]) ps;
     vae_decode := fun x => Ok x;
     vae_scaling_factor := 1;
     lpips := fun _ _ => Ok (Finite 0);
     compute_snr := fun _ ts => map (fun _ => Finite 1) ts;
     autograd := fun _ _ => tt;
     grad_add := fun _ _ => tt;
     clip_grad_norm := fun _ g => g;
     new_optim := fun _ => tt;
     adamw_step := fun o w _ => (w, o);
     lr_step := fun o => o;
     new_accelerator := fun _ =>
       {| mixed_precision := "no"; sync_gradients := true; is_main_process := true |};
     load_state := fun _ x => x |}.

Definition args (gamma : option R) (limit : option Z) : Args :=
  {| min_dm_step_ratio := 2 / 100; max_dm_step_ratio := 98 / 100;
     guidance_scale := 1;
     reg_loss_weight := 1 / 4; snr_gamma := gamma; max_grad_norm := 1;
     gradient_checkpointing := false; max_train_steps := 10;
     checkpointing_steps := 1; checkpoints_total_limit := limit;
     resume_from_checkpoint := None; output_dir := "out" |}.

(** The same arguments with other bounds for the timestep of the
    distribution matching loss. *)
Definition args_with_ratios (lo hi : R) : Args :=
  {| min_dm_step_ratio := lo; max_dm_step_ratio := hi;
     guidance_scale := 1;
     reg_loss_weight := 1 / 4; snr_gamma := None; max_grad_norm := 1;
     gradient_checkpointing := false; max_train_steps := 10;
     checkpointing_steps := 1; checkpoints_total_limit := None;
     resume_from_checkpoint := None; output_dir := "out" |}.

(** The same arguments with [--resume_from_checkpoint name]. *)
Definition args_resuming (name : string) : Args :=
  {| min_dm_step_ratio := 2 / 100; max_dm_step_ratio := 98 / 100;
     guidance_scale := 1;
     reg_loss_weight := 1 / 4; snr_gamma := None; max_grad_norm := 1;
     gradient_checkpointing := false; max_train_steps := 10;
     checkpointing_steps := 1; checkpoints_total_limit := None;
     resume_from_checkpoint := Some name; output_dir := "out" |}.

(** The same arguments with [--checkpointing_steps steps]. *)
Definition args_every (steps : Z) : Args :=
  {| min_dm_step_ratio := 2 / 100; max_dm_step_ratio := 98 / 100;
     guidance_scale := 1;
     reg_loss_weight := 1 / 4; snr_gamma := None; max_grad_norm := 1;
     gradient_checkpointing := false; max_train_steps := 10;
     checkpointing_steps := steps; checkpoints_total_limit := None;
     resume_from_checkpoint := None; output_dir := "out" |}.

Definition accelerator : Accelerator := new_accelerator E (args None None).

Definition state (step : Z) (listing : list string) : State E :=
  {| teacher_w := (tt : Weights E); fake_w := tt; student_w := tt;
     fake_grad := None; student_grad := None;
     fake_optimizer := tt; student_optimizer := tt;
     global_step := step; loss_local := None;
     files := listing; trace := [] |}.

(** One sample of shape [[1, 1, 1, 1]]. *)
Definition one (r : R) : tensor 4 := [[[[Finite r]]]].

(** Two samples of shape [[1, 1, 1]] each. *)
Definition two (r1 r2 : R) : tensor 4 := [[[[Finite r1]]]; [[[Finite r2]]]].

(** A schedule of 1000 steps, constant for the sake of the example. *)
Definition thousand_steps : Scheduler :=
  scheduler 1000 "epsilon" (repeat (Finite (1 / 4)) 1000).

(** The embeddings of [n] prompts. *)
Definition embeddings (n : nat) : tensor 3 := repeat [[Finite 0]] n.

(** The embedding of one prompt. *)
Definition embedding : tensor 3 := [[[Finite 0]]].

Definition batch : Batch :=
  {| prompts := ["a photo"%string]; latents_ref := one 1; images_ref := one 1;
     prompts_ref := ["a painting"%string]; z := one 1;
     dm_timestep := [0; 0]%Z; dm_noise := (one 1 ++ one 1)%list;
     fake_noise := (one 1 ++ one 1)%list; fake_timesteps := [0; 0]%Z |}.

(** A batch whose timesteps are draws of the two [torch.randint] of a pass
    on [thousand_steps]: from [[20, 980)] for the distribution matching
    loss, from [[0, 1000)] for the fake-score pass. *)
Definition drawn_batch : Batch :=
  {| prompts := ["a photo"%string]; latents_ref := one 1; images_ref := one 1;
     prompts_ref := ["a painting"%string]; z := one 1;
     dm_timestep := [20; 979]%Z; dm_noise := two 1 2;
     fake_noise := two 1 2; fake_timesteps := [0; 999]%Z |}.

(** The 1000 steps again, with a prediction type the script does not know. *)
Definition unknown_type_steps : Scheduler :=
  scheduler 1000 "sample" (repeat (Finite (1 / 4)) 1000).

(** Libraries whose parameter sets count the optimizer steps applied to
    them. *)
Definition counting : Externals :=
  {| Weights := nat; Grad := unit; Optim := unit;
     pretrained_scheduler := fun _ => thousand_steps;
     pretrained_unet := fun _ => 0%nat;
     unet_forward := fun _ x _ _ => Ok (zeros_like 4 x);
     text_encode := fun ps => map (fun _ => [[Finite 0]]) ps;
     vae_decode := fun x => Ok x;
     vae_scaling_factor := 1;
     lpips := fun _ _ => Ok (Finite 0);
     compute_snr := fun _ ts => map (fun _ => Finite 1) ts;
     autograd := fun _ _ => tt;
     grad_add := fun _ _ => tt;
     clip_grad_norm := fun _ g => g;
     new_optim := fun _ => tt;
     adamw_step := fun o w _ => (S w, o);
     lr_step := fun o => o;
     new_accelerator := fun _ =>
       {| mixed_precision := "no"; sync_gradients := true; is_main_process := true |};
     load_state := fun _ x => x |}.

(** Three networks no optimizer step was applied to yet. *)
Definition fresh : State counting :=
  {| teacher_w := (0%nat : Weights counting); fake_w := 0%nat; student_w := 0%nat;
     fake_grad := None; student_grad := None;
     fake_optimizer := tt; student_optimizer := tt;
     global_step := 0%Z; loss_local := None;
     files := []; trace := [] |}.

(** The smallest positive binary32 number, [2 ** -149]. *)
Definition tiny : Float32.f32 := S754_finite false 1 (-149).

(** The binary32 number 1. *)
Definition f32_one : Float32.f32 := Float32.of_Z 1.

(** State dicts told apart by a number: what the teacher, the fake network
    and the student hold. *)
Definition numbered (t f s : nat) : ModelSaving.Store (W := nat) :=
  fun m => match m with Teacher => t | Fake => f | Student => s end.

(** A checkpoint directory with no model folder yet. *)
Definition empty_dir : ModelSaving.Folders (W := nat) := fun _ => None.

(** [two 0 1] after the forward diffusion with the noise [two 1 2], at any
    two steps of [thousand_steps]. *)
Definition noisy_two : tensor 4 :=
  two (sqrt (1 / 4) * 0 + sqrt (1 - 1 / 4) * 1)
      (sqrt (1 / 4) * 1 + sqrt (1 - 1 / 4) * 2).

End Demo.

(* ================================================================== *)
(** * Properties *)
(* ================================================================== *)

(** ** Results and lists *)

Lemma mapM_ok_map {A B} (f : A -> result B) (g : A -> B) xs :
  (forall x, In x xs -> f x = Ok (g x)) -> mapM f xs = Ok (map g xs).
Proof.
  induction xs as [|x xs IH]; intros H; simpl.
  - reflexivity.
  - rewrite (H x (or_introl eq_refl)). simpl.
    rewrite IH by (intros y Hy; apply H; now right). reflexivity.
Qed.

Lemma mapM_length {A B} (f : A -> result B) xs ys :
  mapM f xs = Ok ys -> length ys = length xs.
Proof.
  revert ys. induction xs as [|x xs IH]; simpl; intros ys H.
  - now inversion H.
  - destruct (f x); simpl in H; [|discriminate].
    destruct (mapM f xs); simpl in H; [|discriminate].
    inversion H; subst. simpl. f_equal. now apply IH.
Qed.

Lemma zipM_ok_zip {A B C} (f : A -> B -> result C) (g : A -> B -> C) xs ys :
  (forall x y, In x xs -> In y ys -> f x y = Ok (g x y)) ->
  zipM f xs ys = Ok (zip_with g xs ys).
Proof.
  revert ys. induction xs as [|x xs IH]; intros [|y ys] H; simpl; try reflexivity.
  rewrite (H x y (or_introl eq_refl) (or_introl eq_refl)). simpl.
  rewrite IH by (intros a b Ha Hb; apply H; now right). reflexivity.
Qed.

Lemma zip_with_length {A B C} (f : A -> B -> C) xs ys :
  length xs = length ys -> length (zip_with f xs ys) = length xs.
Proof.
  revert ys. induction xs as [|x xs IH]; intros [|y ys] H; simpl in *;
    try reflexivity; try discriminate.
  f_equal. apply IH. now injection H.
Qed.

Lemma Forall_zip_with {A B C} (P : C -> Prop) (f : A -> B -> C) xs ys :
  (forall x y, In x xs -> In y ys -> P (f x y)) ->
  Forall P (zip_with f xs ys).
Proof.
  revert ys. induction xs as [|x xs IH]; intros [|y ys] H; simpl; try constructor.
  - apply H; now left.
  - apply IH. intros a b Ha Hb. apply H; now right.
Qed.

(** ** Tensors: shapes, maps and broadcasting *)

Lemma shape_ok_S sh n d (t : tensor (S n)) :
  shape_ok (d :: sh) (S n) t = true <->
  @length (tensor n) t = d /\ Forall (fun s => shape_ok sh n s = true) t.
Proof.
  simpl. rewrite andb_true_iff, Nat.eqb_eq, forallb_forall, Forall_forall.
  reflexivity.
Qed.

Lemma tmap_unsqueeze f n a :
  tmap f n (unsqueeze_last n a) = unsqueeze_last n (f a).
Proof. induction n; simpl; [reflexivity | now rewrite IHn]. Qed.

Lemma bcast2_unsqueeze_l f n a (x : tensor n) :
  bcast2 f n (unsqueeze_last n a) x = Ok (tmap (f a) n x).
Proof.
  induction n as [|k IH]; simpl; [reflexivity|].
  destruct x as [|x0 [|x1 xs]]; simpl.
  - reflexivity.
  - now rewrite IH.
  - rewrite IH. simpl. rewrite IH. simpl.
    rewrite (mapM_ok_map _ (tmap (f a) k)) by (intros; apply IH). reflexivity.
Qed.

Lemma bcast2_unsqueeze_r f n a (x : tensor n) :
  bcast2 f n x (unsqueeze_last n a) = Ok (tmap (fun v => f v a) n x).
Proof.
  induction n as [|k IH]; simpl; [reflexivity|].
  destruct x as [|x0 [|x1 xs]]; simpl.
  - reflexivity.
  - now rewrite IH.
  - rewrite IH. simpl. rewrite IH. simpl.
    rewrite (mapM_ok_map _ (tmap (fun v => f v a) k)) by (intros; apply IH).
    reflexivity.
Qed.

Lemma bcast2_same_shape f sh n (x y : tensor n) :
  shape_ok sh n x = true -> shape_ok sh n y = true ->
  bcast2 f n x y = Ok (tmap2 f n x y).
Proof.
  revert sh x y. induction n as [|k IH]; intros sh x y Hx Hy; simpl; [reflexivity|].
  destruct sh as [|d sh]; [discriminate|].
  apply shape_ok_S in Hx. apply shape_ok_S in Hy.
  destruct Hx as [Lx Fx], Hy as [Ly Fy].
  rewrite Lx, Ly, Nat.eqb_refl.
  apply zipM_ok_zip. intros a b Ha Hb.
  rewrite Forall_forall in Fx, Fy.
  apply IH with (sh := sh); auto.
Qed.

Lemma tmap_shape f sh n (x : tensor n) :
  shape_ok sh n (tmap f n x) = shape_ok sh n x.
Proof.
  revert sh x. induction n as [|k IH]; intros sh x; [reflexivity|].
  simpl. destruct sh as [|d sh]; [reflexivity|].
  rewrite length_map. f_equal.
  induction x as [|x0 xs IHx]; simpl; [reflexivity|].
  now rewrite IH, IHx.
Qed.

Lemma tmap2_shape f sh n (x y : tensor n) :
  shape_ok sh n x = true -> shape_ok sh n y = true ->
  shape_ok sh n (tmap2 f n x y) = true.
Proof.
  revert sh x y. induction n as [|k IH]; intros sh x y Hx Hy; [exact Hx|].
  destruct sh as [|d sh]; [discriminate|].
  apply shape_ok_S in Hx. apply shape_ok_S in Hy.
  destruct Hx as [Lx Fx], Hy as [Ly Fy].
  apply shape_ok_S. simpl. split.
  - rewrite zip_with_length; [exact Lx | exact (eq_trans Lx (eq_sym Ly))].
  - rewrite Forall_forall in Fx, Fy.
    apply Forall_zip_with. intros a b Ha Hb. apply IH; auto.
Qed.

Lemma zipM_map_l {A A' B C} (f : A' -> B -> result C) (h : A -> A') xs ys :
  zipM f (map h xs) ys = zipM (fun x y => f (h x) y) xs ys.
Proof.
  revert ys. induction xs as [|x xs IH]; intros [|y ys]; simpl; try reflexivity.
  now rewrite IH.
Qed.

Lemma zipM_map_r {A B B' C} (f : A -> B' -> result C) (h : B -> B') xs ys :
  zipM f xs (map h ys) = zipM (fun x y => f x (h y)) xs ys.
Proof.
  revert ys. induction xs as [|x xs IH]; intros [|y ys]; simpl; try reflexivity.
  now rewrite IH.
Qed.

(** A per-sample scalar, unsqueezed to [[B, 1, ..., 1]], against a batch. *)
Lemma bcast2_rows_l f n (cs : list num) (xs : tensor (S n)) :
  length cs = @length (tensor n) xs ->
  bcast2 f (S n) (map (unsqueeze_last n) cs) xs
  = Ok (zip_with (fun c x => tmap (f c) n x) cs xs).
Proof.
  intros L. simpl. rewrite length_map, L, Nat.eqb_refl, zipM_map_l.
  apply zipM_ok_zip. intros. apply bcast2_unsqueeze_l.
Qed.

Lemma bcast2_rows_r f n (xs : tensor (S n)) (cs : list num) :
  @length (tensor n) xs = length cs ->
  bcast2 f (S n) xs (map (unsqueeze_last n) cs)
  = Ok (zip_with (fun x c => tmap (fun v => f v c) n x) xs cs).
Proof.
  intros L. simpl. rewrite length_map, L, Nat.eqb_refl, zipM_map_r.
  apply zipM_ok_zip. intros. apply bcast2_unsqueeze_r.
Qed.

Lemma tmap_tmap2 g f n (x y : tensor n) :
  tmap g n (tmap2 f n x y) = tmap2 (fun a b => g (f a b)) n x y.
Proof.
  induction n as [|k IH]; simpl; [reflexivity|].
  revert y. induction x as [|x0 xs IHx]; intros [|y0 ys]; simpl; try reflexivity.
  now rewrite IH, IHx.
Qed.

Lemma tmap2_tmap_r f g n (x y : tensor n) :
  tmap2 f n x (tmap g n y) = tmap2 (fun a b => f a (g b)) n x y.
Proof.
  induction n as [|k IH]; simpl; [reflexivity|].
  revert y. induction x as [|x0 xs IHx]; intros [|y0 ys]; simpl; try reflexivity.
  now rewrite IH, IHx.
Qed.

Lemma tmap2_flip f n (x y : tensor n) :
  tmap2 f n x y = tmap2 (fun a b => f b a) n y x.
Proof.
  induction n as [|k IH]; simpl; [reflexivity|].
  revert y. induction x as [|x0 xs IHx]; intros [|y0 ys]; simpl; try reflexivity.
  now rewrite IH, IHx.
Qed.

(** One sample of [eps_to_mu]: the three broadcast operators, fused. *)
Lemma pred_clean_row n a (e x : tensor n) :
  tmap (fun v => ndiv v (npow_half a)) n
       (tmap2 nsub n x (tmap (nmul (npow_half (nsub (Finite 1) a))) n e))
  = tmap2 (pred_clean a) n e x.
Proof.
  rewrite tmap2_tmap_r, tmap_tmap2, tmap2_flip. reflexivity.
Qed.

Lemma eps_to_mu_rows n alphas (e x : tensor (S n)) :
  zip_with (fun d c => tmap (fun v => ndiv v c) n d)
    (zip_with (tmap2 nsub n) x
       (zip_with (fun c e0 => tmap (nmul c) n e0)
          (map (fun a => npow_half (nsub (Finite 1) a)) alphas) e))
    (map npow_half alphas)
  = epsilon_to_sample n alphas e x.
Proof.
  unfold epsilon_to_sample.
  revert e x. induction alphas as [|a alphas IH]; intros [|e0 e] [|x0 x];
    simpl; try reflexivity.
  rewrite pred_clean_row. f_equal. apply IH.
Qed.

(** ** [eps_to_mu] *)

Lemma eps_to_mu_eq (s : Scheduler) n B sh (model_output sample : var (S n))
    timesteps alphas :
  shape_ok (B :: sh) (S n) (data sample) = true ->
  shape_ok (B :: sh) (S n) (data model_output) = true ->
  length timesteps = B ->
  index_select (alphas_cumprod s) timesteps = Ok alphas ->
  eps_to_mu s model_output sample timesteps
  = Ok (Var (n := S n)
          (epsilon_to_sample n alphas (data model_output) (data sample))
          ((graph sample ++ [] ++ graph model_output) ++ [])).
Proof.
  intros Hx He Lt Hidx.
  pose proof (mapM_length _ _ _ Hidx) as La. rewrite Lt in La.
  destruct sample as [x gx], model_output as [e ge]. cbn [data graph] in *.
  pose proof (proj1 (shape_ok_S _ _ _ _) Hx) as [Lx Fx].
  pose proof (proj1 (shape_ok_S _ _ _ _) He) as [Le Fe].
  unfold eps_to_mu. rewrite Hidx. cbn [Py.bind].
  unfold vbcast2, vmap, const. cbn [data graph].
  cbn [tmap]. rewrite !map_map.
  erewrite (map_ext (fun a => tmap npow_half n (tmap (nsub (Finite 1)) n (unsqueeze_last n a)))
                    (fun a => unsqueeze_last n (npow_half (nsub (Finite 1) a))))
    by (intros; now rewrite !tmap_unsqueeze).
  erewrite (map_ext (fun a => tmap npow_half n (unsqueeze_last n a))
                    (fun a => unsqueeze_last n (npow_half a)))
    by (intros; now rewrite !tmap_unsqueeze).
  rewrite <- (map_map (fun a => npow_half (nsub (Finite 1) a)) (unsqueeze_last n)).
  rewrite <- (map_map npow_half (unsqueeze_last n)).
  rewrite bcast2_rows_l by (rewrite length_map; congruence).
  cbn [Py.bind data graph].
  assert (Hscaled : shape_ok (B :: sh) (S n)
            (zip_with (fun c x0 => tmap (nmul c) n x0)
               (map (fun a => npow_half (nsub (Finite 1) a)) alphas) e) = true).
  { apply shape_ok_S. split.
    - rewrite zip_with_length; rewrite length_map; congruence.
    - apply Forall_zip_with. intros c y _ Hy. rewrite tmap_shape.
      rewrite Forall_forall in Fe. now apply Fe. }
  rewrite (bcast2_same_shape nsub (B :: sh) (S n) x _ Hx Hscaled).
  cbn [Py.bind data graph].
  rewrite bcast2_rows_r.
  - cbn [Py.bind]. cbn [tmap2]. rewrite eps_to_mu_rows.
    now rewrite app_nil_l.
  - cbn [tmap2]. rewrite zip_with_length, length_map by
      (rewrite zip_with_length; rewrite length_map; congruence).
    congruence.
Qed.

Lemma nth_error_zip_with {A B C} (f : A -> B -> C) xs ys i :
  nth_error (zip_with f xs ys) i
  = match nth_error xs i, nth_error ys i with
    | Some x, Some y => Some (f x y)
    | _, _ => None
    end.
Proof.
  revert ys i. induction xs as [|x xs IH]; intros [|y ys] [|i]; simpl;
    try reflexivity.
  - now destruct (nth_error xs i).
  - apply IH.
Qed.

Lemma nth_error_zip3_with {A B C D} (f : A -> B -> C -> D) xs ys zs i :
  nth_error (zip3_with f xs ys zs) i
  = match nth_error xs i, nth_error ys i, nth_error zs i with
    | Some x, Some y, Some z => Some (f x y z)
    | _, _, _ => None
    end.
Proof.
  revert ys zs i.
  induction xs as [|x xs IH]; intros [|y ys] [|z zs] [|i]; simpl;
    try reflexivity; try apply IH;
    repeat match goal with
           | |- context [match nth_error ?l ?j with _ => _ end] =>
               destruct (nth_error l j)
           end; reflexivity.
Qed.

Lemma tget_tmap2 f n (x y : tensor n) idx :
  tget n (tmap2 f n x y) idx
  = match tget n x idx, tget n y idx with
    | Some a, Some b => Some (f a b)
    | _, _ => None
    end.
Proof.
  revert x y idx. induction n as [|k IH]; intros x y idx.
  - destruct idx; reflexivity.
  - destruct idx as [|i idx]; [reflexivity|].
    cbn [tget tmap2]. rewrite nth_error_zip_with.
    destruct (@nth_error (tensor k) x i) as [xi|]; [|reflexivity].
    destruct (@nth_error (tensor k) y i) as [yi|].
    + apply IH.
    + now destruct (tget k xi idx).
Qed.

Lemma zip3_with_length {A B C D} (f : A -> B -> C -> D) xs ys zs :
  length xs = length ys -> length xs = length zs ->
  length (zip3_with f xs ys zs) = length xs.
Proof.
  revert ys zs. induction xs as [|x xs IH]; intros [|y ys] [|z zs] H1 H2;
    simpl in *; try reflexivity; try discriminate.
  f_equal. apply IH; congruence.
Qed.

Lemma Forall_zip3_with {A B C D} (P : D -> Prop) (f : A -> B -> C -> D) xs ys zs :
  (forall x y z, In x xs -> In y ys -> In z zs -> P (f x y z)) ->
  Forall P (zip3_with f xs ys zs).
Proof.
  revert ys zs. induction xs as [|x xs IH]; intros [|y ys] [|z zs] H; simpl;
    try constructor.
  - apply H; now left.
  - apply IH. intros a b c Ha Hb Hc. apply H; now right.
Qed.

Lemma zip3_tmap2_shape (g : num -> num -> num -> num) n B sh alphas
    (e x : tensor (S n)) :
  length alphas = B ->
  shape_ok (B :: sh) (S n) e = true ->
  shape_ok (B :: sh) (S n) x = true ->
  shape_ok (B :: sh) (S n)
    (zip3_with (fun a e0 x0 => tmap2 (g a) n e0 x0) alphas e x) = true.
Proof.
  intros La He Hx.
  apply shape_ok_S in He. apply shape_ok_S in Hx.
  destruct He as [Le Fe], Hx as [Lx Fx].
  apply shape_ok_S. split.
  - rewrite zip3_with_length; congruence.
  - rewrite Forall_forall in Fe, Fx.
    apply Forall_zip3_with. intros a e0 x0 _ He0 Hx0.
    apply tmap2_shape; auto.
Qed.

Lemma epsilon_to_sample_shape n B sh alphas (e x : tensor (S n)) :
  length alphas = B ->
  shape_ok (B :: sh) (S n) e = true ->
  shape_ok (B :: sh) (S n) x = true ->
  shape_ok (B :: sh) (S n) (epsilon_to_sample n alphas e x) = true.
Proof. apply zip3_tmap2_shape. Qed.

Lemma getitem_In {A} (xs : list A) i x : getitem xs i = Ok x -> In x xs.
Proof.
  unfold getitem.
  destruct ((0 <=? _)%Z && _)%bool; [|discriminate].
  destruct (nth_error xs _) eqn:E; [|discriminate].
  intros H. inversion H; subst. eapply nth_error_In; eauto.
Qed.

Lemma index_select_Forall (P : num -> Prop) xs idx ys :
  Forall P xs -> index_select xs idx = Ok ys -> Forall P ys.
Proof.
  intros HP. unfold index_select. revert ys.
  induction idx as [|i idx IH]; simpl; intros ys H.
  - inversion H. constructor.
  - destruct (getitem xs i) as [x|] eqn:E; simpl in H; [|discriminate].
    destruct (mapM (getitem xs) idx) as [l|]; simpl in H; [|discriminate].
    inversion H; subst. constructor.
    + rewrite Forall_forall in HP. apply HP. eapply getitem_In; eauto.
    + now apply IH.
Qed.

(** C4.  On a batch [sample] of shape [[B, ...]], a [model_output] of the
    same shape and [B] timesteps that index the schedule, [eps_to_mu]
    returns, without raising, the tensor of
    [(sample - sqrt(1 - alpha_prod[t]) * model_output) / sqrt(alpha_prod[t])]:
    every element of sample [b] is computed with the scalar
    [alphas_cumprod[timesteps[b]]], and the result has the shape of
    [sample].  The embedding is a function of its arguments alone, so the
    result is determined by them. *)
Theorem eps_to_mu_computes_pred_clean :
  forall (scheduler : Scheduler) n B sh (model_output sample : var (S n))
         (timesteps : list Z) (alpha_prod : list num),
    shape_ok (B :: sh) (S n) (data sample) = true ->
    shape_ok (B :: sh) (S n) (data model_output) = true ->
    length timesteps = B ->
    index_select (alphas_cumprod scheduler) timesteps = Ok alpha_prod ->
    exists out,
      eps_to_mu scheduler model_output sample timesteps = Ok out
      /\ data out = epsilon_to_sample n alpha_prod (data model_output) (data sample)
      /\ shape_ok (B :: sh) (S n) (data out) = true
      /\ forall b idx a e x,
           nth_error alpha_prod b = Some a ->
           tget (S n) (data model_output) (b :: idx) = Some e ->
           tget (S n) (data sample) (b :: idx) = Some x ->
           tget (S n) (data out) (b :: idx) = Some (pred_clean a e x).
Proof.
  intros s n B sh mo x ts alphas Hx He Lt Hidx.
  eexists. split; [eapply eps_to_mu_eq; eassumption|]. cbn [data].
  split; [reflexivity|]. split.
  - apply epsilon_to_sample_shape; auto.
    rewrite (mapM_length _ _ _ Hidx). exact Lt.
  - intros b idx a e v Ha Ge Gx. unfold epsilon_to_sample.
    cbn [tget] in *. rewrite nth_error_zip3_with, Ha.
    destruct (@nth_error (tensor n) (data mo) b) as [eb|]; [|discriminate].
    destruct (@nth_error (tensor n) (data x) b) as [xb|]; [|discriminate].
    rewrite tget_tmap2, Ge, Gx. reflexivity.
Qed.

(** ** Forward diffusion followed by [eps_to_mu] *)

Lemma npow_half_valid r :
  (0 <= r)%R -> npow_half (Finite r) = Finite (sqrt r).
Proof.
  intros Hr. unfold npow_half. destruct (Rlt_dec r 0); [lra | reflexivity].
Qed.

Lemma pred_clean_noisy a x e :
  valid_alpha a -> is_finite x = true -> is_finite e = true ->
  pred_clean a e (noisy a x e) = x.
Proof.
  destruct a as [r|]; [|contradiction].
  destruct x as [x|]; [|discriminate]. destruct e as [e|]; [|discriminate].
  intros [Hr0 Hr1] _ _. unfold pred_clean, noisy. cbn [nsub lift2].
  rewrite !npow_half_valid by lra. cbn [nadd nmul nsub lift2 ndiv].
  pose proof (sqrt_lt_R0 r Hr0) as Hs.
  destruct (Req_dec_T (sqrt r) 0) as [E|_]; [lra|].
  f_equal. field. lra.
Qed.

Lemma tmap2_pred_clean_noisy a sh n (x e : tensor n) :
  valid_alpha a ->
  shape_ok sh n x = true -> shape_ok sh n e = true ->
  all_finite n x = true -> all_finite n e = true ->
  tmap2 (pred_clean a) n e (tmap2 (noisy a) n x e) = x.
Proof.
  intros Ha. revert sh x e. induction n as [|k IH]; intros sh x e Sx Se Fx Fe.
  - cbn. now apply pred_clean_noisy.
  - destruct sh as [|d sh]; [discriminate|].
    apply shape_ok_S in Sx. apply shape_ok_S in Se.
    destruct Sx as [Lx Sx], Se as [Le Se].
    cbn [all_finite] in Fx, Fe. cbn [tmap2].
    rewrite <- Le in Lx. clear Le d.
    revert e Lx Se Fe. induction x as [|x0 x IHx]; intros [|e0 e] Lx Se Fe;
      try discriminate; [reflexivity|].
    cbn [zip_with]. cbn [forallb] in Fx, Fe.
    apply andb_true_iff in Fx, Fe. destruct Fx as [Fx0 Fx], Fe as [Fe0 Fe].
    inversion Sx; subst. inversion Se; subst.
    f_equal.
    + now apply IH with (sh := sh).
    + apply IHx; auto.
Qed.

(** C5.  For a schedule whose entries are cumulative products in (0, 1],
    timesteps that index it, and a clean latent and a noise tensor of one
    shape [[B, ...]] with finite elements: [eps_to_mu], given the
    forward-diffused latent
    [sqrt(alpha_prod[t]) * latent + sqrt(1 - alpha_prod[t]) * noise] and the
    same noise as the predicted noise, returns the clean latent.  In exact
    arithmetic the two are equal, which is the limit of the tolerance the
    claim allows for rounding. *)
Theorem eps_to_mu_inverts_forward_diffusion :
  forall (scheduler : Scheduler) n B sh (latent noise : tensor (S n))
         (timestep : list Z),
    Forall valid_alpha (alphas_cumprod scheduler) ->
    length timestep = B ->
    (exists alpha_prod, index_select (alphas_cumprod scheduler) timestep = Ok alpha_prod) ->
    shape_ok (B :: sh) (S n) latent = true ->
    shape_ok (B :: sh) (S n) noise = true ->
    all_finite (S n) latent = true ->
    all_finite (S n) noise = true ->
    exists noisy_latent out,
      sample_to_epsilon_target n (alphas_cumprod scheduler) timestep noise latent
        = Ok noisy_latent
      /\ eps_to_mu scheduler (const noise) (const noisy_latent) timestep = Ok out
      /\ data out = latent.
Proof.
  intros s n B sh latent noise ts Hvalid Lt [alphas Hidx] Sx Se Fx Fe.
  pose proof (mapM_length _ _ _ Hidx) as La. rewrite Lt in La.
  pose proof (index_select_Forall _ _ _ _ Hvalid Hidx) as Va.
  unfold sample_to_epsilon_target. rewrite Hidx. cbn [Py.bind].
  eexists. eexists. split; [reflexivity|].
  split.
  - eapply eps_to_mu_eq with (B := B) (sh := sh); cbn [data const]; eauto.
    apply (zip3_tmap2_shape noisy); auto.
  - cbn [data const]. unfold epsilon_to_sample.
    apply shape_ok_S in Sx. apply shape_ok_S in Se.
    destruct Sx as [Lx Sx], Se as [Le Se].
    cbn [all_finite] in Fx, Fe.
    rewrite <- La in Lx, Le. clear La Lt Hidx Hvalid.
    revert latent noise Lx Le Sx Se Fx Fe.
    induction alphas as [|a alphas IH]; intros [|x0 x] [|e0 e] Lx Le Sx Se Fx Fe;
      try discriminate; [reflexivity|].
    cbn [zip3_with]. cbn [forallb] in Fx, Fe.
    apply andb_true_iff in Fx, Fe. destruct Fx as [Fx0 Fx], Fe as [Fe0 Fe].
    inversion Sx; subst. inversion Se; subst. inversion Va; subst.
    f_equal.
    + now apply tmap2_pred_clean_noisy with (sh := sh).
    + apply IH; auto.
Qed.

(** ** The training script *)

(** C3.  Whatever the arguments, the batches and the directory, [main]
    unpacks the seven-element tuple of [setup_model] into eight names: it
    raises [ValueError] there, and no training state is ever built, so the
    loop is not entered. *)
Theorem main_fails_unpacking_setup_model :
  forall (E : Externals) (args : Args) (batches : nat -> Batch)
         (listing : list string),
    length (setup_model E args (new_accelerator E args)) = 7%nat
    /\ main E args batches listing
       = (Raise (ValueError "not enough values to unpack (expected 8, got 7)"),
          None).
Proof.
  intros E args batches listing. split; reflexivity.
Qed.

(** *** Graphs of the values of the fake-score pass *)

Lemma call_unet_graph g u x t e y :
  call_unet g u x t e = Ok y ->
  graph y = if g
            then ((if requires_grad u then [owner u] else []) ++ graph x ++ graph e)%list
            else [].
Proof.
  unfold call_unet. destruct (forward u (data x) t (data e)); simpl; [|discriminate].
  intros H. inversion H. reflexivity.
Qed.

Lemma vadd_noise_graph s x noise t y :
  vadd_noise s x noise t = Ok y -> graph y = (graph x ++ graph noise)%list.
Proof.
  unfold vadd_noise. destruct (add_noise s (data x) (data noise) t); simpl; [|discriminate].
  intros H. inversion H. reflexivity.
Qed.

Lemma select_target_graph s latents noise t y :
  select_target s latents noise t = Ok y ->
  graph latents = [] -> graph noise = [] -> graph y = [].
Proof.
  unfold select_target. intros H Hl Hn.
  destruct (String.eqb (prediction_type s) "epsilon").
  - inversion H; subst. exact Hn.
  - destruct (String.eqb (prediction_type s) "v_prediction"); [|discriminate].
    destruct (get_velocity s (data latents) (data noise) t); simpl in H; [|discriminate].
    inversion H. simpl. now rewrite Hl, Hn.
Qed.

Lemma mse_loss_graph n (x y : var n) l :
  mse_loss x y = Ok l -> graph l = (graph x ++ graph y)%list.
Proof.
  unfold mse_loss. destruct (bcast2 nsub n (data x) (data y)); simpl; [|discriminate].
  intros H. inversion H. reflexivity.
Qed.

Lemma fake_loss_graph E args s model_pred target t l :
  fake_loss E args s model_pred target t = Ok l ->
  graph (fst l) = (graph model_pred ++ graph target)%list.
Proof.
  unfold fake_loss. destruct (snr_gamma args) as [gamma|].
  - destruct (mse_loss_weights E s gamma t); cbn [Py.bind]; [|discriminate].
    destruct (bcast2 nsub 4 (data model_pred) (data target)); cbn [Py.bind]; [|discriminate].
    destruct (bcast2 nmul 1 _ _); cbn [Py.bind]; [|discriminate].
    intros H. inversion H. reflexivity.
  - destruct (mse_loss model_pred target) eqn:M; simpl; [|discriminate].
    intros H. inversion H. simpl. eapply mse_loss_graph; eauto.
Qed.

(** *** Running the monad *)

Lemma run_bind_lift E {A B} (r : result A) (k : A -> M E B) st :
  mbind (lift r) k st
  = match r with
    | Ok a => k a st
    | Raise e => (Raise e, st)
    end.
Proof. unfold mbind, lift. now destruct r. Qed.

Lemma run_bind_get E {B} (k : State E -> M E B) st :
  mbind get k st = k st st.
Proof. reflexivity. Qed.

Ltac run_lift :=
  rewrite run_bind_lift;
  match goal with
  | |- context [match ?r with Ok _ => _ | Raise _ => _ end] =>
      let H := fresh "Hrun" in destruct r eqn:H
  end.

(** The draw of line 400, at the head of the fake-score pass. *)
Ltac run_randint :=
  rewrite run_bind_lift;
  match goal with
  | |- context [randint_check ?lo ?hi] =>
      destruct (randint_check lo hi) as [[]|?]
  end.

(** *** The fake-score pass and the student's parameters *)

Lemma train_fake_frame E args acc s latents_pred_cat prompt_embeds b st :
  let st' := snd (train_fake E args acc s latents_pred_cat prompt_embeds b st) in
  student_w st' = student_w st
  /\ student_grad st' = student_grad st
  /\ student_optimizer st' = student_optimizer st.
Proof.
  unfold train_fake. rewrite run_bind_get.
  run_randint; [|now cbn].
  run_lift; [|now cbn].
  run_lift; [|now cbn].
  run_lift; [|now cbn].
  run_lift; [|now cbn].
  pose proof (vadd_noise_graph _ _ _ _ _ Hrun) as G1.
  pose proof (select_target_graph _ _ _ _ _ Hrun0 eq_refl eq_refl) as G2.
  pose proof (call_unet_graph _ _ _ _ _ _ Hrun1) as G3.
  pose proof (fake_loss_graph _ _ _ _ _ _ _ Hrun2) as G4.
  cbn [stopgrad detach const graph fake_unet requires_grad owner] in G1, G3.
  rewrite G1 in G3. cbn [app] in G3.
  rewrite G3, G2 in G4. cbn [app] in G4.
  unfold mbind, assign_loss, backward. cbn [fst snd].
  rewrite G4. unfold reaches. rewrite G4. cbn [existsb net_eqb orb].
  destruct (sync_gradients acc); cbn; auto.
Qed.

(** *** The events of one pass *)

Lemma train_student_trace E args acc s b st :
  match train_student E args acc s b st with
  | (Ok _, st') => trace st' = (trace st ++ [OptimizerStep Student])%list
  | (Raise _, st') => trace st' = trace st
  end.
Proof.
  unfold train_student. rewrite run_bind_get.
  run_lift; [|reflexivity].
  run_lift; [|reflexivity].
  run_lift; [|reflexivity].
  run_lift; [|reflexivity].
  unfold mbind, backward.
  destruct (graph (generator_loss args a1 a2)); [reflexivity|].
  destruct (sync_gradients acc); reflexivity.
Qed.

Lemma train_fake_trace E args acc s latents_pred_cat prompt_embeds b st :
  match train_fake E args acc s latents_pred_cat prompt_embeds b st with
  | (Ok _, st') => trace st' = (trace st ++ [OptimizerStep Fake])%list
  | (Raise _, st') => trace st' = trace st
  end.
Proof.
  unfold train_fake. rewrite run_bind_get.
  run_randint; [|reflexivity].
  run_lift; [|reflexivity].
  run_lift; [|reflexivity].
  run_lift; [|reflexivity].
  run_lift; [|reflexivity].
  unfold mbind, assign_loss, backward. cbn [fst snd].
  destruct (graph (fst a2)); [reflexivity|].
  destruct (sync_gradients acc); reflexivity.
Qed.

Lemma save_checkpoint_trace E args (st : State E) :
  exists evs,
    trace (snd (save_checkpoint E args st)) = (trace st ++ evs)%list
    /\ Forall file_event evs.
Proof.
  unfold save_checkpoint. rewrite run_bind_get.
  destruct (checkpoints_total_limit args) as [limit|].
  - unfold mbind at 1. rewrite run_bind_lift.
    destruct (removing_checkpoints limit (files st)) as [removing|e].
    + cbn. exists (map RemoveTree removing
                     ++ [SaveState ("checkpoint-" ++ PyStr.str (global_step st))])%list.
      split; [now rewrite app_assoc|].
      apply Forall_app. split; [|repeat constructor].
      apply Forall_forall. intros ev Hev. apply in_map_iff in Hev.
      destruct Hev as [x [<- _]]. exact I.
    + exists []. cbn. split; [now rewrite app_nil_r | constructor].
  - cbn. eexists. split; [reflexivity|]. repeat constructor.
Qed.

Lemma checkpoint_block_trace E args acc (st : State E) :
  exists evs,
    trace (snd (checkpoint_block E args acc st)) = (trace st ++ evs)%list
    /\ Forall file_event evs.
Proof.
  unfold checkpoint_block.
  destruct (sync_gradients acc); [|exists []; cbn; now rewrite app_nil_r].
  unfold mbind at 1. cbn [increment_global_step mbind get set_global_step].
  destruct (is_main_process acc); [|exists []; cbn; now rewrite app_nil_r].
  rewrite run_bind_get. run_lift; [|exists []; cbn; now rewrite app_nil_r].
  destruct (a =? 0)%Z.
  - destruct (save_checkpoint_trace E args
                {| teacher_w := teacher_w st; fake_w := fake_w st;
                   student_w := student_w st; fake_grad := fake_grad st;
                   student_grad := student_grad st;
                   fake_optimizer := fake_optimizer st;
                   student_optimizer := student_optimizer st;
                   global_step := (global_step st + 1)%Z;
                   loss_local := loss_local st;
                   files := files st; trace := trace st |})
      as [evs [Ht Hq]].
    exists evs. split; [exact Ht | exact Hq].
  - exists []. cbn. now rewrite app_nil_r.
Qed.

Lemma emit_logs_trace E loss_d (st : State E) :
  exists evs,
    trace (snd (emit_logs E loss_d st)) = (trace st ++ evs)%list
    /\ Forall quiet evs.
Proof.
  unfold emit_logs. rewrite run_bind_get.
  destruct (loss_local st) as [loss|]; [|exists []; cbn; now rewrite app_nil_r].
  run_lift; [|exists []; cbn; now rewrite app_nil_r].
  cbn. eexists. split; [reflexivity|]. repeat constructor.
Qed.

Lemma file_event_quiet ev : file_event ev -> quiet ev.
Proof. now destruct ev. Qed.

Lemma train_iteration_trace E args acc s b (st : State E) :
  exists evs,
    trace (snd (train_iteration E args acc s b st)) = (trace st ++ evs)%list
    /\ (evs = []
        \/ evs = [OptimizerStep Student]
        \/ exists rest,
             evs = OptimizerStep Student :: OptimizerStep Fake :: rest
             /\ Forall quiet rest).
Proof.
  unfold train_iteration. unfold mbind at 1.
  pose proof (train_student_trace E args acc s b st) as T1.
  destruct (train_student E args acc s b st) as [[r|e] st1];
    [|exists []; cbn; rewrite app_nil_r; auto].
  unfold mbind at 1.
  pose proof (train_fake_trace E args acc s (fst (fst r)) (snd (fst r)) b st1) as T2.
  destruct (train_fake E args acc s (fst (fst r)) (snd (fst r)) b st1)
    as [[loss_d|e] st2];
    [|exists [OptimizerStep Student]; cbn; rewrite T2, T1; auto].
  unfold mbind at 1.
  destruct (checkpoint_block_trace E args acc st2) as [ev3 [T3 Q3]].
  apply (Forall_impl quiet file_event_quiet) in Q3.
  destruct (checkpoint_block E args acc st2) as [[[]|e] st3]; cbn [snd] in T3.
  - unfold mbind at 1.
    destruct (emit_logs_trace E loss_d st3) as [ev4 [T4 Q4]].
    destruct (emit_logs E loss_d st3) as [[[]|e] st4]; cbn [snd] in T4.
    + rewrite run_bind_get. cbn [ret snd].
      exists (OptimizerStep Student :: OptimizerStep Fake :: ev3 ++ ev4)%list.
      split.
      * rewrite T4, T3, T2, T1. now rewrite <- !app_assoc.
      * right. right. eexists. split; [reflexivity|]. now apply Forall_app.
    + cbn [snd].
      exists (OptimizerStep Student :: OptimizerStep Fake :: ev3 ++ ev4)%list.
      split.
      * rewrite T4, T3, T2, T1. now rewrite <- !app_assoc.
      * right. right. eexists. split; [reflexivity|]. now apply Forall_app.
  - cbn [snd].
    exists (OptimizerStep Student :: OptimizerStep Fake :: ev3)%list.
    split.
    + rewrite T3, T2, T1. now rewrite <- !app_assoc.
    + right. right. eexists. split; [reflexivity | exact Q3].
Qed.

(** C2.  The fake-score pass takes the student's latents and the prompt
    embeddings through [stopgrad] only: whatever it is run on, and whether
    it raises or not, it leaves the student's weights, the student's
    gradient buffers and the student's optimizer as they were.  And the
    optimizer steps of one pass of the loop come in one order: nothing, or
    the student's step alone (the pass raised in between), or the student's
    step, then the fake network's step, then no further optimizer step. *)
Theorem fake_step_never_changes_student :
  forall (E : Externals) (args : Args) (acc : Accelerator)
         (noise_scheduler : Scheduler) (b : Batch) (st : State E),
    (forall latents_pred_cat prompt_embeds,
        let st' := snd (train_fake E args acc noise_scheduler
                          latents_pred_cat prompt_embeds b st) in
        student_w st' = student_w st
        /\ student_grad st' = student_grad st
        /\ student_optimizer st' = student_optimizer st)
    /\ exists evs,
        trace (snd (train_iteration E args acc noise_scheduler b st))
        = (trace st ++ evs)%list
        /\ (evs = []
            \/ evs = [OptimizerStep Student]
            \/ exists rest,
                 evs = OptimizerStep Student :: OptimizerStep Fake :: rest
                 /\ Forall quiet rest).
Proof.
  intros E args acc s b st. split.
  - intros lpc pe. apply train_fake_frame.
  - apply train_iteration_trace.
Qed.

(** *** The regression target of the fake-score pass *)

Lemma select_target_unknown s latents noise t :
  prediction_type s <> "epsilon"%string ->
  prediction_type s <> "v_prediction"%string ->
  select_target s latents noise t
  = Raise (ValueError ("Unknown prediction type " ++ prediction_type s)).
Proof.
  intros H1 H2. unfold select_target.
  destruct (String.eqb_spec (prediction_type s) "epsilon"); [contradiction|].
  destruct (String.eqb_spec (prediction_type s) "v_prediction"); [contradiction|].
  reflexivity.
Qed.

Lemma train_fake_unknown_type E args acc s lpc pe b (st : State E) :
  prediction_type s <> "epsilon"%string ->
  prediction_type s <> "v_prediction"%string ->
  exists e,
    train_fake E args acc s lpc pe b st = (Raise e, st)
    /\ ((0 < num_train_timesteps s)%Z ->
        forall noisy,
          add_noise s (data lpc) (fake_noise b) (fake_timesteps b) = Ok noisy ->
          e = ValueError ("Unknown prediction type " ++ prediction_type s))
    /\ ((num_train_timesteps s <= 0)%Z -> exists msg, e = RuntimeError msg).
Proof.
  intros H1 H2.
  unfold train_fake. rewrite run_bind_get.
  rewrite run_bind_lift. unfold randint_check.
  destruct (Z.ltb_spec 0 (num_train_timesteps s)) as [HT|HT].
  - rewrite run_bind_lift. unfold vadd_noise.
    cbn [stopgrad detach const data graph].
    destruct (add_noise s (data lpc) (fake_noise b) (fake_timesteps b)) as [y|e0].
    + cbn [Py.bind]. rewrite run_bind_lift.
      rewrite select_target_unknown by assumption.
      eexists. split; [reflexivity|]. split; [intros; reflexivity | lia].
    + cbn [Py.bind]. exists e0. split; [reflexivity|].
      split; [intros; discriminate | lia].
  - eexists. split; [reflexivity|].
    split; [lia | intros _; eexists; reflexivity].
Qed.

(** Seen from the whole pass of the loop, the error comes after the
    student's optimizer step of that pass, and before the fake network's. *)
Lemma unknown_type_raises_after_student_step E args acc s b (st : State E) r st1 :
  prediction_type s <> "epsilon"%string ->
  prediction_type s <> "v_prediction"%string ->
  train_student E args acc s b st = (Ok r, st1) ->
  exists e,
    train_iteration E args acc s b st = (Raise e, st1)
    /\ trace st1 = (trace st ++ [OptimizerStep Student])%list.
Proof.
  intros H1 H2 Hs.
  pose proof (train_student_trace E args acc s b st) as T1. rewrite Hs in T1.
  destruct (train_fake_unknown_type E args acc s (fst (fst r)) (snd (fst r)) b st1
              H1 H2) as [e [He _]].
  exists e. split; [|exact T1].
  unfold train_iteration. unfold mbind at 1. rewrite Hs.
  unfold mbind at 1. now rewrite He.
Qed.

(** C8, as the code has it.  The target of the fake-score pass follows the
    scheduler's prediction type: the sampled noise for ["epsilon"], the
    scheduler's velocity of the latents, the noise and the timesteps for
    ["v_prediction"].  For any other type the selection raises
    [ValueError].  The fake-score pass then stops with the state it started
    from, so with no parameter updated by it; its error is that
    [ValueError] when the timestep draw of line 400 and the noising of line
    403 before it went through.  But the error is not raised before any
    parameter update: in a pass of the loop it comes after the student's
    optimizer step of line 384, and the pass ends in the state that step
    left. *)
Theorem fake_target_follows_prediction_type :
  forall (E : Externals) (args : Args) (acc : Accelerator)
         (noise_scheduler : Scheduler) (latents noise : var 4)
         (timesteps : list Z),
    (prediction_type noise_scheduler = "epsilon"%string ->
     select_target noise_scheduler latents noise timesteps = Ok noise)
    /\ (prediction_type noise_scheduler = "v_prediction"%string ->
        select_target noise_scheduler latents noise timesteps
        = (v <- get_velocity noise_scheduler (data latents) (data noise) timesteps ;;
           Ok (Var (n := 4) v (graph latents ++ graph noise))))
    /\ (prediction_type noise_scheduler <> "epsilon"%string ->
        prediction_type noise_scheduler <> "v_prediction"%string ->
        select_target noise_scheduler latents noise timesteps
        = Raise (ValueError ("Unknown prediction type "
                             ++ prediction_type noise_scheduler))
        /\ (forall latents_pred_cat prompt_embeds b (st : State E) noisy,
               (0 < num_train_timesteps noise_scheduler)%Z ->
               add_noise noise_scheduler (data latents_pred_cat)
                         (fake_noise b) (fake_timesteps b) = Ok noisy ->
               train_fake E args acc noise_scheduler latents_pred_cat
                          prompt_embeds b st
               = (Raise (ValueError ("Unknown prediction type "
                                     ++ prediction_type noise_scheduler)), st))
        /\ (forall b (st : State E) r st1,
               train_student E args acc noise_scheduler b st = (Ok r, st1) ->
               trace st1 = (trace st ++ [OptimizerStep Student])%list
               /\ exists e,
                   train_iteration E args acc noise_scheduler b st
                   = (Raise e, st1))).
Proof.
  intros E args acc s latents noise ts. split; [|split].
  - intros H. unfold select_target. now rewrite H.
  - intros H. unfold select_target. now rewrite H.
  - intros H1 H2. split; [now apply select_target_unknown|]. split.
    + intros lpc pe b st noisy HT Hnoisy.
      destruct (train_fake_unknown_type E args acc s lpc pe b st H1 H2)
        as [e [He [Hv _]]].
      now rewrite He, (Hv HT noisy Hnoisy).
    + intros b st r st1 Hs.
      destruct (unknown_type_raises_after_student_step E args acc s b st r st1
                  H1 H2 Hs) as [e [He Ht]].
      split; [exact Ht|]. exists e. exact He.
Qed.

Lemma fake_target_follows_prediction_type_witness :
  select_target Demo.thousand_steps
                (const (Demo.two 0 1)) (const (Demo.two 1 2)) [0%Z; 999%Z]
  = Ok (const (Demo.two 1 2))
  /\ train_fake Demo.E (Demo.args None None) Demo.accelerator
                Demo.unknown_type_steps
                (const (Demo.two 0 1)) (const (Demo.embeddings 2))
                Demo.drawn_batch (Demo.state 0 [])
     = (Raise (ValueError "Unknown prediction type sample"), Demo.state 0 []).
Proof.
  split.
  - apply (fake_target_follows_prediction_type Demo.E (Demo.args None None)
             Demo.accelerator Demo.thousand_steps).
    reflexivity.
  - destruct (fake_target_follows_prediction_type Demo.E (Demo.args None None)
                Demo.accelerator Demo.unknown_type_steps
                (const (Demo.two 0 1)) (const (Demo.two 1 2)) [0%Z; 999%Z])
      as [_ [_ H]].
    destruct H as [_ [H _]]; [discriminate | discriminate |].
    eapply (H (const (Demo.two 0 1)) (const (Demo.embeddings 2))
              Demo.drawn_batch (Demo.state 0 [])).
    + reflexivity.
    + reflexivity.
Defined.

(** *** The logs *)

Lemma train_student_loss_local E args acc s b (st : State E) :
  loss_local (snd (train_student E args acc s b st)) = loss_local st.
Proof.
  unfold train_student. rewrite run_bind_get.
  run_lift; [|reflexivity].
  run_lift; [|reflexivity].
  run_lift; [|reflexivity].
  run_lift; [|reflexivity].
  unfold mbind, backward.
  destruct (graph (generator_loss args a1 a2)); [reflexivity|].
  destruct (sync_gradients acc); reflexivity.
Qed.

Lemma fake_loss_unweighted E args s model_pred target t l :
  snr_gamma args = None ->
  fake_loss E args s model_pred target t = Ok l -> snd l = None.
Proof.
  intros Hg. unfold fake_loss. rewrite Hg.
  destruct (mse_loss model_pred target); cbn [Py.bind]; [|discriminate].
  intros H. now inversion H.
Qed.

Lemma train_fake_loss_local E args acc s lpc pe b (st : State E) :
  snr_gamma args = None ->
  loss_local (snd (train_fake E args acc s lpc pe b st)) = loss_local st.
Proof.
  intros Hg. unfold train_fake. rewrite run_bind_get.
  run_randint; [|reflexivity].
  run_lift; [|reflexivity].
  run_lift; [|reflexivity].
  run_lift; [|reflexivity].
  run_lift; [|reflexivity].
  rewrite (fake_loss_unweighted _ _ _ _ _ _ _ Hg Hrun2).
  unfold mbind, assign_loss, backward. cbn [fst snd].
  destruct (graph (fst a2)); [reflexivity|].
  destruct (sync_gradients acc); reflexivity.
Qed.

Lemma save_checkpoint_loss_local E args (st : State E) :
  loss_local (snd (save_checkpoint E args st)) = loss_local st.
Proof.
  unfold save_checkpoint. rewrite run_bind_get.
  destruct (checkpoints_total_limit args) as [limit|].
  - unfold mbind at 1. rewrite run_bind_lift.
    destruct (removing_checkpoints limit (files st)); reflexivity.
  - reflexivity.
Qed.

Lemma checkpoint_block_loss_local E args acc (st : State E) :
  loss_local (snd (checkpoint_block E args acc st)) = loss_local st.
Proof.
  unfold checkpoint_block.
  destruct (sync_gradients acc); [|reflexivity].
  unfold mbind at 1. cbn [increment_global_step mbind get set_global_step].
  destruct (is_main_process acc); [|reflexivity].
  rewrite run_bind_get. run_lift; [|reflexivity].
  destruct (a =? 0)%Z; [|reflexivity].
  now rewrite save_checkpoint_loss_local.
Qed.

Lemma file_event_not_log ev : file_event ev -> ~ is_log ev.
Proof. now destruct ev. Qed.

(** C7, as the code has it.  The log line reads the local variable
    [loss], not [loss_g].  With no SNR reweighting configured [loss] is
    never assigned.  So a pass of the loop that starts with [loss] unbound
    and gets through the student pass, the fake-score pass and the
    checkpoint block raises [UnboundLocalError] for [loss] at line 472, in
    the state the checkpoint block left: the composed generator loss
    [loss_g] that the student pass computed is not logged.  And whatever
    happens before, such a pass never returns and never logs anything. *)
Theorem iteration_log_reads_unbound_loss :
  forall (E : Externals) (args : Args) (acc : Accelerator)
         (noise_scheduler : Scheduler) (b : Batch) (st : State E),
    snr_gamma args = None ->
    loss_local st = None ->
    (forall r st1 loss_d st2 st3,
        train_student E args acc noise_scheduler b st = (Ok r, st1) ->
        train_fake E args acc noise_scheduler (fst (fst r)) (snd (fst r)) b st1
        = (Ok loss_d, st2) ->
        checkpoint_block E args acc st2 = (Ok tt, st3) ->
        train_iteration E args acc noise_scheduler b st
        = (Raise (UnboundLocalError "loss"), st3))
    /\ exists e st' evs,
        train_iteration E args acc noise_scheduler b st = (Raise e, st')
        /\ loss_local st' = None
        /\ trace st' = (trace st ++ evs)%list
        /\ Forall (fun ev => ~ is_log ev) evs.
Proof.
  intros E args acc s b st Hg Hl. split.
  - intros r st1 loss_d st2 st3 Hs Hf Hc.
    pose proof (train_student_loss_local E args acc s b st) as L1.
    pose proof (train_fake_loss_local E args acc s (fst (fst r)) (snd (fst r)) b st1 Hg)
      as L2.
    pose proof (checkpoint_block_loss_local E args acc st2) as L3.
    rewrite Hs in L1. rewrite Hf in L2. rewrite Hc in L3. cbn [snd] in L1, L2, L3.
    unfold train_iteration. unfold mbind at 1. rewrite Hs.
    unfold mbind at 1. rewrite Hf.
    unfold mbind at 1. rewrite Hc.
    unfold mbind at 1. unfold emit_logs. rewrite run_bind_get.
    replace (loss_local st3) with (@None (var 1)) by congruence.
    reflexivity.
  - unfold train_iteration. unfold mbind at 1.
    pose proof (train_student_loss_local E args acc s b st) as L1.
    pose proof (train_student_trace E args acc s b st) as T1.
    destruct (train_student E args acc s b st) as [[r|e] st1]; cbn [snd] in L1.
    2:{ exists e, st1, []. rewrite app_nil_r.
        repeat split; [congruence | exact T1 | constructor]. }
    unfold mbind at 1.
    pose proof (train_fake_loss_local E args acc s (fst (fst r)) (snd (fst r)) b st1 Hg)
      as L2.
    pose proof (train_fake_trace E args acc s (fst (fst r)) (snd (fst r)) b st1) as T2.
    destruct (train_fake E args acc s (fst (fst r)) (snd (fst r)) b st1)
      as [[loss_d|e] st2]; cbn [snd] in L2.
    2:{ exists e, st2, [OptimizerStep Student]. rewrite T2, T1.
        repeat split; [congruence | repeat constructor; intros []]. }
    unfold mbind at 1.
    pose proof (checkpoint_block_loss_local E args acc st2) as L3.
    destruct (checkpoint_block_trace E args acc st2) as [ev3 [T3 Q3]].
    assert (Hevs : Forall (fun ev => ~ is_log ev)
                     (OptimizerStep Student :: OptimizerStep Fake :: ev3)).
    { constructor; [intros []|]. constructor; [intros []|].
      eapply Forall_impl; [|exact Q3]. apply file_event_not_log. }
    assert (Htr : forall st3 : State E,
               trace st3 = (trace st2 ++ ev3)%list ->
               trace st3
               = (trace st ++ OptimizerStep Student :: OptimizerStep Fake :: ev3)%list).
    { intros st3 H. rewrite H, T2, T1. now rewrite <- !app_assoc. }
    destruct (checkpoint_block E args acc st2) as [[[]|e] st3]; cbn [snd] in L3, T3.
    2:{ exists e, st3, (OptimizerStep Student :: OptimizerStep Fake :: ev3).
        repeat split; [congruence | now apply Htr | exact Hevs]. }
    unfold mbind at 1. unfold emit_logs. rewrite run_bind_get.
    assert (H3 : loss_local st3 = None) by congruence. rewrite H3.
    exists (UnboundLocalError "loss"), st3,
      (OptimizerStep Student :: OptimizerStep Fake :: ev3).
    repeat split; [exact H3 | now apply Htr | exact Hevs].
Qed.

(** ** Checkpoint retention *)

(** *** [sorted] is a stable insertion sort: a permutation, in key order *)

Lemma insert_by_key_perm {A} k (x : A) l :
  Permutation ((k, x) :: l) (PyStr.insert_by_key k x l).
Proof.
  induction l as [|[k' y] l IH]; simpl; [constructor; constructor|].
  destruct (k' <? k)%Z.
  - eapply perm_trans; [apply perm_swap|]. now constructor.
  - apply Permutation_refl.
Qed.

Lemma insert_by_key_In {A} k (x : A) l p :
  In p (PyStr.insert_by_key k x l) -> p = (k, x) \/ In p l.
Proof.
  intros H. apply (Permutation_in _ (Permutation_sym (insert_by_key_perm k x l))) in H.
  destruct H; auto.
Qed.

Lemma insert_by_key_sorted {A} k (x : A) l :
  StronglySorted PyStr.key_le l -> StronglySorted PyStr.key_le (PyStr.insert_by_key k x l).
Proof.
  induction 1 as [|[k' y] l Hs IH Hall]; simpl.
  - repeat constructor.
  - destruct (Z.ltb_spec k' k).
    + constructor; [exact IH|].
      apply Forall_forall. intros p Hp.
      apply insert_by_key_In in Hp. destruct Hp as [->|Hp].
      * unfold PyStr.key_le; simpl; lia.
      * rewrite Forall_forall in Hall. now apply Hall.
    + constructor; [now constructor|].
      constructor; [unfold PyStr.key_le; simpl; lia|].
      eapply Forall_impl; [|exact Hall].
      intros p Hp. unfold PyStr.key_le in *; simpl in *; lia.
Qed.

Lemma isort_perm {A} (l : list (Z * A)) : Permutation l (PyStr.isort l).
Proof.
  induction l as [|[k x] l IH]; simpl; [constructor|].
  eapply perm_trans; [|apply insert_by_key_perm]. now constructor.
Qed.

Lemma isort_sorted {A} (l : list (Z * A)) : StronglySorted PyStr.key_le (PyStr.isort l).
Proof.
  induction l as [|[k x] l IH]; simpl; [constructor|].
  now apply insert_by_key_sorted.
Qed.

Lemma mapM_Forall2 {A B} (f : A -> result B) xs ys :
  mapM f xs = Ok ys -> Forall2 (fun x y => f x = Ok y) xs ys.
Proof.
  revert ys. induction xs as [|x xs IH]; simpl; intros ys H.
  - inversion H. constructor.
  - destruct (f x) eqn:Fx; cbn [Py.bind] in H; [|discriminate].
    destruct (mapM f xs); cbn [Py.bind] in H; [|discriminate].
    inversion H; subst. constructor; auto.
Qed.

Lemma mapM_total {A B} (f : A -> result B) xs :
  Forall (fun x => exists y, f x = Ok y) xs -> exists ys, mapM f xs = Ok ys.
Proof.
  induction 1 as [|x xs [y Hy] _ [ys IH]]; simpl.
  - now exists [].
  - rewrite Hy, IH. cbn. now eexists.
Qed.

Lemma combine_keys {A} (key : A -> result Z) xs ks :
  Forall2 (fun x k => key x = Ok k) xs ks ->
  map snd (combine ks xs) = xs
  /\ forall p, In p (combine ks xs) -> key (snd p) = Ok (fst p).
Proof.
  induction 1 as [|x k xs ks Hk _ [IH1 IH2]]; simpl.
  - split; [reflexivity | contradiction].
  - split; [now rewrite IH1|].
    intros p [<-|Hp]; [exact Hk | now apply IH2].
Qed.

(** What [sorted] returns, when no key raises. *)
Lemma sorted_spec {A} (key : A -> result Z) xs ys :
  PyStr.sorted key xs = Ok ys ->
  exists ps : list (Z * A),
    ys = map snd ps
    /\ Permutation xs ys
    /\ StronglySorted PyStr.key_le ps
    /\ forall p, In p ps -> key (snd p) = Ok (fst p).
Proof.
  unfold PyStr.sorted. destruct (mapM key xs) as [ks|] eqn:Hk; cbn [Py.bind];
    [|discriminate].
  intros H. inversion H; subst. clear H.
  apply mapM_Forall2 in Hk. destruct (combine_keys key xs ks Hk) as [C1 C2].
  exists (PyStr.isort (combine ks xs)). split; [reflexivity|]. split; [|split].
  - rewrite <- C1 at 1. apply Permutation_map. apply isort_perm.
  - apply isort_sorted.
  - intros p Hp. apply C2.
    eapply Permutation_in; [apply Permutation_sym, isort_perm | exact Hp].
Qed.

(** *** Removing the first entries of a duplicate-free list *)

Lemma filter_kept_split (l : list string) k :
  NoDup l -> filter (kept (firstn k l)) l = skipn k l.
Proof.
  revert k. induction l as [|x l IH]; intros k Hnd.
  - now destruct k.
  - destruct k as [|k].
    + cbn [firstn skipn]. clear IH Hnd. generalize (x :: l). intros l0.
      induction l0 as [|y l0 IH0]; [reflexivity|].
      cbn. now rewrite IH0.
    + cbn [firstn skipn filter]. inversion Hnd as [|? ? Hx Hl]; subst.
      replace (kept (x :: firstn k l) x) with false
        by (unfold kept; cbn; now rewrite String.eqb_refl).
      rewrite <- (IH k Hl). apply filter_ext_in. intros y Hy.
      unfold kept. cbn [existsb].
      destruct (String.eqb_spec y x) as [->|_]; [contradiction | reflexivity].
Qed.

Lemma filter_perm {A} (p : A -> bool) l l' :
  Permutation l l' -> Permutation (filter p l) (filter p l').
Proof.
  induction 1 as [|x l l' _ IH|x y l|l l' l'' _ IH1 _ IH2]; simpl.
  - constructor.
  - destruct (p x); [now constructor | exact IH].
  - destruct (p x), (p y); try apply Permutation_refl. apply perm_swap.
  - eapply perm_trans; eauto.
Qed.

Lemma filter_comm {A} (p q : A -> bool) l :
  filter p (filter q l) = filter q (filter p l).
Proof.
  induction l as [|x l IH]; simpl; [reflexivity|].
  destruct (p x) eqn:Px, (q x) eqn:Qx; simpl; rewrite ?Px, ?Qx, IH; reflexivity.
Qed.

(** *** One save under a retention limit *)

Lemma new_checkpoint_name step :
  is_checkpoint ("checkpoint-" ++ PyStr.str step) = true.
Proof. reflexivity. Qed.

Lemma removing_checkpoints_eq limit listing sorted :
  PyStr.sorted checkpoint_key (filter is_checkpoint listing) = Ok sorted ->
  (1 <= limit <= Z.of_nat (length sorted))%Z ->
  removing_checkpoints limit listing
  = Ok (firstn (Z.to_nat (Z.of_nat (length sorted) - limit + 1)) sorted).
Proof.
  intros Hs HN. unfold removing_checkpoints.
  rewrite Hs. cbn [Py.bind].
  destruct (Z.geb_spec (Z.of_nat (length sorted)) limit) as [_|Hlt]; [|lia].
  unfold PyStr.slice_to.
  destruct (Z.ltb_spec (Z.of_nat (length sorted) - limit + 1) 0); [lia | reflexivity].
Qed.

(** C6, as the code has it.  A save under a retention limit [N >= 1], in a
    directory that holds [M >= N] checkpoints named [checkpoint-<step>] and
    not yet the one being saved: the checkpoints are sorted by step, the
    first [M - N + 1] of them, one more than [M - N], are removed before the
    save, and after the save the directory holds the [N - 1] newest old
    checkpoints and the new one, [N] in all. *)
Theorem retention_leaves_limit_after_save :
  forall (E : Externals) (args : Args) (st : State E) (N : Z),
    checkpoints_total_limit args = Some N ->
    (1 <= N)%Z ->
    (N <= Z.of_nat (length (filter is_checkpoint (files st))))%Z ->
    NoDup (files st) ->
    ~ In ("checkpoint-" ++ PyStr.str (global_step st))%string (files st) ->
    Forall (fun d => exists k, checkpoint_key d = Ok k)
           (filter is_checkpoint (files st)) ->
    exists (ps : list (Z * string)) (st' : State E),
      let checkpoints := filter is_checkpoint (files st) in
      let sorted := map snd ps in
      let k := Z.to_nat (Z.of_nat (length checkpoints) - N + 1) in
      let new := ("checkpoint-" ++ PyStr.str (global_step st))%string in
      Permutation checkpoints sorted
      /\ StronglySorted PyStr.key_le ps
      /\ (forall p, In p ps -> checkpoint_key (snd p) = Ok (fst p))
      /\ removing_checkpoints N (files st) = Ok (firstn k sorted)
      /\ length (firstn k sorted) = k
      /\ save_checkpoint E args st = (Ok tt, st')
      /\ trace st' = (trace st ++ map RemoveTree (firstn k sorted) ++ [SaveState new])%list
      /\ Permutation (filter is_checkpoint (files st')) (skipn k sorted ++ [new])
      /\ Z.of_nat (length (filter is_checkpoint (files st'))) = N.
Proof.
  intros E args st N Hlim HN1 HNM Hnd Hnew Hkeys.
  destruct (mapM_total checkpoint_key _ Hkeys) as [ks Hks].
  assert (Hsorted : PyStr.sorted checkpoint_key (filter is_checkpoint (files st))
                    = Ok (map snd (PyStr.isort (combine ks (filter is_checkpoint (files st)))))).
  { unfold PyStr.sorted. now rewrite Hks. }
  destruct (sorted_spec _ _ _ Hsorted) as [ps [Eps [Hperm [Hss Hk]]]].
  rewrite Eps in Hsorted, Hperm. clear Eps.
  pose proof (Permutation_length Hperm) as Hlen.
  set (checkpoints := filter is_checkpoint (files st)) in *.
  set (sorted := map snd ps) in *.
  set (k := Z.to_nat (Z.of_nat (length checkpoints) - N + 1)).
  set (new := ("checkpoint-" ++ PyStr.str (global_step st))%string) in *.
  assert (Hrem : removing_checkpoints N (files st) = Ok (firstn k sorted)).
  { unfold k. rewrite Hlen. apply removing_checkpoints_eq; [exact Hsorted | lia]. }
  assert (Hk_le : (k <= length sorted)%nat) by (unfold k; lia).
  assert (Hnd_sorted : NoDup sorted).
  { eapply Permutation_NoDup; [exact Hperm|]. now apply NoDup_filter. }
  pose (files1 := filter (kept (firstn k sorted)) (files st)).
  assert (Hnew1 : existsb (String.eqb new) files1 = false).
  { destruct (existsb (String.eqb new) files1) eqn:Hx; [|reflexivity].
    apply existsb_exists in Hx. destruct Hx as [g [Hg Heq]].
    apply String.eqb_eq in Heq. subst g.
    apply filter_In in Hg. destruct Hg as [Hg _]. contradiction. }
  eexists ps, _. cbn zeta. fold checkpoints sorted k new.
  split; [exact Hperm|]. split; [exact Hss|]. split; [exact Hk|].
  split; [exact Hrem|]. split; [now apply firstn_length_le|].
  assert (Hrun : save_checkpoint E args st
                 = (Ok tt,
                    {| teacher_w := teacher_w st; fake_w := fake_w st;
                       student_w := student_w st; fake_grad := fake_grad st;
                       student_grad := student_grad st;
                       fake_optimizer := fake_optimizer st;
                       student_optimizer := student_optimizer st;
                       global_step := global_step st; loss_local := loss_local st;
                       files := (files1 ++ [new])%list;
                       trace := ((trace st ++ map RemoveTree (firstn k sorted))
                                   ++ [SaveState new])%list |})).
  { unfold save_checkpoint. rewrite run_bind_get, Hlim.
    unfold mbind at 1. rewrite run_bind_lift, Hrem.
    unfold remove_trees. rewrite run_bind_get.
    unfold set_files at 1. unfold save_state. rewrite run_bind_get.
    cbn [files trace global_step]. fold new files1. rewrite Hnew1. reflexivity. }
  split; [exact Hrun|]. cbn [trace files].
  split; [now rewrite app_assoc|].
  assert (Hrest : Permutation (filter is_checkpoint files1) (skipn k sorted)).
  { unfold files1. rewrite filter_comm. fold checkpoints.
    rewrite <- (filter_kept_split sorted k Hnd_sorted).
    now apply filter_perm. }
  rewrite filter_app. cbn [filter].
  replace (is_checkpoint new) with true by (symmetry; apply new_checkpoint_name).
  split; [now apply Permutation_app_tail|].
  rewrite length_app. cbn [length].
  rewrite (Permutation_length Hrest), length_skipn. unfold k. lia.
Qed.

Lemma retention_leaves_limit_after_save_witness :
  exists st' : State Demo.E,
    save_checkpoint Demo.E (Demo.args None (Some 2%Z))
      (Demo.state 30 ["checkpoint-10"; "readme"; "checkpoint-20"; "checkpoint-5"]%string)
    = (Ok tt, st')
    /\ Z.of_nat (length (filter is_checkpoint (files st'))) = 2%Z.
Proof.
  destruct (retention_leaves_limit_after_save Demo.E (Demo.args None (Some 2%Z))
              (Demo.state 30 ["checkpoint-10"; "readme"; "checkpoint-20"; "checkpoint-5"]%string)
              2%Z) as [ps [st' H]].
  - reflexivity.
  - lia.
  - vm_compute. discriminate.
  - repeat constructor; simpl; intuition discriminate.
  - simpl; intuition discriminate.
  - repeat constructor; eexists; reflexivity.
  - exists st'. cbn zeta in H. tauto.
Defined.

(** C6, as the claim states it, fails: with a limit of 1 and 2 checkpoints
    present, both are removed before the save, not [2 - 1]. *)
Lemma retention_removes_more_than_excess :
  removing_checkpoints 1 ["checkpoint-1"; "checkpoint-2"]%string
  = Ok ["checkpoint-1"; "checkpoint-2"]%string
  /\ ~ (forall (N : Z) (listing removed : list string),
           (N < Z.of_nat (length (filter is_checkpoint listing)))%Z ->
           removing_checkpoints N listing = Ok removed ->
           Z.of_nat (length removed)
           = (Z.of_nat (length (filter is_checkpoint listing)) - N)%Z).
Proof.
  split; [reflexivity|].
  intros H.
  specialize (H 1%Z ["checkpoint-1"; "checkpoint-2"]%string
                ["checkpoint-1"; "checkpoint-2"]%string).
  cbn in H. specialize (H eq_refl eq_refl). discriminate.
Qed.

(** ** Examples on concrete tensors *)

Lemma eps_to_mu_computes_pred_clean_witness :
  exists out,
    eps_to_mu (Demo.scheduler 1 "epsilon" [Finite (1 / 4)])
              (const (Demo.one 1)) (const (Demo.one 2)) [0%Z] = Ok out
    /\ data out
       = epsilon_to_sample 3 [Finite (1 / 4)] (Demo.one 1) (Demo.one 2)
    /\ shape_ok [1; 1; 1; 1]%nat 4 (data out) = true.
Proof.
  destruct (eps_to_mu_computes_pred_clean
              (Demo.scheduler 1 "epsilon" [Finite (1 / 4)]) 3 1 [1; 1; 1]%nat
              (const (Demo.one 1)) (const (Demo.one 2)) [0%Z] [Finite (1 / 4)])
    as [out [H1 [H2 [H3 _]]]]; try reflexivity.
  exists out. repeat split; assumption.
Defined.

Lemma eps_to_mu_inverts_forward_diffusion_witness :
  exists noisy_latent out,
    sample_to_epsilon_target 3 [Finite (1 / 4)] [0%Z] (Demo.one 3) (Demo.one 2)
    = Ok noisy_latent
    /\ eps_to_mu (Demo.scheduler 1 "epsilon" [Finite (1 / 4)])
                 (const (Demo.one 3)) (const noisy_latent) [0%Z] = Ok out
    /\ data out = Demo.one 2.
Proof.
  apply (eps_to_mu_inverts_forward_diffusion
           (Demo.scheduler 1 "epsilon" [Finite (1 / 4)]) 3 1 [1; 1; 1]%nat
           (Demo.one 2) (Demo.one 3) [0%Z]); try reflexivity.
  - repeat constructor; cbn; lra.
  - now exists [Finite (1 / 4)].
Defined.

(** ** Sums and means of elements *)

Lemma nsum_finite rs : nsum (map Finite rs) = Finite (fold_right Rplus 0%R rs).
Proof.
  induction rs as [|r rs IH]; [reflexivity|].
  change (nsum (map Finite (r :: rs)))
    with (nadd (Finite r) (nsum (map Finite rs))).
  now rewrite IH.
Qed.

Lemma nsum_Finite_inv xs s :
  nsum xs = Finite s -> Forall (fun v => is_finite v = true) xs.
Proof.
  revert s. induction xs as [|x xs IH]; intros s H; [constructor|].
  change (nsum (x :: xs)) with (nadd x (nsum xs)) in H.
  destruct x as [a|]; [|discriminate].
  destruct (nsum xs) as [s'|] eqn:Hs; [|discriminate].
  constructor; [reflexivity | eapply IH; reflexivity].
Qed.

Lemma nmean_Finite_inv xs r :
  nmean xs = Finite r -> Forall (fun v => is_finite v = true) xs /\ xs <> [].
Proof.
  unfold nmean, ndiv. destruct (nsum xs) as [s|] eqn:Hs; [|discriminate].
  destruct (Req_dec_T (INR (length xs)) 0) as [E|NE]; [discriminate|].
  intros _. split; [eapply nsum_Finite_inv; eauto|].
  intros ->. apply NE. reflexivity.
Qed.

Lemma sum_nonneg rs :
  Forall (fun d => 0 <= d)%R rs -> (0 <= fold_right Rplus 0 rs)%R.
Proof. induction 1; simpl; lra. Qed.

Lemma sum_zero_all_zero rs :
  Forall (fun d => 0 <= d)%R rs -> fold_right Rplus 0%R rs = 0%R ->
  Forall (fun d => d = 0%R) rs.
Proof.
  induction 1 as [|d rs Hd Hrs IH]; simpl; intros Hs; [constructor|].
  pose proof (sum_nonneg rs Hrs).
  constructor; [lra | apply IH; lra].
Qed.

Lemma nmean_zeros xs :
  Forall (fun v => v = Finite 0) xs -> xs <> [] -> nmean xs = Finite 0.
Proof.
  intros Hz Hne.
  assert (Hs : nsum xs = Finite 0).
  { clear Hne. induction Hz as [|x xs -> _ IH]; [reflexivity|].
    change (nsum (Finite 0 :: xs)) with (nadd (Finite 0) (nsum xs)).
    rewrite IH. cbn. f_equal. lra. }
  unfold nmean. rewrite Hs. unfold ndiv.
  destruct (Req_dec_T (INR (length xs)) 0) as [E|NE].
  - destruct xs; [contradiction|].
    exfalso. revert E. apply not_0_INR. discriminate.
  - f_equal. unfold Rdiv. apply Rmult_0_l.
Qed.

(** ** Finite tensors *)

Lemma all_finite_flatten n (t : tensor n) :
  all_finite n t = true <-> Forall (fun v => is_finite v = true) (flatten n t).
Proof.
  induction n as [|k IH].
  - cbn. split; [intros H; now constructor | intros H; now inversion H].
  - cbn [all_finite flatten]. rewrite forallb_forall. split.
    + intros H. induction t as [|t0 t IHt]; [constructor|].
      cbn [flat_map]. apply Forall_app. split.
      * apply IH. apply H. now left.
      * apply IHt. intros x Hx. apply H. now right.
    + intros H x Hx. apply IH.
      induction t as [|t0 t IHt]; [contradiction|].
      cbn [flat_map] in H. apply Forall_app in H. destruct H as [H0 Ht].
      destruct Hx as [<-|Hx]; [exact H0 | now apply IHt].
Qed.

(** ** The weighting factor of the distribution-matching loss *)

Lemma abs_diff_flatten sh n (x y : tensor n) :
  shape_ok sh n x = true -> shape_ok sh n y = true ->
  all_finite n x = true -> all_finite n y = true ->
  exists ds,
    flatten n (tmap nabs n (tmap2 nsub n x y)) = map Finite ds
    /\ Forall (fun d => 0 <= d)%R ds
    /\ (Forall (fun d => d = 0%R) ds -> x = y).
Proof.
  revert sh x y. induction n as [|k IH]; intros sh x y Sx Sy Fx Fy.
  - destruct x as [a|]; [|discriminate]. destruct y as [b|]; [|discriminate].
    exists [Rabs (a - b)]. split; [reflexivity|]. split.
    + constructor; [apply Rabs_pos | constructor].
    + intros H. inversion H as [|? ? H0 _]; subst.
      f_equal. destruct (Req_dec_T a b) as [E|NE]; [exact E|].
      exfalso. apply (Rabs_no_R0 (a - b)); [lra | exact H0].
  - destruct sh as [|d sh]; [discriminate|].
    apply shape_ok_S in Sx. apply shape_ok_S in Sy.
    destruct Sx as [Lx Sx], Sy as [Ly Sy]. rewrite <- Ly in Lx. clear Ly d.
    cbn [all_finite] in Fx, Fy. cbn [tmap tmap2 flatten].
    revert y Lx Sy Fy. induction x as [|x0 x IHx]; intros [|y0 y] Lx Sy Fy;
      try discriminate.
    + exists []. repeat split; constructor.
    + cbn [forallb] in Fx, Fy. apply andb_true_iff in Fx, Fy.
      destruct Fx as [Fx0 Fx], Fy as [Fy0 Fy].
      inversion Sx as [|? ? Sx0 Sx']; subst. inversion Sy as [|? ? Sy0 Sy']; subst.
      destruct (IH sh x0 y0 Sx0 Sy0 Fx0 Fy0) as [ds0 [E0 [P0 Z0]]].
      destruct (IHx Sx' Fx y (f_equal pred Lx) Sy' Fy) as [ds [E1 [P1 Z1]]].
      exists (ds0 ++ ds)%list. cbn [zip_with map flat_map].
      rewrite E0, E1, map_app. split; [reflexivity|]. split.
      * apply Forall_app; auto.
      * intros H. apply Forall_app in H. destruct H as [H0 H1].
        f_equal; auto.
Qed.

(** One sample: the mean absolute difference of two finite samples of one
    shape is finite, and positive when they differ. *)
Lemma mean_abs_diff_positive sh n (x y : tensor n) :
  shape_ok sh n x = true -> shape_ok sh n y = true ->
  all_finite n x = true -> all_finite n y = true ->
  x <> y ->
  exists r, nmean (flatten n (tmap nabs n (tmap2 nsub n x y))) = Finite r
            /\ (0 < r)%R.
Proof.
  intros Sx Sy Fx Fy Hne.
  destruct (abs_diff_flatten sh n x y Sx Sy Fx Fy) as [ds [E [P Z]]].
  rewrite E. unfold nmean. rewrite nsum_finite, length_map.
  pose proof (sum_nonneg ds P) as Hs.
  assert (Hs0 : fold_right Rplus 0%R ds <> 0%R).
  { intros H0. apply Hne, Z. now apply sum_zero_all_zero. }
  assert (Hlen : (0 < INR (length ds))%R).
  { apply lt_0_INR. destruct ds; [exfalso; apply Hs0; reflexivity | simpl; lia]. }
  unfold ndiv. destruct (Req_dec_T (INR (length ds)) 0) as [E0|_]; [lra|].
  eexists. split; [reflexivity|].
  apply Rdiv_lt_0_compat; lra.
Qed.

Lemma map_zip_with {A B C D} (g : C -> D) (f : A -> B -> C) xs ys :
  map g (zip_with f xs ys) = zip_with (fun x y => g (f x y)) xs ys.
Proof.
  revert ys. induction xs as [|x xs IH]; intros [|y ys]; simpl; try reflexivity.
  now rewrite IH.
Qed.

Lemma weighting_factor_eq (latents pred_real : var 4) B sh :
  shape_ok (B :: sh) 4 (data latents) = true ->
  shape_ok (B :: sh) 4 (data pred_real) = true ->
  weighting_factor latents pred_real
  = Ok (Var (n := 4)
          (map (unsqueeze_last 3) (sample_weights (data latents) (data pred_real)))
          (graph latents ++ graph pred_real)).
Proof.
  intros Sl Sp. unfold weighting_factor, vbcast2.
  rewrite (bcast2_same_shape nsub (B :: sh) 4 _ _ Sl Sp). cbn [Py.bind].
  unfold mean_dim123_keepdim, vmap. cbn [data graph]. do 2 f_equal.
  unfold sample_weights. cbn [tmap tmap2].
  rewrite map_map, !map_zip_with. reflexivity.
Qed.

Lemma sample_weights_length (latents pred_real : tensor 4) B sh :
  shape_ok (B :: sh) 4 latents = true ->
  shape_ok (B :: sh) 4 pred_real = true ->
  length (sample_weights latents pred_real) = B.
Proof.
  intros Sl Sp. apply shape_ok_S in Sl. apply shape_ok_S in Sp.
  destruct Sl as [Ll _], Sp as [Lp _].
  unfold sample_weights. rewrite zip_with_length; congruence.
Qed.

Lemma dm_grad_eq (pred_fake pred_real : var 4) (ws : list num) g B sh :
  shape_ok (B :: sh) 4 (data pred_fake) = true ->
  shape_ok (B :: sh) 4 (data pred_real) = true ->
  length ws = B ->
  dm_grad pred_fake pred_real (Var (n := 4) (map (unsqueeze_last 3) ws) g)
  = Ok (Var (n := 4)
          (zip_with (fun x c => tmap (fun v => ndiv v c) 3 x)
                    (tmap2 nsub 4 (data pred_fake) (data pred_real)) ws)
          ((graph pred_fake ++ graph pred_real) ++ g)).
Proof.
  intros Sf Sp Lw. unfold dm_grad, vbcast2.
  rewrite (bcast2_same_shape nsub (B :: sh) 4 _ _ Sf Sp). cbn [Py.bind data graph].
  rewrite bcast2_rows_r; [reflexivity|].
  pose proof (tmap2_shape nsub _ _ _ _ Sf Sp) as St.
  apply shape_ok_S in St. destruct St as [Lt _]. congruence.
Qed.

Lemma all_finite_tmap2_div sh n (x y : tensor n) r :
  shape_ok sh n x = true -> shape_ok sh n y = true ->
  all_finite n x = true -> all_finite n y = true ->
  r <> 0%R ->
  all_finite n (tmap (fun v => ndiv v (Finite r)) n (tmap2 nsub n x y)) = true.
Proof.
  revert sh x y.
  induction n as [|k IH]; intros sh x y Sx Sy Fx Fy Hr.
  - destruct x as [a|]; [|discriminate]. destruct y as [b|]; [|discriminate].
    cbn. now destruct (Req_dec_T r 0).
  - destruct sh as [|d sh]; [discriminate|].
    apply shape_ok_S in Sx. apply shape_ok_S in Sy.
    destruct Sx as [Lx Sx], Sy as [Ly Sy].
    cbn [all_finite] in *. cbn [tmap tmap2]. rewrite map_zip_with.
    apply forallb_forall. intros t Ht.
    rewrite forallb_forall in Fx, Fy. rewrite Forall_forall in Sx, Sy.
    assert (Hall : Forall (fun t => all_finite k t = true)
                     (zip_with (fun x0 y0 =>
                                  tmap (fun v => ndiv v (Finite r)) k (tmap2 nsub k x0 y0))
                               x y)).
    { apply Forall_zip_with. intros x0 y0 Hx0 Hy0. apply IH with (sh := sh); auto. }
    rewrite Forall_forall in Hall. now apply Hall.
Qed.

Lemma shape_ok_row B sh (t : tensor 4) b (x : tensor 3) :
  shape_ok (B :: sh) 4 t = true -> nth_error (A := tensor 3) t b = Some x ->
  shape_ok sh 3 x = true.
Proof.
  intros St Hx. apply shape_ok_S in St. destruct St as [_ St].
  rewrite Forall_forall in St. apply St. eapply nth_error_In; eauto.
Qed.

(** C10, in exact arithmetic.  In [distribution_matching_loss], on latents,
    a fake estimate and a real estimate of one shape [[B, C, H, W]]: the
    weighting factor and the pseudo-gradient are computed without raising,
    and for every sample [b] whose latents and real estimate are finite and
    differ in at least one element, the weighting factor of the sample is
    a finite [r > 0], and the pseudo-gradient of the sample is
    [(fake - real) / r], finite when the fake estimate is: no element of
    it is divided by zero.  This is a property of the real numbers: in the
    float formats of the code the mean can round to zero, as the
    computation in binary32 after the theorem shows. *)
Theorem weighting_factor_positive_where_latents_differ :
  forall (latents pred_fake_latents pred_real_latents : var 4) B sh,
    shape_ok (B :: sh) 4 (data latents) = true ->
    shape_ok (B :: sh) 4 (data pred_fake_latents) = true ->
    shape_ok (B :: sh) 4 (data pred_real_latents) = true ->
    exists w grad,
      weighting_factor latents pred_real_latents = Ok w
      /\ dm_grad pred_fake_latents pred_real_latents w = Ok grad
      /\ forall b (x f y : tensor 3),
          nth_error (A := tensor 3) (data latents) b = Some x ->
          nth_error (A := tensor 3) (data pred_fake_latents) b = Some f ->
          nth_error (A := tensor 3) (data pred_real_latents) b = Some y ->
          all_finite 3 x = true -> all_finite 3 y = true ->
          x <> y ->
          exists r,
            (0 < r)%R
            /\ nth_error (A := tensor 3) (data w) b
               = Some (unsqueeze_last 3 (Finite r))
            /\ nth_error (A := tensor 3) (data grad) b
               = Some (tmap (fun v => ndiv v (Finite r)) 3 (tmap2 nsub 3 f y))
            /\ (all_finite 3 f = true ->
                all_finite 3 (tmap (fun v => ndiv v (Finite r)) 3 (tmap2 nsub 3 f y))
                = true).
Proof.
  intros latents pf pr B sh Sl Sf Sp.
  eexists. eexists.
  split; [apply (weighting_factor_eq latents pr B sh Sl Sp)|].
  split.
  { apply (dm_grad_eq pf pr _ _ B sh Sf Sp).
    apply (sample_weights_length _ _ B sh Sl Sp). }
  intros b x f y Hx Hf Hy Fx Fy Hne.
  pose proof (shape_ok_row _ _ _ _ _ Sl Hx) as Sx.
  pose proof (shape_ok_row _ _ _ _ _ Sf Hf) as Sf0.
  pose proof (shape_ok_row _ _ _ _ _ Sp Hy) as Sy.
  destruct (mean_abs_diff_positive sh 3 x y Sx Sy Fx Fy Hne) as [r [Er Hr]].
  exists r. cbn [data].
  assert (Hw : nth_error (sample_weights (data latents) (data pr)) b = Some (Finite r)).
  { unfold sample_weights. rewrite nth_error_zip_with.
    rewrite Hx, Hy, Er. reflexivity. }
  split; [exact Hr|]. split; [|split].
  - rewrite nth_error_map, Hw. reflexivity.
  - rewrite nth_error_zip_with. cbn [tmap2]. rewrite nth_error_zip_with.
    rewrite Hf, Hy, Hw. reflexivity.
  - intros Ff. apply all_finite_tmap2_div with (sh := sh); auto. lra.
Qed.

Lemma weighting_factor_positive_where_latents_differ_witness :
  exists w r,
    weighting_factor (const (Demo.one 1)) (const (Demo.one 3)) = Ok w
    /\ (0 < r)%R
    /\ nth_error (A := tensor 3) (data w) 0 = Some (unsqueeze_last 3 (Finite r)).
Proof.
  destruct (weighting_factor_positive_where_latents_differ
              (const (Demo.one 1)) (const (Demo.one 2)) (const (Demo.one 3))
              1%nat [1; 1; 1]%nat eq_refl eq_refl eq_refl)
    as [w [grad [Hw [_ H]]]].
  destruct (H 0%nat [[[Finite 1]]] [[[Finite 2]]] [[[Finite 3]]]
              eq_refl eq_refl eq_refl eq_refl eq_refl) as [r [Hr [Hwb _]]].
  - intros E. inversion E. lra.
  - exists w, r. repeat split; assumption.
Defined.

(** C10, in the arithmetic of the code.  A sample of four binary32 elements
    whose latents differ from the real estimate in one element, by the
    smallest positive number of the format: the difference and its absolute
    value are exact, their sum is exact, and the mean, a quarter of it,
    rounds to zero.  The weighting factor of a sample that differs is 0.0,
    and line 84 divides by it: the pseudo-gradient is [inf] where the fake
    estimate differs from the real one and [nan] elsewhere. *)
Lemma weighting_factor_underflows_in_binary32 :
  [Demo.tiny; Float32.zero; Float32.zero; Float32.zero]
  <> [Float32.zero; Float32.zero; Float32.zero; Float32.zero]
  /\ forallb Float32.is_finite
       [Demo.tiny; Float32.zero; Float32.zero; Float32.zero] = true
  /\ forallb (valid_binary Float32.prec Float32.emax)
       [Demo.tiny; Demo.f32_one; Float32.of_Z 4] = true
  /\ Float32.weighting_factor
       [Demo.tiny; Float32.zero; Float32.zero; Float32.zero]
       [Float32.zero; Float32.zero; Float32.zero; Float32.zero]
     = Float32.zero
  /\ Float32.dm_grad
       [Demo.f32_one; Float32.zero; Float32.zero; Float32.zero]
       [Float32.zero; Float32.zero; Float32.zero; Float32.zero]
       (Float32.weighting_factor
          [Demo.tiny; Float32.zero; Float32.zero; Float32.zero]
          [Float32.zero; Float32.zero; Float32.zero; Float32.zero])
     = [S754_infinity false; S754_nan; S754_nan; S754_nan].
Proof.
  split; [discriminate|]. repeat split; vm_compute; reflexivity.
Qed.

(** ** The mean of per-sample means *)

Lemma nsum_NonFinite xs :
  Exists (fun v => v = NonFinite) xs -> nsum xs = NonFinite.
Proof.
  induction 1 as [x xs ->|x xs _ IH].
  - reflexivity.
  - change (nsum (x :: xs)) with (nadd x (nsum xs)). rewrite IH.
    now destruct x.
Qed.

Lemma nmean_nil : nmean [] = NonFinite.
Proof.
  unfold nmean, ndiv. cbn [nsum fold_right length INR].
  destruct (Req_dec_T 0 0) as [_|NE]; [reflexivity | contradiction].
Qed.

Lemma nmean_NonFinite xs :
  Exists (fun v => v = NonFinite) xs -> nmean xs = NonFinite.
Proof. intros H. unfold nmean. now rewrite (nsum_NonFinite xs H). Qed.

Lemma finite_or_not xs :
  (exists rs, xs = map Finite rs) \/ Exists (fun v => v = NonFinite) xs.
Proof.
  induction xs as [|x xs [[rs ->]|IH]].
  - left. now exists [].
  - destruct x as [a|].
    + left. now exists (a :: rs).
    + right. now constructor.
  - right. now constructor 2.
Qed.

Lemma rows_finite_or_not (rows : list (list num)) :
  (exists rss, rows = map (map Finite) rss)
  \/ Exists (fun r => Exists (fun v => v = NonFinite) r) rows.
Proof.
  induction rows as [|r rows [[rss ->]|IH]].
  - left. now exists [].
  - destruct (finite_or_not r) as [[rs ->]|Hr].
    + left. now exists (rs :: rss).
    + right. now constructor.
  - right. now constructor 2.
Qed.

Lemma rsum_app rs1 rs2 : rsum (rs1 ++ rs2) = (rsum rs1 + rsum rs2)%R.
Proof. induction rs1 as [|r rs1 IH]; simpl; [lra | rewrite IH; lra]. Qed.

Lemma rsum_concat rss : rsum (concat rss) = rsum (map rsum rss).
Proof.
  induction rss as [|rs rss IH]; simpl; [reflexivity|].
  now rewrite rsum_app, IH.
Qed.

Lemma rsum_scaled c rss :
  rsum (map (fun rs => rsum rs / c * 1)%R rss) = (rsum (map rsum rss) / c)%R.
Proof.
  induction rss as [|rs rss IH]; simpl.
  - unfold Rdiv. now rewrite Rmult_0_l.
  - rewrite IH. unfold Rdiv. lra.
Qed.

Lemma nmean_finite rs :
  rs <> [] -> nmean (map Finite rs) = Finite (rsum rs / INR (length rs)).
Proof.
  intros Hne. unfold nmean. rewrite nsum_finite, length_map. unfold ndiv.
  destruct (Req_dec_T (INR (length rs)) 0) as [E|_]; [|reflexivity].
  exfalso. destruct rs; [contradiction|].
  revert E. apply not_0_INR. discriminate.
Qed.

Lemma length_concat_rect {A} (rss : list (list A)) m :
  Forall (fun r => length r = m) rss -> length (concat rss) = (length rss * m)%nat.
Proof.
  induction 1 as [|r rss Hr _ IH]; simpl; [reflexivity|].
  now rewrite length_app, IH, Hr.
Qed.

Lemma mean_of_means (rows : list (list num)) m :
  Forall (fun r => length r = m) rows ->
  nmean (map (fun r => nmul (nmean r) (Finite 1)) rows) = nmean (concat rows).
Proof.
  intros Hm. destruct (rows_finite_or_not rows) as [[rss ->]|Hex].
  - (* every element is finite *)
    rewrite Forall_map in Hm.
    assert (Hm' : Forall (fun rs => length rs = m) rss).
    { eapply Forall_impl; [|exact Hm]. intros rs H. cbv beta in H.
      now rewrite length_map in H. }
    clear Hm. rewrite map_map, <- concat_map.
    destruct rss as [|rs0 rss]; [reflexivity|].
    destruct m as [|m].
    + (* samples with no element *)
      inversion Hm' as [|? ? H0 Hrest]; subst.
      destruct rs0; [|discriminate].
      rewrite nmean_NonFinite
        by (constructor; cbn [map]; now rewrite nmean_nil).
      assert (Hc : concat ([] :: rss) = @nil R).
      { simpl. clear H0 Hm'. induction Hrest as [|r rss Hr _ IH]; [reflexivity|].
        destruct r; [exact IH | discriminate]. }
      rewrite Hc. cbn [map]. now rewrite nmean_nil.
    + assert (Hrows : map (fun rs => nmul (nmean (map Finite rs)) (Finite 1)) (rs0 :: rss)
                      = map Finite (map (fun rs => rsum rs / INR (S m) * 1)%R (rs0 :: rss))).
      { rewrite map_map. apply map_ext_in. intros rs Hin.
        rewrite Forall_forall in Hm'. pose proof (Hm' rs Hin) as Hl.
        rewrite nmean_finite by (destruct rs; [discriminate | discriminate]).
        now rewrite Hl. }
      rewrite Hrows.
      rewrite nmean_finite by discriminate.
      rewrite nmean_finite.
      2:{ intros Hc. apply (f_equal (@length R)) in Hc.
          rewrite (length_concat_rect _ _ Hm') in Hc. simpl in Hc. lia. }
      f_equal. rewrite length_map, (length_concat_rect _ _ Hm').
      fold (rsum (map (fun rs => (rsum rs / INR (S m) * 1)%R) (rs0 :: rss))).
      rewrite rsum_scaled, rsum_concat, mult_INR.
      field. split; apply not_0_INR; discriminate.
  - (* some element is not finite *)
    rewrite nmean_NonFinite.
    + symmetry. apply nmean_NonFinite.
      clear Hm. induction Hex as [r rows Hr|r rows _ IH]; simpl;
        apply Exists_app; [now left | now right].
    + clear Hm. induction Hex as [r rows Hr|r rows _ IH]; simpl.
      * constructor. now rewrite (nmean_NonFinite r Hr).
      * now constructor 2.
Qed.

(** ** SNR-gamma reweighting *)

Lemma flatten_length sh n (t : tensor n) :
  shape_ok sh n t = true -> length (flatten n t) = fold_right Nat.mul 1%nat sh.
Proof.
  revert sh t. induction n as [|k IH]; intros sh t St.
  - destruct sh; [reflexivity | discriminate].
  - destruct sh as [|d sh]; [discriminate|].
    apply shape_ok_S in St. destruct St as [Lt St]. subst d.
    cbn [flatten fold_right].
    induction t as [|t0 t IHt]; [reflexivity|].
    inversion St; subst. cbn [flat_map length].
    rewrite length_app, (IH sh t0), IHt by assumption. reflexivity.
Qed.

Lemma flatten_1 (l : tensor 1) : flatten 1 l = l.
Proof.
  cbn [flatten]. induction l as [|x l IH]; [reflexivity|].
  cbn [flat_map app]. now rewrite IH.
Qed.

Lemma zip_with_repeat_r {A B C} (f : A -> B -> C) xs (c : B) :
  zip_with f xs (repeat c (length xs)) = map (fun x => f x c) xs.
Proof. induction xs as [|x xs IH]; simpl; [reflexivity | now rewrite IH]. Qed.

Lemma weights_one gamma snr :
  Forall (fun s => exists r, s = Finite r /\ (0 < r <= gamma)%R) snr ->
  map (fun s => ndiv (nmin s (Finite gamma)) s) snr = repeat (Finite 1) (length snr).
Proof.
  induction 1 as [|s snr [r [-> [H0 Hg]]] _ IH]; [reflexivity|].
  cbn [map length repeat]. rewrite IH. f_equal.
  cbn [nmin lift2 ndiv]. rewrite Rmin_left by exact Hg.
  destruct (Req_dec_T r 0) as [E|NE]; [lra|].
  f_equal. now field.
Qed.

(** Weights that are all 1 leave the loss of the fake network unweighted. *)
Lemma unit_weights_give_unweighted_mse E args s (mp tg : var 4) ts gamma B sh :
  snr_gamma args = Some gamma ->
  shape_ok (B :: sh) 4 (data mp) = true ->
  shape_ok (B :: sh) 4 (data tg) = true ->
  length ts = B ->
  length (effective_snr E s ts) = B ->
  Forall (fun v => exists r, v = Finite r /\ (0 < r <= gamma)%R)
         (effective_snr E s ts) ->
  mse_loss_weights E s gamma ts = Ok (repeat (Finite 1) B)
  /\ exists weighted unweighted,
      fake_loss E args s mp tg ts = Ok weighted
      /\ mse_loss mp tg = Ok unweighted
      /\ fst weighted = unweighted.
Proof.
  intros Hg Sm St Lt Ls Hsnr.
  assert (Hw : mse_loss_weights E s gamma ts = Ok (repeat (Finite 1) B)).
  { unfold mse_loss_weights. rewrite Ls, Lt, Nat.eqb_refl.
    rewrite (weights_one gamma _ Hsnr), Ls. reflexivity. }
  split; [exact Hw|].
  unfold fake_loss, mse_loss. rewrite Hg, Hw. cbn [Py.bind].
  rewrite (bcast2_same_shape nsub (B :: sh) 4 _ _ Sm St). cbn [Py.bind].
  set (squared := tmap (fun v => nmul v v) 4 (tmap2 nsub 4 (data mp) (data tg))).
  assert (Ssq : shape_ok (B :: sh) 4 squared = true).
  { unfold squared. rewrite tmap_shape. now apply tmap2_shape. }
  pose proof (proj1 (shape_ok_S _ _ _ _) Ssq) as [Lsq Fsq].
  set (per_sample := map (fun s0 : tensor 3 => nmean (flatten 3 s0)) squared).
  assert (Lps : length per_sample = B) by (unfold per_sample; now rewrite length_map).
  assert (Hb : bcast2 nmul 1 per_sample (repeat (Finite 1) B)
               = Ok (map (fun v => nmul v (Finite 1)) per_sample)).
  { rewrite (bcast2_same_shape nmul [B] 1).
    - cbn [tmap2]. rewrite <- Lps at 1. now rewrite zip_with_repeat_r.
    - apply shape_ok_S. split; [exact Lps|]. apply Forall_forall. reflexivity.
    - apply shape_ok_S. split; [apply repeat_length|]. apply Forall_forall. reflexivity. }
  rewrite Hb. cbn [Py.bind].
  eexists. eexists. split; [reflexivity|]. split; [reflexivity|].
  cbn [fst]. f_equal.
  rewrite flatten_1. unfold per_sample. rewrite map_map.
  change (flatten 4 squared) with (flat_map (flatten 3) squared).
  rewrite flat_map_concat_map.
  rewrite <- (mean_of_means (map (flatten 3) squared) (fold_right Nat.mul 1%nat sh)).
  - now rewrite map_map.
  - apply Forall_map. eapply Forall_impl; [|exact Fsq].
    intros t Ht. now apply flatten_length.
Qed.

(** C9, as the code has it.  The weights are computed from the ratios of
    [compute_snr] in every mode but ["v_prediction"], and from those ratios
    plus one in ["v_prediction"] mode (line 424).  With SNR-gamma
    reweighting configured, finite positive ratios, one per timestep, and
    [gamma] at least every ratio -- at least every ratio plus one in
    ["v_prediction"] mode -- every weight [min(snr, gamma) / snr] is exactly
    1, and the reweighted fake-score loss is the unweighted [F.mse_loss],
    whatever the prediction and the target of one shape [[B, C, H, W]]. *)
Theorem snr_gamma_above_snr_is_unweighted_mse :
  forall (E : Externals) (args : Args) (noise_scheduler : Scheduler)
         (model_pred target : var 4) (timesteps : list Z) (gamma : R) B sh,
    snr_gamma args = Some gamma ->
    shape_ok (B :: sh) 4 (data model_pred) = true ->
    shape_ok (B :: sh) 4 (data target) = true ->
    length timesteps = B ->
    length (compute_snr E noise_scheduler timesteps) = B ->
    Forall (fun s =>
              exists r,
                s = Finite r /\ (0 < r)%R
                /\ ((if String.eqb (prediction_type noise_scheduler) "v_prediction"
                     then r + 1 else r) <= gamma)%R)
           (compute_snr E noise_scheduler timesteps) ->
    mse_loss_weights E noise_scheduler gamma timesteps = Ok (repeat (Finite 1) B)
    /\ exists weighted unweighted,
        fake_loss E args noise_scheduler model_pred target timesteps = Ok weighted
        /\ mse_loss model_pred target = Ok unweighted
        /\ fst weighted = unweighted.
Proof.
  intros E args s mp tg ts gamma B sh Hg Sm St Lt Ls Hsnr.
  apply (unit_weights_give_unweighted_mse E args s mp tg ts gamma B sh Hg Sm St Lt).
  - unfold effective_snr.
    destruct (String.eqb (prediction_type s) "v_prediction");
      [now rewrite length_map | exact Ls].
  - unfold effective_snr.
    destruct (String.eqb (prediction_type s) "v_prediction").
    + apply Forall_map. eapply Forall_impl; [|exact Hsnr].
      intros v [r [-> [H0 Hle]]]. exists (r + 1)%R.
      split; [reflexivity | lra].
    + eapply Forall_impl; [|exact Hsnr].
      intros v [r [-> [H0 Hle]]]. exists r. split; [reflexivity | lra].
Qed.

Lemma snr_gamma_above_snr_is_unweighted_mse_witness :
  exists weighted unweighted,
    fake_loss Demo.E (Demo.args (Some 5%R) None)
              (Demo.scheduler 1000 "v_prediction" (repeat (Finite (1 / 4)) 1000))
              (const (Demo.one 1)) (const (Demo.one 2)) [0%Z] = Ok weighted
    /\ mse_loss (const (Demo.one 1)) (const (Demo.one 2)) = Ok unweighted
    /\ fst weighted = unweighted.
Proof.
  apply (snr_gamma_above_snr_is_unweighted_mse Demo.E (Demo.args (Some 5%R) None)
           (Demo.scheduler 1000 "v_prediction" (repeat (Finite (1 / 4)) 1000))
           (const (Demo.one 1)) (const (Demo.one 2)) [0%Z] 5%R 1%nat [1; 1; 1]%nat);
    try reflexivity.
  repeat constructor. exists 1%R. split; [reflexivity|].
  cbn [prediction_type Demo.scheduler String.eqb Ascii.eqb Bool.eqb]. lra.
Defined.

(** ** The distribution-matching loss of two networks that predict zero *)

Lemma tmap_ext f g n (t : tensor n) :
  (forall v, f v = g v) -> tmap f n t = tmap g n t.
Proof.
  intros H. induction n as [|k IH]; cbn [tmap]; [apply H|].
  apply map_ext. intros x. apply IH.
Qed.

Lemma tmap_tmap f g n (t : tensor n) :
  tmap f n (tmap g n t) = tmap (fun v => f (g v)) n t.
Proof.
  induction n as [|k IH]; cbn [tmap]; [reflexivity|].
  rewrite map_map. apply map_ext. intros x. apply IH.
Qed.

Lemma tmap2_diag f n (t : tensor n) :
  tmap2 f n t t = tmap (fun v => f v v) n t.
Proof.
  induction n as [|k IH]; cbn [tmap tmap2]; [reflexivity|].
  induction t as [|x t IHt]; [reflexivity|].
  cbn [zip_with map]. now rewrite IH, IHt.
Qed.

Lemma chunk2_double n (rows : list (tensor n)) g :
  rows <> [] ->
  chunk2 (Var (n := S n) (rows ++ rows) g)
  = Ok (Var (n := S n) rows g, Var (n := S n) rows g).
Proof.
  intros Hne. unfold chunk2. cbn [data graph].
  destruct rows as [|r0 rows]; [contradiction|].
  assert (Hlen : Nat.div2 (S (length ((r0 :: rows) ++ r0 :: rows)))
                 = length (r0 :: rows)).
  { rewrite length_app. replace (length (r0 :: rows) + length (r0 :: rows))%nat
      with (2 * length (r0 :: rows))%nat by lia.
    apply Nat.div2_succ_double. }
  rewrite Hlen.
  rewrite firstn_app, firstn_all, Nat.sub_diag. cbn [firstn]. rewrite app_nil_r.
  rewrite skipn_app, skipn_all, Nat.sub_diag. cbn [skipn app].
  change ((r0 :: rows) ++ r0 :: rows) with (r0 :: (rows ++ r0 :: rows)).
  destruct (rows ++ r0 :: rows) eqn:Happ; [|reflexivity].
  exfalso. eapply app_cons_not_nil. symmetry. exact Happ.
Qed.

Lemma zeros_like_shape sh n (t : tensor n) :
  shape_ok sh n (zeros_like n t) = shape_ok sh n t.
Proof. apply tmap_shape. Qed.

Lemma tmap_const f c n (t : tensor n) :
  tmap f n (tmap (fun _ => c) n t) = tmap (fun _ => f c) n t.
Proof.
  induction n as [|k IH]; cbn [tmap]; [reflexivity|].
  rewrite map_map. apply map_ext. intros x. apply IH.
Qed.

Lemma tmap2_const f a b n (t : tensor n) :
  tmap2 f n (tmap (fun _ => a) n t) (tmap (fun _ => b) n t)
  = tmap (fun _ => f a b) n t.
Proof.
  induction n as [|k IH]; cbn [tmap tmap2]; [reflexivity|].
  induction t as [|x t IHt]; [reflexivity|].
  cbn [zip_with map]. now rewrite IH, IHt.
Qed.

(** The guided prediction of a teacher that predicts zero, at guidance
    scale 1. *)
Lemma guided_zero {A} sh n (t : tensor n) (k : var n -> result A) :
  shape_ok sh n t = true ->
  (delta <- no_grad (vbcast2 nsub (Var (zeros_like n t) []) (Var (zeros_like n t) [])) ;;
   noise_pred <- no_grad (vbcast2 nadd (Var (zeros_like n t) [])
                            (vmap (nmul (Finite 1)) delta)) ;;
   k noise_pred)
  = k (Var (zeros_like n t) []).
Proof.
  intros St. unfold no_grad, vbcast2, vmap. cbn [data graph].
  pose proof (zeros_like_shape sh n t) as Sz. rewrite St in Sz.
  rewrite (bcast2_same_shape nsub sh n _ _ Sz Sz). cbn [Py.bind data graph].
  unfold zeros_like in *. rewrite tmap2_const, tmap_const.
  rewrite (bcast2_same_shape nadd sh n); [| exact Sz | now rewrite tmap_shape].
  cbn [Py.bind data graph]. rewrite tmap2_const.
  do 2 f_equal. apply tmap_ext. intros v. cbn. f_equal. lra.
Qed.

Lemma dm_estimates_zero (real_unet fake_unet : Unet) (s : Scheduler)
    (latents : var 4) (pe npe : var 3) (args : Args) timestep noise
    B sh noisy alphas :
  (forall x t e, forward fake_unet x t e = Ok (zeros_like 4 x)) ->
  (forall x t e, forward real_unet x t e = Ok (zeros_like 4 x)) ->
  guidance_scale args = 1%R ->
  (py_int (IZR (num_train_timesteps s) * min_dm_step_ratio args)
   < py_int (IZR (num_train_timesteps s) * max_dm_step_ratio args))%Z ->
  add_noise s (data latents) noise timestep = Ok noisy ->
  shape_ok (B :: sh) 4 noisy = true ->
  length timestep = B ->
  index_select (alphas_cumprod s) timestep = Ok alphas ->
  (0 < B)%nat ->
  dm_estimates real_unet fake_unet s latents pe npe args timestep noise
  = Ok (Var (n := 4) (epsilon_to_sample 3 alphas (zeros_like 4 noisy) noisy) [],
        Var (n := 4) (epsilon_to_sample 3 alphas (zeros_like 4 noisy) noisy) []).
Proof.
  intros Hfake Hreal Hgs Hrange Hadd Sn Lt Hidx HB.
  unfold dm_estimates, randint_check.
  destruct (Z.ltb_spec
              (py_int (IZR (num_train_timesteps s) * min_dm_step_ratio args))
              (py_int (IZR (num_train_timesteps s) * max_dm_step_ratio args)));
    [|lia].
  cbn [Py.bind]. unfold vadd_noise. cbn [data graph const]. rewrite Hadd.
  cbn [Py.bind]. unfold call_unet at 1. cbn [data]. rewrite Hfake. cbn [Py.bind].
  assert (Sz : shape_ok (B :: sh) 4 (zeros_like 4 noisy) = true)
    by (now rewrite zeros_like_shape).
  rewrite (eps_to_mu_eq s 3 B sh _ _ timestep alphas); cbn [data]; auto.
  unfold no_grad at 1. cbn [Py.bind data].
  unfold call_unet. unfold cat at 1 2. cbn [data graph]. rewrite Hreal.
  cbn [Py.bind].
  replace (zeros_like 4 (noisy ++ noisy))
    with ((zeros_like 4 noisy : list (tensor 3)) ++ zeros_like 4 noisy)%list
    by (unfold zeros_like; cbn [tmap]; now rewrite map_app).
  rewrite chunk2_double.
  2:{ apply shape_ok_S in Sz. destruct Sz as [Lz _].
      intros Hnil. rewrite Hnil in Lz. simpl in Lz. lia. }
  cbn [Py.bind fst snd]. rewrite Hgs.
  rewrite (guided_zero (B :: sh) 4 noisy _ Sn).
  rewrite (eps_to_mu_eq s 3 B sh _ _ timestep alphas); cbn [data]; auto.
Qed.

Lemma unsqueeze_last_inj n a b :
  unsqueeze_last n a = unsqueeze_last n b -> a = b.
Proof.
  induction n as [|k IH]; cbn [unsqueeze_last]; intros H; [exact H|].
  apply IH. now inversion H.
Qed.

Lemma all_finite_abs_diff_inv sh n (x y : tensor n) :
  shape_ok sh n x = true -> shape_ok sh n y = true ->
  all_finite n (tmap nabs n (tmap2 nsub n x y)) = true ->
  all_finite n x = true /\ all_finite n y = true.
Proof.
  revert sh x y. induction n as [|k IH]; intros sh x y Sx Sy H.
  - destruct x, y; cbn in H; try discriminate. split; reflexivity.
  - destruct sh as [|d sh]; [discriminate|].
    apply shape_ok_S in Sx. apply shape_ok_S in Sy.
    destruct Sx as [Lx Sx], Sy as [Ly Sy]. rewrite <- Ly in Lx. clear Ly d.
    cbn [all_finite tmap tmap2] in *.
    revert y Lx Sy H. induction x as [|x0 x IHx]; intros [|y0 y] Lx Sy H;
      try discriminate; [split; reflexivity|].
    cbn [zip_with map forallb] in H. apply andb_true_iff in H. destruct H as [H0 H].
    inversion Sx as [|? ? Sx0 Sx']; subst. inversion Sy as [|? ? Sy0 Sy']; subst.
    destruct (IH sh x0 y0 Sx0 Sy0 H0) as [Fx0 Fy0].
    destruct (IHx Sx' y (f_equal pred Lx) Sy' H) as [Fx Fy].
    cbn [forallb]. rewrite Fx0, Fy0, Fx, Fy. split; reflexivity.
Qed.

Lemma tmap_ext_finite f g n (t : tensor n) :
  (forall v, is_finite v = true -> f v = g v) ->
  all_finite n t = true -> tmap f n t = tmap g n t.
Proof.
  intros H. induction n as [|k IH]; cbn [tmap all_finite]; intros Ft; [now apply H|].
  rewrite forallb_forall in Ft. apply map_ext_in. intros x Hx. apply IH, Ft, Hx.
Qed.

(** One sample: [(p - p) / r] is zero everywhere. *)
Lemma zero_grad_row n (p : tensor n) r :
  all_finite n p = true -> r <> 0%R ->
  tmap (fun v => ndiv v (Finite r)) n (tmap2 nsub n p p) = zeros_like n p.
Proof.
  intros Fp Hr. rewrite tmap2_diag, tmap_tmap. unfold zeros_like.
  apply tmap_ext_finite; [|exact Fp].
  intros [a|] Ha; [|discriminate]. cbn.
  destruct (Req_dec_T r 0) as [E|_]; [contradiction|].
  f_equal. field. exact Hr.
Qed.

Lemma tmap2_tmap2_same_l f h n (x y : tensor n) :
  tmap2 f n x (tmap2 h n x y) = tmap2 (fun a b => f a (h a b)) n x y.
Proof.
  induction n as [|k IH]; simpl; [reflexivity|].
  revert y. induction x as [|x0 xs IHx]; intros [|y0 ys]; simpl; try reflexivity.
  now rewrite IH, IHx.
Qed.

Lemma flatten_tmap2_Forall (Q : num -> Prop) F n (x y : tensor n) :
  (forall a b, is_finite a = true -> Q (F a b)) ->
  all_finite n x = true ->
  Forall Q (flatten n (tmap2 F n x y)).
Proof.
  intros HF. revert x y. induction n as [|k IH]; intros x y Fx.
  - cbn. constructor; [now apply HF | constructor].
  - cbn [all_finite tmap2 flatten] in *.
    revert y. induction x as [|x0 x IHx]; intros [|y0 y]; cbn [zip_with flat_map];
      try constructor.
    cbn [forallb] in Fx. apply andb_true_iff in Fx. destruct Fx as [Fx0 Fx].
    apply Forall_app. split; [now apply IH | now apply IHx].
Qed.

(** The squared error of the surrogate target, when the gradient is zero. *)
Lemma surrogate_error_zero n (l p : tensor n) :
  all_finite n l = true ->
  Forall (fun v => v = Finite 0)
         (flatten n (tmap (fun v => nmul v v) n
                       (tmap2 nsub n l (tmap2 nsub n l (zeros_like n p))))).
Proof.
  intros Fl. unfold zeros_like.
  rewrite tmap2_tmap_r, tmap2_tmap2_same_l, tmap_tmap2.
  apply flatten_tmap2_Forall; [|exact Fl].
  intros [a|] b Ha; [|discriminate]. cbn. f_equal. ring.
Qed.

Lemma all_finite_cons n (x : tensor n) (xs : list (tensor n)) :
  all_finite (S n) (x :: xs) = all_finite n x && all_finite (S n) xs.
Proof. reflexivity. Qed.

Lemma usable_weights_inv (L P : tensor 4) B sh :
  shape_ok (B :: sh) 4 L = true -> shape_ok (B :: sh) 4 P = true ->
  Forall usable_weight (sample_weights L P) ->
  all_finite 4 L = true /\ all_finite 4 P = true
  /\ ((0 < B)%nat -> fold_right Nat.mul 1%nat sh <> 0%nat).
Proof.
  intros SL SP. apply shape_ok_S in SL. apply shape_ok_S in SP.
  destruct SL as [LL SL], SP as [LP SP]. subst B.
  unfold sample_weights.
  revert P LP SP. induction L as [|l L IH]; intros [|p P] LP SP Hw;
    try discriminate.
  - repeat split. simpl. lia.
  - cbn [zip_with] in Hw.
    pose proof (Forall_inv Hw) as [r [Er Hr]].
    pose proof (Forall_inv_tail Hw) as Hw'.
    pose proof (Forall_inv SL) as Sl. pose proof (Forall_inv_tail SL) as SL'.
    pose proof (Forall_inv SP) as Sp. pose proof (Forall_inv_tail SP) as SP'.
    cbv beta in Sl, Sp.
    destruct (nmean_Finite_inv _ _ Er) as [Hfin Hne].
    apply all_finite_flatten in Hfin.
    destruct (all_finite_abs_diff_inv sh 3 l p Sl Sp Hfin) as [Fl Fp].
    destruct (IH SL' P (eq_sym (f_equal pred (eq_sym LP))) SP' Hw') as [FL [FP _]].
    rewrite !all_finite_cons, Fl, Fp, FL, FP. repeat split.
    intros _ Hz. apply Hne.
    assert (Hs : shape_ok sh 3 (tmap nabs 3 (tmap2 nsub 3 l p)) = true)
      by (rewrite tmap_shape; now apply tmap2_shape).
    apply flatten_length in Hs. rewrite Hz in Hs.
    now apply length_zero_iff_nil.
Qed.

Lemma zero_grad (P : tensor 4) (ws : list num) :
  length ws = length (P : list (tensor 3)) ->
  Forall usable_weight ws ->
  all_finite 4 P = true ->
  zip_with (fun x c => tmap (fun v => ndiv v c) 3 x) (tmap2 nsub 4 P P) ws
  = zeros_like 4 P.
Proof.
  revert ws. induction P as [|p P IH]; intros [|c ws] Lw Hw FP;
    try discriminate; [reflexivity|].
  rewrite all_finite_cons in FP. apply andb_true_iff in FP. destruct FP as [Fp FP].
  pose proof (Forall_inv Hw) as [r [-> Hr]].
  pose proof (Forall_inv_tail Hw) as Hw'.
  change (zeros_like 4 (p :: P)) with (zeros_like 3 p :: zeros_like 4 P).
  change (tmap2 nsub 4 (p :: P) (p :: P))
    with (tmap2 nsub 3 p p :: tmap2 nsub 4 P P).
  cbn [zip_with]. f_equal.
  - now apply zero_grad_row.
  - apply IH; auto.
Qed.
Lemma randint_draw_inv low high n draw :
  randint_draw low high n draw = true ->
  length draw = n /\ ((0 < n)%nat -> (low < high)%Z).
Proof.
  unfold randint_draw. intros H. apply andb_true_iff in H. destruct H as [Hl Hr].
  apply Nat.eqb_eq in Hl. split; [exact Hl|].
  intros Hn. destruct draw as [|t draw]; [simpl in Hl; lia|].
  cbn [forallb] in Hr. apply andb_true_iff in Hr. destruct Hr as [Ht _].
  apply andb_true_iff in Ht. destruct Ht as [H1 H2].
  apply Z.leb_le in H1. apply Z.ltb_lt in H2. lia.
Qed.

(** C1.  Two networks that return an all-zero noise prediction, guidance
    scale 1, latents of shape [[B, C, H, W]] with [B >= 1], timesteps as
    [torch.randint] draws them, which index the schedule, a noising that
    keeps the shape: the fake and the
    real clean-latent estimates are the same tensor, and provided every
    per-sample weighting factor is a finite number other than zero,
    [distribution_matching_loss] returns exactly zero. *)
Theorem dm_loss_zero_for_zero_networks :
  forall (real_unet fake_unet : Unet) (noise_scheduler : Scheduler)
         (latents : var 4) (prompt_embeds negative_prompt_embeds : var 3)
         (args : Args) (timestep : list Z) (noise noisy : tensor 4)
         B sh alpha_prod,
    (forall x t e, forward fake_unet x t e = Ok (zeros_like 4 x)) ->
    (forall x t e, forward real_unet x t e = Ok (zeros_like 4 x)) ->
    guidance_scale args = 1%R ->
    (0 < B)%nat ->
    shape_ok (B :: sh) 4 (data latents) = true ->
    randint_draw
      (py_int (IZR (num_train_timesteps noise_scheduler) * min_dm_step_ratio args))
      (py_int (IZR (num_train_timesteps noise_scheduler) * max_dm_step_ratio args))
      B timestep = true ->
    index_select (alphas_cumprod noise_scheduler) timestep = Ok alpha_prod ->
    add_noise noise_scheduler (data latents) noise timestep = Ok noisy ->
    shape_ok (B :: sh) 4 noisy = true ->
    exists pred_fake pred_real w,
      dm_estimates real_unet fake_unet noise_scheduler latents prompt_embeds
                   negative_prompt_embeds args timestep noise
      = Ok (pred_fake, pred_real)
      /\ data pred_fake = data pred_real
      /\ weighting_factor latents pred_real = Ok w
      /\ (Forall (fun wb : tensor 3 =>
                    exists c, wb = unsqueeze_last 3 c /\ usable_weight c)
                 (data w) ->
          exists loss,
            distribution_matching_loss real_unet fake_unet noise_scheduler latents
              prompt_embeds negative_prompt_embeds args timestep noise = Ok loss
            /\ data loss = Finite 0).
Proof.
  intros real fake s latents pe npe args ts noise noisy B sh alphas
         Hfake Hreal Hgs HB Sl Hdraw Hidx Hadd Sn.
  destruct (randint_draw_inv _ _ _ _ Hdraw) as [Lt Hrange].
  specialize (Hrange HB).
  pose proof (dm_estimates_zero real fake s latents pe npe args ts noise B sh
                noisy alphas Hfake Hreal Hgs Hrange Hadd Sn Lt Hidx HB) as Hest.
  set (P := epsilon_to_sample 3 alphas (zeros_like 4 noisy) noisy) in *.
  assert (SP : shape_ok (B :: sh) 4 P = true).
  { apply epsilon_to_sample_shape; auto.
    - rewrite (mapM_length _ _ _ Hidx). exact Lt.
    - now rewrite zeros_like_shape. }
  eexists. eexists. eexists.
  split; [exact Hest|]. split; [reflexivity|].
  split; [apply (weighting_factor_eq latents (Var (n := 4) P []) B sh Sl SP)|].
  cbn [data]. intros Hw.
  unfold distribution_matching_loss. rewrite Hest. cbn [Py.bind fst snd].
  rewrite (weighting_factor_eq latents (Var (n := 4) P []) B sh Sl SP).
  cbn [Py.bind data graph].
  rewrite (dm_grad_eq (Var (n := 4) P []) (Var (n := 4) P []) _ _ B sh SP SP
             (sample_weights_length _ _ B sh Sl SP)).
  cbn [Py.bind data graph].
  assert (Hws : Forall usable_weight (sample_weights (data latents) P)).
  { apply Forall_forall. intros c Hc.
    rewrite Forall_forall in Hw.
    destruct (Hw (unsqueeze_last 3 c) (in_map _ _ _ Hc)) as [c' [Ec Hc']].
    apply unsqueeze_last_inj in Ec. now subst c'. }
  destruct (usable_weights_inv _ _ B sh Sl SP Hws) as [FL [FP Hsize]].
  rewrite zero_grad; [| | exact Hws | exact FP].
  2:{ rewrite (sample_weights_length _ _ B sh Sl SP).
      apply shape_ok_S in SP. now destruct SP as [-> _]. }
  unfold vbcast2. cbn [data graph].
  assert (SZ : shape_ok (B :: sh) 4 (zeros_like 4 P) = true)
    by (now rewrite zeros_like_shape).
  rewrite (bcast2_same_shape nsub (B :: sh) 4 _ _ Sl SZ). cbn [Py.bind].
  unfold mse_loss, stopgrad, detach. cbn [data graph].
  rewrite (bcast2_same_shape nsub (B :: sh) 4 _ _ Sl
             (tmap2_shape nsub _ _ _ _ Sl SZ)).
  cbn [Py.bind]. eexists. split; [reflexivity|]. cbn [data].
  apply nmean_zeros; [now apply surrogate_error_zero|].
  intros Hnil. apply (f_equal (@length num)) in Hnil.
  rewrite (flatten_length (B :: sh) 4) in Hnil.
  - cbn [fold_right length] in Hnil. specialize (Hsize HB). nia.
  - rewrite tmap_shape. apply tmap2_shape; [exact Sl|].
    now apply tmap2_shape.
Qed.


Lemma py_int_eq (r : R) (z : Z) :
  (0 <= r)%R -> (IZR z <= r < IZR z + 1)%R -> py_int r = z.
Proof.
  intros H0 Hz. unfold py_int. destruct (Rlt_dec r 0) as [Hneg|_]; [lra|].
  symmetry. apply Int_part_spec. lra.
Qed.

Lemma pred_clean_finite a e x :
  (0 < a <= 1)%R ->
  pred_clean (Finite a) (Finite e) (Finite x)
  = Finite ((x - sqrt (1 - a) * e) / sqrt a).
Proof.
  intros [Ha0 Ha1]. unfold pred_clean. cbn [nsub lift2].
  rewrite !npow_half_valid by lra. cbn [nmul nsub lift2 ndiv].
  pose proof (sqrt_lt_R0 a Ha0).
  destruct (Req_dec_T (sqrt a) 0) as [E|_]; [lra | reflexivity].
Qed.

Lemma dm_loss_zero_for_zero_networks_witness :
  exists loss,
    distribution_matching_loss (Demo.zero_unet Teacher) (Demo.zero_unet Fake)
      Demo.thousand_steps (const (Demo.two 0 1))
      (const (Demo.embeddings 2)) (const (Demo.embeddings 2))
      (Demo.args None None) [20%Z; 979%Z] (Demo.two 1 2) = Ok loss
    /\ data loss = Finite 0.
Proof.
  pose (s1 := sqrt (1 / 4)). pose (s2 := sqrt (1 - 1 / 4)).
  assert (Hs1 : (0 < s1)%R) by (apply sqrt_lt_R0; lra).
  assert (Hs2 : (0 < s2)%R) by (apply sqrt_lt_R0; lra).
  pose (noisy_latents := Demo.two (s1 * 0 + s2 * 1) (s1 * 1 + s2 * 2)).
  assert (Hidx : index_select (alphas_cumprod Demo.thousand_steps) [20%Z; 979%Z]
                 = Ok [Finite (1 / 4); Finite (1 / 4)]) by reflexivity.
  assert (Hadd : add_noise Demo.thousand_steps (Demo.two 0 1) (Demo.two 1 2)
                           [20%Z; 979%Z] = Ok noisy_latents).
  { unfold Demo.thousand_steps, Demo.scheduler in *. cbn [add_noise alphas_cumprod] in *.
    unfold sample_to_epsilon_target. rewrite Hidx.
    cbn [Py.bind zip3_with tmap2 zip_with Demo.two]. unfold noisy.
    cbn [nsub lift2]. rewrite !npow_half_valid by lra. reflexivity. }
  assert (Hrange :
            (py_int (IZR (num_train_timesteps Demo.thousand_steps)
                     * min_dm_step_ratio (Demo.args None None))
             < py_int (IZR (num_train_timesteps Demo.thousand_steps)
                       * max_dm_step_ratio (Demo.args None None)))%Z).
  { cbn [num_train_timesteps Demo.thousand_steps Demo.scheduler
         min_dm_step_ratio max_dm_step_ratio Demo.args].
    rewrite (py_int_eq (1000 * (2 / 100)) 20), (py_int_eq (1000 * (98 / 100)) 980);
      [lia | lra | lra | lra | lra]. }
  assert (Hdraw :
            randint_draw
              (py_int (IZR (num_train_timesteps Demo.thousand_steps)
                       * min_dm_step_ratio (Demo.args None None)))
              (py_int (IZR (num_train_timesteps Demo.thousand_steps)
                       * max_dm_step_ratio (Demo.args None None)))
              2 [20%Z; 979%Z] = true).
  { cbn [num_train_timesteps Demo.thousand_steps Demo.scheduler
         min_dm_step_ratio max_dm_step_ratio Demo.args].
    rewrite (py_int_eq (1000 * (2 / 100)) 20), (py_int_eq (1000 * (98 / 100)) 980);
      [reflexivity | lra | lra | lra | lra]. }
  destruct (dm_loss_zero_for_zero_networks
              (Demo.zero_unet Teacher) (Demo.zero_unet Fake) Demo.thousand_steps
              (const (Demo.two 0 1))
              (const (Demo.embeddings 2))
              (const (Demo.embeddings 2))
              (Demo.args None None) [20%Z; 979%Z] (Demo.two 1 2) noisy_latents
              2%nat [1; 1; 1]%nat [Finite (1 / 4); Finite (1 / 4)])
    as [pf [pr [w [Hest [_ [Hw Hloss]]]]]];
    try reflexivity; try exact Hadd; try exact Hdraw; try exact Hidx; try lia.
  apply Hloss. clear Hloss.
  rewrite (dm_estimates_zero (Demo.zero_unet Teacher) (Demo.zero_unet Fake)
             Demo.thousand_steps (const (Demo.two 0 1)) _ _ (Demo.args None None)
             [20%Z; 979%Z] (Demo.two 1 2) 2%nat [1; 1; 1]%nat noisy_latents
             [Finite (1 / 4); Finite (1 / 4)]) in Hest;
    try reflexivity; try exact Hadd; try exact Hrange; try exact Hidx; try lia.
  inversion Hest; subst pf pr. clear Hest.
  rewrite (weighting_factor_eq _ _ 2%nat [1; 1; 1]%nat) in Hw by reflexivity.
  inversion Hw; subst w. clear Hw.
  cbn [data]. rewrite !pred_clean_finite by lra. fold s1 s2. cbn [nabs].
  assert (Hq1 : (0 < (s1 * 0 + s2 * 1 - s2 * 0) / s1)%R)
    by (apply Rdiv_lt_0_compat; lra).
  assert (Hq2 : (1 < (s1 * 1 + s2 * 2 - s2 * 0) / s1)%R).
  { apply (Rmult_lt_reg_r s1); [exact Hs1|].
    unfold Rdiv. rewrite Rmult_assoc, Rinv_l by lra. lra. }
  constructor; [|constructor; [|constructor]].
  - eexists. split; [reflexivity|].
    change (nmean [Finite ?v]) with (nmean (map Finite [v])).
    rewrite nmean_finite by discriminate.
    eexists. split; [reflexivity|].
    cbn [rsum fold_right length INR]. rewrite Rabs_left by lra. lra.
  - eexists. split; [reflexivity|].
    change (nmean [Finite ?v]) with (nmean (map Finite [v])).
    rewrite nmean_finite by discriminate.
    eexists. split; [reflexivity|].
    cbn [rsum fold_right length INR]. rewrite Rabs_left by lra. lra.
Defined.

(* ================================================================== *)
(** * Further properties of the two files *)
(* ================================================================== *)

(** ** Indexing the schedule *)

Lemma getitem_raises {A} (xs : list A) i e :
  getitem xs i = Raise e -> e = IndexError.
Proof.
  unfold getitem. cbv zeta.
  match goal with
  | |- context [if ?c then _ else _] => destruct c
  end.
  - destruct (nth_error _ _); intros H; inversion H; reflexivity.
  - intros H; inversion H; reflexivity.
Qed.

Lemma getitem_out_of_range {A} (xs : list A) i :
  (i < - Z.of_nat (length xs) \/ Z.of_nat (length xs) <= i)%Z ->
  getitem xs i = Raise IndexError.
Proof.
  intros H. unfold getitem. cbv zeta.
  destruct (i <? 0)%Z eqn:Hi;
    [apply Z.ltb_lt in Hi | apply Z.ltb_ge in Hi];
    match goal with
    | |- context [if ?c then _ else _] => destruct c eqn:Hb; [|reflexivity]
    end;
    apply andb_prop in Hb; destruct Hb as [H1 H2];
    apply Z.leb_le in H1; apply Z.ltb_lt in H2; lia.
Qed.

Lemma index_select_out_of_range xs idx :
  Exists (fun i => (i < - Z.of_nat (length xs) \/ Z.of_nat (length xs) <= i)%Z) idx ->
  index_select xs idx = Raise IndexError.
Proof.
  unfold index_select. induction 1 as [i idx H | i idx H IH]; cbn [mapM].
  - now rewrite getitem_out_of_range.
  - destruct (getitem xs i) eqn:Hg; cbn [Py.bind].
    + now rewrite IH.
    + now rewrite (getitem_raises _ _ _ Hg).
Qed.

Lemma index_select_repeat xs t a B :
  getitem xs t = Ok a -> index_select xs (repeat t B) = Ok (repeat a B).
Proof.
  intros H. unfold index_select.
  rewrite (mapM_ok_map _ (fun _ => a)).
  - now rewrite map_repeat.
  - intros x Hx. apply repeat_spec in Hx. now subst x.
Qed.

Lemma zip3_with_repeat {A B C D} (f : A -> B -> C -> D) a xs ys :
  zip3_with f (repeat a (length xs)) xs ys = zip_with (f a) xs ys.
Proof.
  revert ys. induction xs as [|x xs IH]; intros [|y ys]; simpl;
    try reflexivity.
  now rewrite IH.
Qed.

(** ** [eps_to_mu]: errors, broadcasting and non-finite values *)

(** X2: a timestep outside the schedule, [t >= len(alphas_cumprod)] or
    [t < -len(alphas_cumprod)], makes [eps_to_mu] raise [IndexError] at its
    first line, whatever tensors it was given. *)
Theorem eps_to_mu_timestep_out_of_range :
  forall (scheduler : Scheduler) n (model_output sample : var (S n))
         (timesteps : list Z),
    Exists (fun t => (t < - Z.of_nat (length (alphas_cumprod scheduler))
                      \/ Z.of_nat (length (alphas_cumprod scheduler)) <= t)%Z)
           timesteps ->
    eps_to_mu scheduler model_output sample timesteps = Raise IndexError.
Proof.
  intros s n mo x ts H. unfold eps_to_mu.
  now rewrite (index_select_out_of_range _ _ H).
Qed.

Lemma eps_to_mu_timestep_out_of_range_witness :
  eps_to_mu (Demo.scheduler 1 "epsilon" [Finite (1 / 4)])
            (const (Demo.one 1)) (const (Demo.one 2)) [1%Z] = Raise IndexError.
Proof.
  apply (eps_to_mu_timestep_out_of_range
           (Demo.scheduler 1 "epsilon" [Finite (1 / 4)]) 3
           (const (Demo.one 1)) (const (Demo.one 2)) [1%Z]).
  apply Exists_cons_hd. right. simpl. lia.
Defined.

(** X3: when the number of timesteps differs from the batch size of
    [model_output] and neither is 1, [eps_to_mu] raises the broadcasting
    error of torch: no sample is silently dropped or repeated. *)
Theorem eps_to_mu_batch_mismatch_raises :
  forall (scheduler : Scheduler) n (model_output sample : var (S n))
         (timesteps : list Z) (alpha_prod : list num),
    index_select (alphas_cumprod scheduler) timesteps = Ok alpha_prod ->
    length timesteps <> @length (tensor n) (data model_output) ->
    length timesteps <> 1%nat ->
    @length (tensor n) (data model_output) <> 1%nat ->
    exists msg,
      eps_to_mu scheduler model_output sample timesteps
      = Raise (RuntimeError msg).
Proof.
  intros s n mo x ts alphas Hidx Hne H1 Hm1. eexists.
  pose proof (mapM_length _ _ _ Hidx) as La.
  unfold eps_to_mu. rewrite Hidx. cbn [Py.bind].
  assert (Hb : vbcast2 nmul
                 (vmap npow_half
                    (vmap (nsub (Finite 1))
                       (const (n := S n) (map (unsqueeze_last n) alphas)))) mo
               = Raise (RuntimeError "The size of tensor a must match the size of tensor b")).
  { destruct mo as [e ge]. cbn [data] in *.
    unfold vbcast2, vmap, const. cbn [data graph tmap bcast2].
    rewrite !length_map.
    destruct (Nat.eqb (length alphas) (@length (tensor n) e)) eqn:E;
      [apply Nat.eqb_eq in E; congruence|].
    destruct alphas as [|a [|a2 alphas]]; destruct e as [|e1 [|e2 e]];
      cbn [length] in *; try congruence; reflexivity. }
  rewrite Hb. reflexivity.
Qed.

Lemma eps_to_mu_batch_mismatch_raises_witness :
  exists msg,
    eps_to_mu (Demo.scheduler 1 "epsilon" [Finite (1 / 4)])
              (const (Demo.two 1 2)) (const (Demo.two 1 2)) [0%Z; 0%Z; 0%Z]
    = Raise (RuntimeError msg).
Proof.
  apply (eps_to_mu_batch_mismatch_raises
           (Demo.scheduler 1 "epsilon" [Finite (1 / 4)]) 3
           (const (Demo.two 1 2)) (const (Demo.two 1 2)) [0%Z; 0%Z; 0%Z]
           [Finite (1 / 4); Finite (1 / 4); Finite (1 / 4)]).
  - reflexivity.
  - simpl. lia.
  - simpl. lia.
  - simpl. lia.
Defined.

Lemma bcast2_one_row_l f n c (xs : tensor (S n)) :
  bcast2 f (S n) [unsqueeze_last n c] xs = Ok (map (tmap (f c) n) xs).
Proof.
  cbn [bcast2].
  destruct (Nat.eqb (length [unsqueeze_last n c]) (@length (tensor n) xs)) eqn:E.
  - apply Nat.eqb_eq in E. destruct xs as [|x [|x' xs]]; try discriminate.
    cbn [zipM map Py.bind]. now rewrite bcast2_unsqueeze_l.
  - apply mapM_ok_map. intros. apply bcast2_unsqueeze_l.
Qed.

Lemma bcast2_one_row_r f n c (xs : tensor (S n)) :
  bcast2 f (S n) xs [unsqueeze_last n c]
  = Ok (map (tmap (fun v => f v c) n) xs).
Proof.
  cbn [bcast2]. destruct xs as [|x [|x' xs]].
  - reflexivity.
  - cbn [length Nat.eqb zipM map Py.bind]. now rewrite bcast2_unsqueeze_r.
  - cbn [length Nat.eqb].
    apply (mapM_ok_map (fun x0 => bcast2 f n x0 (unsqueeze_last n c))
                       (tmap (fun v => f v c) n)).
    intros. apply bcast2_unsqueeze_r.
Qed.

(** X4: with a single timestep and a batch of any size, [eps_to_mu]
    broadcasts: every sample is rescaled with the schedule entry of that one
    timestep. *)
Theorem eps_to_mu_single_timestep_broadcasts :
  forall (scheduler : Scheduler) n B sh (model_output sample : var (S n))
         (t : Z) (a : num),
    shape_ok (B :: sh) (S n) (data sample) = true ->
    shape_ok (B :: sh) (S n) (data model_output) = true ->
    getitem (alphas_cumprod scheduler) t = Ok a ->
    exists out,
      eps_to_mu scheduler model_output sample [t] = Ok out
      /\ data out = tmap2 (pred_clean a) (S n) (data model_output) (data sample)
      /\ shape_ok (B :: sh) (S n) (data out) = true.
Proof.
  intros s n B sh mo x t a Hx He Ha.
  destruct mo as [e ge], x as [x gx]. cbn [data] in *.
  unfold eps_to_mu, index_select. cbn [mapM]. rewrite Ha. cbn [Py.bind map].
  unfold vbcast2, vmap, const. cbn [data graph tmap map].
  rewrite !tmap_unsqueeze, bcast2_one_row_l. cbn [Py.bind data graph].
  change (map (tmap (nmul (npow_half (nsub (Finite 1) a))) n) e)
    with (tmap (nmul (npow_half (nsub (Finite 1) a))) (S n) e).
  rewrite (bcast2_same_shape nsub (B :: sh) (S n) x _ Hx)
    by (now rewrite tmap_shape).
  cbn [Py.bind data graph]. rewrite bcast2_one_row_r. cbn [Py.bind data graph].
  change (map (tmap (fun v => ndiv v (npow_half a)) n) ?d)
    with (tmap (fun v => ndiv v (npow_half a)) (S n) d).
  rewrite pred_clean_row.
  eexists. split; [reflexivity|]. cbn [data]. split; [reflexivity|].
  now apply tmap2_shape.
Qed.

Lemma eps_to_mu_single_timestep_broadcasts_witness :
  exists out,
    eps_to_mu (Demo.scheduler 1 "epsilon" [Finite (1 / 4)])
              (const (Demo.two 1 2)) (const (Demo.two 3 4)) [0%Z] = Ok out
    /\ data out = tmap2 (pred_clean (Finite (1 / 4))) 4 (Demo.two 1 2) (Demo.two 3 4)
    /\ shape_ok [2; 1; 1; 1]%nat 4 (data out) = true.
Proof.
  apply (eps_to_mu_single_timestep_broadcasts
           (Demo.scheduler 1 "epsilon" [Finite (1 / 4)]) 3 2 [1; 1; 1]%nat
           (const (Demo.two 1 2)) (const (Demo.two 3 4)) 0%Z (Finite (1 / 4)));
    reflexivity.
Defined.

Lemma pred_clean_finite_iff a e x :
  is_finite (pred_clean a e x) = true
  <-> valid_alpha a /\ is_finite e = true /\ is_finite x = true.
Proof.
  unfold pred_clean.
  destruct a as [r|]; cbn [nsub lift2 npow_half valid_alpha];
    [|split; [destruct x; discriminate | intros [[] _]]].
  destruct (Rlt_dec (1 - r) 0) as [Hb|Hb], (Rlt_dec r 0) as [Ha|Ha].
  - split; [destruct x; discriminate | intros [? _]; lra].
  - split; [destruct e, x; discriminate | intros [? _]; lra].
  - split; [destruct e, x; discriminate | intros [? _]; lra].
  - destruct e as [re|], x as [rx|]; cbn [nmul nsub lift2 ndiv is_finite];
      try (split; [discriminate | intros (_ & ? & ?); discriminate]).
    destruct (Req_dec_T (sqrt r) 0) as [H0|H0]; cbn [is_finite].
    + split; [discriminate|]. intros ([Hr _] & _).
      apply sqrt_eq_0 in H0; lra.
    + split; [|reflexivity]. intros _. repeat split; try lra.
      destruct (Req_dec_T r 0) as [Hr|Hr]; [|lra].
      exfalso. apply H0. rewrite Hr. apply sqrt_0.
Qed.

(** X5: [eps_to_mu] has no guard on the schedule.  An element of its
    result can only be finite when the two elements it is computed from
    are finite and the schedule entry of the sample lies in (0, 1]: an
    entry of 0, as in a schedule with zero terminal signal-to-noise ratio,
    a negative entry or an entry above 1 makes every element of the sample
    [nan] or [inf]. *)
Theorem eps_to_mu_finite_needs_valid_schedule :
  forall (scheduler : Scheduler) n B sh (model_output sample : var (S n))
         (timesteps : list Z) (alpha_prod : list num),
    shape_ok (B :: sh) (S n) (data sample) = true ->
    shape_ok (B :: sh) (S n) (data model_output) = true ->
    length timesteps = B ->
    index_select (alphas_cumprod scheduler) timesteps = Ok alpha_prod ->
    exists out,
      eps_to_mu scheduler model_output sample timesteps = Ok out
      /\ forall b idx a e x,
           nth_error alpha_prod b = Some a ->
           tget (S n) (data model_output) (b :: idx) = Some e ->
           tget (S n) (data sample) (b :: idx) = Some x ->
           exists v,
             tget (S n) (data out) (b :: idx) = Some v
             /\ (is_finite v = true ->
                 valid_alpha a /\ is_finite e = true /\ is_finite x = true)
             /\ (~ valid_alpha a -> v = NonFinite).
Proof.
  intros s n B sh mo x ts alphas Hx He Lt Hidx.
  eexists. split; [eapply eps_to_mu_eq; eassumption|]. cbn [data].
  intros b idx a e v Ha Ge Gx. exists (pred_clean a e v). split.
  - unfold epsilon_to_sample.
    cbn [tget] in *. rewrite nth_error_zip3_with, Ha.
    destruct (@nth_error (tensor n) (data mo) b) as [eb|]; [|discriminate].
    destruct (@nth_error (tensor n) (data x) b) as [xb|]; [|discriminate].
    rewrite tget_tmap2, Ge, Gx. reflexivity.
  - pose proof (pred_clean_finite_iff a e v) as [Hfin _]. split; [exact Hfin|].
    intros Hbad. destruct (pred_clean a e v) as [r|]; [|reflexivity].
    exfalso. apply Hbad. now apply Hfin.
Qed.

Lemma eps_to_mu_finite_needs_valid_schedule_witness :
  exists out,
    eps_to_mu (Demo.scheduler 1 "epsilon" [Finite 0])
              (const (Demo.one 1)) (const (Demo.one 2)) [0%Z] = Ok out
    /\ tget 4 (data out) [0; 0; 0; 0]%nat = Some NonFinite.
Proof.
  destruct (eps_to_mu_finite_needs_valid_schedule
              (Demo.scheduler 1 "epsilon" [Finite 0]) 3 1 [1; 1; 1]%nat
              (const (Demo.one 1)) (const (Demo.one 2)) [0%Z] [Finite 0]
              eq_refl eq_refl eq_refl eq_refl) as [out [Hout Hget]].
  exists out. split; [exact Hout|].
  destruct (Hget 0%nat [0; 0; 0]%nat (Finite 0) (Finite 1) (Finite 2)
              eq_refl eq_refl eq_refl) as [v [Hv [_ Hbad]]].
  rewrite Hv. f_equal. apply Hbad. cbn [valid_alpha]. lra.
Defined.

(** ** [generate] *)

(** X1: on a batch of latents of shape [[B, ...]], [generate] runs the
    network once, with the timestep [num_train_timesteps - 1] for every
    sample, and returns the clean-latent estimate at that timestep: a tensor
    of the shape of the latents whose gradient reaches the parameters of the
    network. *)
Theorem generate_one_step_at_last_timestep :
  forall (unet : Unet) (scheduler : Scheduler) (latents : var 4)
         (prompt_embeds : var 3) B sh (noise_pred : tensor 4) (a : num),
    shape_ok (B :: sh) 4 (data latents) = true ->
    forward unet (data latents) (repeat (num_train_timesteps scheduler - 1)%Z B)
            (data prompt_embeds) = Ok noise_pred ->
    shape_ok (B :: sh) 4 noise_pred = true ->
    getitem (alphas_cumprod scheduler) (num_train_timesteps scheduler - 1)
    = Ok a ->
    exists out,
      generate unet scheduler latents prompt_embeds = Ok out
      /\ data out = tmap2 (pred_clean a) 4 noise_pred (data latents)
      /\ shape_ok (B :: sh) 4 (data out) = true
      /\ (requires_grad unet = true -> In (owner unet) (graph out))
      /\ (forall m, In m (graph out) ->
                    m = owner unet \/ In m (graph latents)
                    \/ In m (graph prompt_embeds)).
Proof.
  intros unet s latents pe B sh np a Hx Hfwd Hnp Ha.
  pose proof (proj1 (shape_ok_S _ _ _ _) Hx) as [Lx _].
  pose proof (proj1 (shape_ok_S _ _ _ _) Hnp) as [Lnp _].
  unfold generate. cbv zeta. rewrite Lx.
  unfold call_unet. rewrite Hfwd. cbn [Py.bind].
  rewrite (eps_to_mu_eq s 3 B sh _ latents _ (repeat a B));
    [ | exact Hx | exact Hnp | apply repeat_length
      | now apply index_select_repeat ].
  eexists. split; [reflexivity|]. cbn [data graph].
  assert (Hdata : epsilon_to_sample 3 (repeat a B) np (data latents)
                  = tmap2 (pred_clean a) 4 np (data latents)).
  { unfold epsilon_to_sample. rewrite <- Lnp.
    rewrite (zip3_with_repeat (fun a0 e x => tmap2 (pred_clean a0) 3 e x)).
    reflexivity. }
  rewrite Hdata. split; [reflexivity|]. split; [now apply tmap2_shape|]. split.
  - intros Hrg. rewrite Hrg. rewrite !in_app_iff. left. right. right. left.
    now left.
  - intros m Hm. rewrite !in_app_iff in Hm.
    destruct (requires_grad unet); cbn [In] in Hm; tauto || intuition auto.
Qed.

Lemma generate_one_step_at_last_timestep_witness :
  exists out,
    generate (Demo.zero_unet Student) (Demo.scheduler 1 "epsilon" [Finite (1 / 4)])
             (const (Demo.one 1)) (const Demo.embedding) = Ok out
    /\ data out
       = tmap2 (pred_clean (Finite (1 / 4))) 4 (zeros_like 4 (Demo.one 1)) (Demo.one 1)
    /\ shape_ok [1; 1; 1; 1]%nat 4 (data out) = true
    /\ In Student (graph out).
Proof.
  destruct (generate_one_step_at_last_timestep
              (Demo.zero_unet Student)
              (Demo.scheduler 1 "epsilon" [Finite (1 / 4)])
              (const (Demo.one 1)) (const Demo.embedding) 1 [1; 1; 1]%nat
              (zeros_like 4 (Demo.one 1)) (Finite (1 / 4))
              eq_refl eq_refl eq_refl eq_refl)
    as [out [Hout [Hdata [Hshape [Hgrad _]]]]].
  exists out. repeat split; [exact Hout | exact Hdata | exact Hshape |].
  apply Hgrad. reflexivity.
Defined.

(** ** [distribution_matching_loss] *)

Lemma chunk2_halves n (xs ys : list (tensor n)) g :
  length xs = length ys -> xs <> [] ->
  chunk2 (Var (n := S n) (xs ++ ys) g)
  = Ok (Var (n := S n) xs g, Var (n := S n) ys g).
Proof.
  intros L Hne. unfold chunk2. cbn [data graph].
  destruct xs as [|x0 xs]; [contradiction|].
  destruct ys as [|y0 ys]; [discriminate|].
  assert (Hlen : Nat.div2 (S (length ((x0 :: xs) ++ y0 :: ys)))
                 = length (x0 :: xs)).
  { rewrite length_app, <- L.
    replace (length (x0 :: xs) + length (x0 :: xs))%nat
      with (2 * length (x0 :: xs))%nat by lia.
    apply Nat.div2_succ_double. }
  rewrite Hlen.
  rewrite firstn_app, firstn_all, Nat.sub_diag. cbn [firstn]. rewrite app_nil_r.
  rewrite skipn_app, skipn_all, Nat.sub_diag. cbn [skipn app].
  change ((x0 :: xs) ++ y0 :: ys) with (x0 :: (xs ++ y0 :: ys)).
  destruct (xs ++ y0 :: ys) eqn:Happ; [|reflexivity].
  exfalso. eapply app_cons_not_nil. symmetry. exact Happ.
Qed.

(** Classifier-free guidance, on one element. *)
Lemma guided_eq g sh n (u t : tensor n) :
  shape_ok sh n u = true -> shape_ok sh n t = true ->
  tmap2 nadd n u (tmap (nmul (Finite g)) n (tmap2 nsub n t u))
  = tmap2 (fun a b => nadd a (nmul (Finite g) (nsub b a))) n u t.
Proof.
  intros _ _. rewrite tmap_tmap2.
  rewrite (tmap2_flip (fun a b => nmul (Finite g) (nsub a b)) n t u).
  now rewrite tmap2_tmap2_same_l.
Qed.

Lemma dm_estimates_eq (real_unet fake_unet : Unet) (s : Scheduler)
    (latents : var 4) (pe npe : var 3) (args : Args) timestep noise
    B sh noisy alphas (eps_fake eps_uncond eps_text : tensor 4) :
  (py_int (IZR (num_train_timesteps s) * min_dm_step_ratio args)
   < py_int (IZR (num_train_timesteps s) * max_dm_step_ratio args))%Z ->
  (0 < B)%nat ->
  length timestep = B ->
  index_select (alphas_cumprod s) timestep = Ok alphas ->
  add_noise s (data latents) noise timestep = Ok noisy ->
  shape_ok (B :: sh) 4 noisy = true ->
  forward fake_unet noisy timestep (data pe) = Ok eps_fake ->
  shape_ok (B :: sh) 4 eps_fake = true ->
  forward real_unet (@app (tensor 3) noisy noisy) (timestep ++ timestep)%list
          (@app (tensor 2) (data npe) (data pe))
  = Ok (@app (tensor 3) eps_uncond eps_text) ->
  shape_ok (B :: sh) 4 eps_uncond = true ->
  shape_ok (B :: sh) 4 eps_text = true ->
  dm_estimates real_unet fake_unet s latents pe npe args timestep noise
  = Ok (Var (n := 4) (epsilon_to_sample 3 alphas eps_fake noisy) [],
        Var (n := 4)
            (epsilon_to_sample 3 alphas
               (tmap2 (fun u t => nadd u (nmul (Finite (guidance_scale args)) (nsub t u)))
                      4 eps_uncond eps_text)
               noisy) []).
Proof.
  intros Hrange HB Lt Hidx Hadd Sn Hfake Sf Hreal Su St.
  unfold dm_estimates, randint_check.
  destruct (Z.ltb_spec
              (py_int (IZR (num_train_timesteps s) * min_dm_step_ratio args))
              (py_int (IZR (num_train_timesteps s) * max_dm_step_ratio args)));
    [|lia].
  cbn [Py.bind]. unfold vadd_noise. cbn [data graph const]. rewrite Hadd.
  cbn [Py.bind]. unfold call_unet at 1. cbn [data]. rewrite Hfake. cbn [Py.bind].
  rewrite (eps_to_mu_eq s 3 B sh _ _ timestep alphas); cbn [data]; auto.
  unfold no_grad at 1. cbn [Py.bind data].
  unfold call_unet. unfold cat at 1 2. cbn [data graph].
  match goal with
  | |- context [forward real_unet ?a ?b ?c] =>
      change (forward real_unet a b c = Ok (@app (tensor 3) eps_uncond eps_text))
        in Hreal
  end.
  rewrite Hreal. cbn [Py.bind].
  pose proof (proj1 (shape_ok_S _ _ _ _) Su) as [Lu _].
  pose proof (proj1 (shape_ok_S _ _ _ _) St) as [Lt' _].
  rewrite chunk2_halves.
  2:{ exact (eq_trans Lu (eq_sym Lt')). }
  2:{ intros Hnil. rewrite Hnil in Lu. simpl in Lu. lia. }
  cbn [Py.bind fst snd].
  unfold no_grad, vbcast2, vmap. cbn [data graph].
  rewrite (bcast2_same_shape nsub (B :: sh) 4 _ _ St Su). cbn [Py.bind data graph].
  rewrite (bcast2_same_shape nadd (B :: sh) 4 eps_uncond _ Su)
    by (rewrite tmap_shape; now apply tmap2_shape).
  cbn [Py.bind data graph].
  rewrite (guided_eq _ (B :: sh) 4 _ _ Su St).
  rewrite (eps_to_mu_eq s 3 B sh _ _ timestep alphas); cbn [data]; auto.
  now apply tmap2_shape.
Qed.

(** X6: the two estimates of [distribution_matching_loss].  The fake
    estimate is [eps_to_mu] of the fake network's prediction; the real
    estimate is [eps_to_mu] of the guided prediction
    [uncond + guidance_scale * (text - uncond)], where [uncond] is the first
    half of the teacher's output on the doubled batch (the negative prompts
    come first) and [text] the second.  Both have the shape of the noisy
    latents and carry no gradient. *)
Theorem dm_estimates_classifier_free_guidance :
  forall (real_unet fake_unet : Unet) (noise_scheduler : Scheduler)
         (latents : var 4) (prompt_embeds negative_prompt_embeds : var 3)
         (args : Args) (timestep : list Z) (noise noisy : tensor 4)
         B sh alpha_prod (eps_fake eps_uncond eps_text : tensor 4),
    (py_int (IZR (num_train_timesteps noise_scheduler) * min_dm_step_ratio args)
     < py_int (IZR (num_train_timesteps noise_scheduler) * max_dm_step_ratio args))%Z ->
    (0 < B)%nat ->
    length timestep = B ->
    index_select (alphas_cumprod noise_scheduler) timestep = Ok alpha_prod ->
    add_noise noise_scheduler (data latents) noise timestep = Ok noisy ->
    shape_ok (B :: sh) 4 noisy = true ->
    forward fake_unet noisy timestep (data prompt_embeds) = Ok eps_fake ->
    shape_ok (B :: sh) 4 eps_fake = true ->
    forward real_unet (@app (tensor 3) noisy noisy) (timestep ++ timestep)%list
            (@app (tensor 2) (data negative_prompt_embeds) (data prompt_embeds))
    = Ok (@app (tensor 3) eps_uncond eps_text) ->
    shape_ok (B :: sh) 4 eps_uncond = true ->
    shape_ok (B :: sh) 4 eps_text = true ->
    exists pred_fake pred_real,
      dm_estimates real_unet fake_unet noise_scheduler latents prompt_embeds
                   negative_prompt_embeds args timestep noise
      = Ok (pred_fake, pred_real)
      /\ data pred_fake = epsilon_to_sample 3 alpha_prod eps_fake noisy
      /\ data pred_real
         = epsilon_to_sample 3 alpha_prod
             (tmap2 (fun u t => nadd u (nmul (Finite (guidance_scale args)) (nsub t u)))
                    4 eps_uncond eps_text)
             noisy
      /\ graph pred_fake = [] /\ graph pred_real = []
      /\ shape_ok (B :: sh) 4 (data pred_fake) = true
      /\ shape_ok (B :: sh) 4 (data pred_real) = true.
Proof.
  intros real fake s latents pe npe args ts noise noisy B sh alphas ef eu et
         Hrange HB Lt Hidx Hadd Sn Hfake Sf Hreal Su St.
  pose proof (mapM_length _ _ _ Hidx) as La. rewrite Lt in La.
  eexists. eexists. split.
  - eapply dm_estimates_eq; eassumption.
  - cbn [data graph]. repeat split.
    + now apply epsilon_to_sample_shape.
    + apply epsilon_to_sample_shape; auto. now apply tmap2_shape.
Qed.

Lemma demo_dm_range gamma limit :
  (py_int (IZR (num_train_timesteps Demo.thousand_steps)
           * min_dm_step_ratio (Demo.args gamma limit))
   < py_int (IZR (num_train_timesteps Demo.thousand_steps)
             * max_dm_step_ratio (Demo.args gamma limit)))%Z.
Proof.
  cbn [num_train_timesteps Demo.thousand_steps Demo.scheduler
       min_dm_step_ratio max_dm_step_ratio Demo.args].
  rewrite (py_int_eq (1000 * (2 / 100)) 20), (py_int_eq (1000 * (98 / 100)) 980);
    [lia | lra | lra | lra | lra].
Qed.

Lemma demo_index :
  index_select (alphas_cumprod Demo.thousand_steps) [20%Z; 979%Z]
  = Ok [Finite (1 / 4); Finite (1 / 4)].
Proof. reflexivity. Qed.

Lemma demo_add_noise :
  add_noise Demo.thousand_steps (Demo.two 0 1) (Demo.two 1 2) [20%Z; 979%Z]
  = Ok Demo.noisy_two.
Proof.
  unfold Demo.thousand_steps, Demo.scheduler. cbn [add_noise].
  unfold sample_to_epsilon_target.
  change (index_select (repeat (Finite (1 / 4)) 1000) [20%Z; 979%Z])
    with (index_select (alphas_cumprod Demo.thousand_steps) [20%Z; 979%Z]).
  rewrite demo_index.
  cbn [Py.bind zip3_with tmap2 zip_with Demo.two]. unfold noisy.
  cbn [nsub lift2]. rewrite !npow_half_valid by lra. reflexivity.
Qed.

Lemma dm_estimates_classifier_free_guidance_witness :
  exists pred_fake pred_real,
    dm_estimates (Demo.zero_unet Teacher) (Demo.zero_unet Fake)
      Demo.thousand_steps (const (Demo.two 0 1))
      (const (Demo.embeddings 2)) (const (Demo.embeddings 2))
      (Demo.args None None) [20%Z; 979%Z] (Demo.two 1 2)
    = Ok (pred_fake, pred_real)
    /\ graph pred_fake = [] /\ graph pred_real = []
    /\ shape_ok [2; 1; 1; 1]%nat 4 (data pred_fake) = true
    /\ shape_ok [2; 1; 1; 1]%nat 4 (data pred_real) = true.
Proof.
  destruct (dm_estimates_classifier_free_guidance
              (Demo.zero_unet Teacher) (Demo.zero_unet Fake) Demo.thousand_steps
              (const (Demo.two 0 1))
              (const (Demo.embeddings 2)) (const (Demo.embeddings 2))
              (Demo.args None None) [20%Z; 979%Z] (Demo.two 1 2) Demo.noisy_two
              2%nat [1; 1; 1]%nat [Finite (1 / 4); Finite (1 / 4)]
              (zeros_like 4 Demo.noisy_two) (zeros_like 4 Demo.noisy_two)
              (zeros_like 4 Demo.noisy_two))
    as [pf [pr [Hest [_ [_ [Gf [Gr [Sf Sr]]]]]]]];
    try reflexivity; try apply demo_dm_range; try apply demo_add_noise;
    try apply demo_index; try lia.
  exists pf, pr. repeat split; assumption.
Defined.

(** A binary operator that does not depend on its first argument where
    that argument is finite. *)
Lemma tmap2_absorb_l F G sh n (x y : tensor n) :
  (forall a b, is_finite a = true -> F a b = G b) ->
  shape_ok sh n x = true -> shape_ok sh n y = true ->
  all_finite n x = true ->
  tmap2 F n x y = tmap G n y.
Proof.
  intros HF. revert sh x y. induction n as [|k IH]; intros sh x y Sx Sy Fx.
  - cbn in *. now apply HF.
  - destruct sh as [|d sh]; [discriminate|].
    apply shape_ok_S in Sx, Sy. destruct Sx as [Lx Ax], Sy as [Ly Ay].
    assert (L : @length (tensor k) x = @length (tensor k) y)
      by exact (eq_trans Lx (eq_sym Ly)).
    clear Lx Ly. change (zip_with (tmap2 F k) x y = map (tmap G k) y).
    revert y L Ay.
    induction Ax as [|x0 x Hx0 Ax IHx]; intros [|y0 y] L Ay;
      try discriminate; cbn [zip_with map]; [reflexivity|].
    rewrite all_finite_cons in Fx. apply andb_prop in Fx.
    destruct Fx as [F0 Fx]. f_equal.
    + apply (IH sh); auto. exact (Forall_inv Ay).
    + apply IHx; auto. exact (Forall_inv_tail Ay).
Qed.

Lemma scaled_rows_shape (g : num -> num -> num) B sh n (t : tensor (S n))
    (ws : list num) :
  shape_ok (B :: sh) (S n) t = true -> length ws = B ->
  shape_ok (B :: sh) (S n)
    (zip_with (fun x c => tmap (fun v => g v c) n x) t ws) = true.
Proof.
  intros St Lw. pose proof (proj1 (shape_ok_S _ _ _ _) St) as [Lt Ft].
  apply shape_ok_S. split.
  - rewrite zip_with_length; [exact Lt | exact (eq_trans Lt (eq_sym Lw))].
  - apply Forall_zip_with. intros x c Hx _. rewrite tmap_shape.
    rewrite Forall_forall in Ft. now apply Ft.
Qed.

(** The surrogate loss once the two estimates are known. *)
Lemma dm_loss_eq (real_unet fake_unet : Unet) (s : Scheduler)
    (latents : var 4) (pe npe : var 3) (args : Args) timestep noise
    (pf pr : var 4) B sh :
  dm_estimates real_unet fake_unet s latents pe npe args timestep noise
  = Ok (pf, pr) ->
  shape_ok (B :: sh) 4 (data latents) = true ->
  shape_ok (B :: sh) 4 (data pf) = true ->
  shape_ok (B :: sh) 4 (data pr) = true ->
  let grad : tensor 4 :=
    zip_with (fun x c => tmap (fun v => ndiv v c) 3 x)
             (tmap2 nsub 4 (data pf) (data pr))
             (sample_weights (data latents) (data pr)) in
  shape_ok (B :: sh) 4 grad = true
  /\ distribution_matching_loss real_unet fake_unet s latents pe npe args
       timestep noise
     = Ok (Var (n := 0)
             (nmean (flatten 4
                (tmap (fun v => nmul v v) 4
                   (tmap2 (fun a g => nsub a (nsub a g)) 4 (data latents) grad))))
             (graph latents ++ [])).
Proof.
  intros Hest Sl Sf Sr grad.
  assert (Sg : shape_ok (B :: sh) 4 grad = true).
  { apply (scaled_rows_shape ndiv).
    - now apply tmap2_shape.
    - apply (sample_weights_length _ _ B sh Sl Sr). }
  split; [exact Sg|].
  unfold distribution_matching_loss. rewrite Hest. cbn [Py.bind fst snd].
  rewrite (weighting_factor_eq latents pr B sh Sl Sr). cbn [Py.bind].
  rewrite (dm_grad_eq pf pr _ _ B sh Sf Sr (sample_weights_length _ _ B sh Sl Sr)).
  cbn [Py.bind]. fold grad.
  unfold vbcast2. cbn [data graph].
  rewrite (bcast2_same_shape nsub (B :: sh) 4 _ _ Sl Sg). cbn [Py.bind].
  unfold mse_loss, stopgrad, detach. cbn [data graph].
  rewrite (bcast2_same_shape nsub (B :: sh) 4 _ _ Sl
             (tmap2_shape nsub _ _ _ _ Sl Sg)).
  cbn [Py.bind]. now rewrite tmap2_tmap2_same_l.
Qed.

(** X7: the value of the surrogate loss.  With finite latents, the latents
    cancel in [mse_loss(latents, stopgrad(latents - grad))]: the loss is the
    mean of the squares of [grad = (pred_fake - pred_real) / weighting_factor],
    and [grad] has the shape of the latents. *)
Theorem dm_loss_is_mean_squared_gradient :
  forall (real_unet fake_unet : Unet) (noise_scheduler : Scheduler)
         (latents : var 4) (prompt_embeds negative_prompt_embeds : var 3)
         (args : Args) (timestep : list Z) (noise : tensor 4)
         (pred_fake pred_real : var 4) B sh,
    dm_estimates real_unet fake_unet noise_scheduler latents prompt_embeds
                 negative_prompt_embeds args timestep noise
    = Ok (pred_fake, pred_real) ->
    shape_ok (B :: sh) 4 (data latents) = true ->
    shape_ok (B :: sh) 4 (data pred_fake) = true ->
    shape_ok (B :: sh) 4 (data pred_real) = true ->
    all_finite 4 (data latents) = true ->
    exists w grad loss,
      weighting_factor latents pred_real = Ok w
      /\ dm_grad pred_fake pred_real w = Ok grad
      /\ shape_ok (B :: sh) 4 (data grad) = true
      /\ distribution_matching_loss real_unet fake_unet noise_scheduler latents
           prompt_embeds negative_prompt_embeds args timestep noise = Ok loss
      /\ data loss
         = nmean (flatten 4 (tmap (fun g => nmul g g) 4 (data grad))).
Proof.
  intros real fake s latents pe npe args ts noise pf pr B sh Hest Sl Sf Sr Fl.
  destruct (dm_loss_eq real fake s latents pe npe args ts noise pf pr B sh
              Hest Sl Sf Sr) as [Sg Hloss].
  eexists. eexists. eexists.
  split; [apply (weighting_factor_eq latents pr B sh Sl Sr)|].
  split; [apply (dm_grad_eq pf pr _ _ B sh Sf Sr
                   (sample_weights_length _ _ B sh Sl Sr))|].
  cbn [data]. split; [exact Sg|]. split; [exact Hloss|]. cbn [data].
  rewrite tmap_tmap2.
  rewrite (tmap2_absorb_l _ (fun g => nmul g g) (B :: sh) 4 _ _)
    ; [reflexivity | | exact Sl | exact Sg | exact Fl].
  intros [a|] [g|] Ha; try discriminate; cbn [nsub nmul lift2]; [|reflexivity].
  f_equal. ring.
Qed.

Lemma demo_dm_estimates :
  dm_estimates (Demo.zero_unet Teacher) (Demo.zero_unet Fake)
    Demo.thousand_steps (const (Demo.two 0 1))
    (const (Demo.embeddings 2)) (const (Demo.embeddings 2))
    (Demo.args None None) [20%Z; 979%Z] (Demo.two 1 2)
  = Ok (Var (n := 4)
          (epsilon_to_sample 3 [Finite (1 / 4); Finite (1 / 4)]
             (zeros_like 4 Demo.noisy_two) Demo.noisy_two) [],
        Var (n := 4)
          (epsilon_to_sample 3 [Finite (1 / 4); Finite (1 / 4)]
             (zeros_like 4 Demo.noisy_two) Demo.noisy_two) []).
Proof.
  apply (dm_estimates_zero (Demo.zero_unet Teacher) (Demo.zero_unet Fake)
           Demo.thousand_steps (const (Demo.two 0 1)) _ _ (Demo.args None None)
           [20%Z; 979%Z] (Demo.two 1 2) 2%nat [1; 1; 1]%nat Demo.noisy_two
           [Finite (1 / 4); Finite (1 / 4)]);
    try reflexivity; try apply demo_dm_range; try apply demo_add_noise; lia.
Qed.

Lemma dm_loss_is_mean_squared_gradient_witness :
  exists grad loss,
    shape_ok [2; 1; 1; 1]%nat 4 (data grad) = true
    /\ distribution_matching_loss (Demo.zero_unet Teacher) (Demo.zero_unet Fake)
         Demo.thousand_steps (const (Demo.two 0 1))
         (const (Demo.embeddings 2)) (const (Demo.embeddings 2))
         (Demo.args None None) [20%Z; 979%Z] (Demo.two 1 2) = Ok loss
    /\ data loss = nmean (flatten 4 (tmap (fun g => nmul g g) 4 (data grad))).
Proof.
  destruct (dm_loss_is_mean_squared_gradient
              (Demo.zero_unet Teacher) (Demo.zero_unet Fake) Demo.thousand_steps
              (const (Demo.two 0 1))
              (const (Demo.embeddings 2)) (const (Demo.embeddings 2))
              (Demo.args None None) [20%Z; 979%Z] (Demo.two 1 2)
              _ _ 2%nat [1; 1; 1]%nat demo_dm_estimates
              eq_refl eq_refl eq_refl eq_refl)
    as [w [grad [loss [_ [_ [Sg [Hloss Hdata]]]]]]].
  exists grad, loss. repeat split; assumption.
Defined.

Lemma dm_loss_graph (real_unet fake_unet : Unet) (s : Scheduler)
    (latents : var 4) (pe npe : var 3) (args : Args) timestep noise loss :
  distribution_matching_loss real_unet fake_unet s latents pe npe args
    timestep noise = Ok loss ->
  graph loss = graph latents.
Proof.
  intros H. unfold distribution_matching_loss in H.
  repeat match type of H with
         | Py.bind ?c _ = Ok _ =>
             destruct c; cbn [Py.bind] in H; [|discriminate]
         end.
  apply mse_loss_graph in H. rewrite H.
  unfold stopgrad, detach. cbn [graph]. apply app_nil_r.
Qed.

(** X8: the gradient of the surrogate loss.  Whatever the networks return,
    the graph of the loss is the graph of [latents]: the two estimates are
    computed under [torch.no_grad()] and the target is detached, so
    [backward] on this loss writes no gradient to the fake or to the
    teacher network unless [latents] itself was computed from them. *)
Theorem dm_loss_gradient_reaches_latents_only :
  forall (real_unet fake_unet : Unet) (noise_scheduler : Scheduler)
         (latents : var 4) (prompt_embeds negative_prompt_embeds : var 3)
         (args : Args) (timestep : list Z) (noise : tensor 4) (loss : var 0),
    distribution_matching_loss real_unet fake_unet noise_scheduler latents
      prompt_embeds negative_prompt_embeds args timestep noise = Ok loss ->
    graph loss = graph latents
    /\ (forall who, reaches who loss = existsb (net_eqb who) (graph latents)).
Proof.
  intros real fake s latents pe npe args ts noise loss H.
  apply dm_loss_graph in H. unfold reaches. rewrite H. split; reflexivity.
Qed.

Lemma dm_loss_gradient_reaches_latents_only_witness :
  exists loss,
    distribution_matching_loss (Demo.zero_unet Teacher) (Demo.zero_unet Fake)
      Demo.thousand_steps (Var (n := 4) (Demo.two 0 1) [Student])
      (const (Demo.embeddings 2)) (const (Demo.embeddings 2))
      (Demo.args None None) [20%Z; 979%Z] (Demo.two 1 2) = Ok loss
    /\ graph loss = [Student].
Proof.
  destruct (dm_loss_eq (Demo.zero_unet Teacher) (Demo.zero_unet Fake)
              Demo.thousand_steps (Var (n := 4) (Demo.two 0 1) [Student])
              (const (Demo.embeddings 2)) (const (Demo.embeddings 2))
              (Demo.args None None) [20%Z; 979%Z] (Demo.two 1 2)
              _ _ 2%nat [1; 1; 1]%nat demo_dm_estimates
              eq_refl eq_refl eq_refl) as [_ Hloss].
  eexists. split; [exact Hloss|].
  exact (proj1 (dm_loss_gradient_reaches_latents_only _ _ _ _ _ _ _ _ _ _ Hloss)).
Defined.

Lemma flatten_tmap_Forall (Q : num -> Prop) f n (t : tensor n) :
  (forall v, is_finite v = true -> Q (f v)) ->
  all_finite n t = true ->
  Forall Q (flatten n (tmap f n t)).
Proof.
  intros Hf. induction n as [|k IH]; intros Ft.
  - cbn. constructor; [now apply Hf | constructor].
  - cbn [all_finite tmap flatten] in *.
    induction t as [|t0 t IHt]; cbn [map flat_map]; [constructor|].
    cbn [forallb] in Ft. apply andb_true_iff in Ft. destruct Ft as [Ft0 Ft].
    apply Forall_app. split; [now apply IH | now apply IHt].
Qed.

Lemma Forall_Exists_nonempty {A} (Q : A -> Prop) (l : list A) :
  Forall Q l -> l <> [] -> Exists Q l.
Proof.
  intros H Hne. destruct H as [|x l Hx _]; [contradiction|].
  now apply Exists_cons_hd.
Qed.

Lemma nonempty_of_size sh n (t : tensor n) :
  shape_ok sh n t = true -> fold_right Nat.mul 1%nat sh <> 0%nat ->
  flatten n t <> [].
Proof.
  intros St Hsize Hnil. apply (f_equal (@length num)) in Hnil.
  rewrite (flatten_length sh n t St) in Hnil. cbn [length] in Hnil. contradiction.
Qed.

Lemma nth_error_flatten_Exists (Q : num -> Prop) n (t : tensor (S n)) b
    (r : tensor n) :
  nth_error (A := tensor n) t b = Some r ->
  Exists Q (flatten n r) -> Exists Q (flatten (S n) t).
Proof.
  intros Hb Hr. apply Exists_exists in Hr. destruct Hr as [v [Hv Qv]].
  apply Exists_exists. exists v. split; [|exact Qv].
  change (In v (flat_map (flatten n) t)). apply in_flat_map.
  exists r. split; [eapply nth_error_In; exact Hb | exact Hv].
Qed.

(** The weight of a sample whose latents equal the real estimate. *)
Lemma zero_weight_row sh n (x : tensor n) :
  shape_ok sh n x = true -> all_finite n x = true ->
  fold_right Nat.mul 1%nat sh <> 0%nat ->
  nmean (flatten n (tmap nabs n (tmap2 nsub n x x))) = Finite 0.
Proof.
  intros Sx Fx Hsize. rewrite tmap2_diag, tmap_tmap.
  apply nmean_zeros.
  - apply flatten_tmap_Forall; [|exact Fx].
    intros [a|] Ha; [|discriminate]. cbn. f_equal.
    replace (a - a)%R with 0%R by ring. apply Rabs_R0.
  - apply (nonempty_of_size sh); [|exact Hsize]. now rewrite tmap_shape.
Qed.

Lemma ndiv_zero v : ndiv v (Finite 0) = NonFinite.
Proof.
  destruct v as [a|]; [|reflexivity]. cbn.
  destruct (Req_dec_T 0 0) as [_|H]; [reflexivity | now contradiction H].
Qed.

(** The squared error of a sample whose weight is zero. *)
Lemma zero_weight_error sh n (x d : tensor n) :
  shape_ok sh n x = true -> shape_ok sh n d = true ->
  all_finite n x = true ->
  fold_right Nat.mul 1%nat sh <> 0%nat ->
  Exists (fun v => v = NonFinite)
    (flatten n
       (tmap (fun v => nmul v v) n
          (tmap2 (fun a g => nsub a (nsub a g)) n x
             (tmap (fun v => ndiv v (Finite 0)) n d)))).
Proof.
  intros Sx Sd Fx Hsize.
  apply Forall_Exists_nonempty.
  - rewrite tmap2_tmap_r, tmap_tmap2.
    apply flatten_tmap2_Forall; [|exact Fx].
    intros [a|] b Ha; [|discriminate]. now rewrite ndiv_zero.
  - apply (nonempty_of_size sh); [|exact Hsize].
    rewrite tmap_shape. apply tmap2_shape; [exact Sx|]. now rewrite tmap_shape.
Qed.

Lemma nth_error_in_shape B sh n (t : tensor (S n)) b :
  shape_ok (B :: sh) (S n) t = true -> (b < B)%nat ->
  exists r, nth_error (A := tensor n) t b = Some r /\ shape_ok sh n r = true.
Proof.
  intros St Hb. apply shape_ok_S in St. destruct St as [Lt Ft].
  destruct (nth_error (A := tensor n) t b) as [r|] eqn:Hr.
  - exists r. split; [reflexivity|].
    rewrite Forall_forall in Ft. apply Ft. eapply nth_error_In. exact Hr.
  - apply nth_error_None in Hr. lia.
Qed.

(** X9: no floor under the weighting factor.  When the latents of one
    sample are finite and equal to the real estimate of that sample, the
    weighting factor of the sample is 0, the division of line 84 gives
    non-finite values, and the loss of the whole batch is not finite. *)
Theorem dm_loss_zero_weight_is_not_finite :
  forall (real_unet fake_unet : Unet) (noise_scheduler : Scheduler)
         (latents : var 4) (prompt_embeds negative_prompt_embeds : var 3)
         (args : Args) (timestep : list Z) (noise : tensor 4)
         (pred_fake pred_real : var 4) B sh b (x : tensor 3),
    dm_estimates real_unet fake_unet noise_scheduler latents prompt_embeds
                 negative_prompt_embeds args timestep noise
    = Ok (pred_fake, pred_real) ->
    shape_ok (B :: sh) 4 (data latents) = true ->
    shape_ok (B :: sh) 4 (data pred_fake) = true ->
    shape_ok (B :: sh) 4 (data pred_real) = true ->
    fold_right Nat.mul 1%nat sh <> 0%nat ->
    nth_error (A := tensor 3) (data latents) b = Some x ->
    nth_error (A := tensor 3) (data pred_real) b = Some x ->
    all_finite 3 x = true ->
    exists w loss,
      weighting_factor latents pred_real = Ok w
      /\ nth_error (A := tensor 3) (data w) b = Some (unsqueeze_last 3 (Finite 0))
      /\ distribution_matching_loss real_unet fake_unet noise_scheduler latents
           prompt_embeds negative_prompt_embeds args timestep noise = Ok loss
      /\ data loss = NonFinite.
Proof.
  intros real fake s latents pe npe args ts noise pf pr B sh b x
         Hest Sl Sf Sr Hsize Hl Hr Fx.
  destruct (dm_loss_eq real fake s latents pe npe args ts noise pf pr B sh
              Hest Sl Sf Sr) as [Sg Hloss].
  assert (Hb : (b < B)%nat).
  { pose proof (proj1 (shape_ok_S _ _ _ _) Sl) as [Ll _].
    rewrite <- Ll. apply nth_error_Some. rewrite Hl. discriminate. }
  destruct (nth_error_in_shape B sh 3 (data pf) b Sf Hb) as [f [Hf Sfb]].
  pose proof (shape_ok_row B sh (data latents) b x Sl Hl) as Sx.
  assert (Hw : nth_error (sample_weights (data latents) (data pr)) b
               = Some (Finite 0)).
  { unfold sample_weights. rewrite nth_error_zip_with, Hl, Hr.
    now rewrite (zero_weight_row sh 3 x Sx Fx Hsize). }
  eexists. eexists.
  split; [apply (weighting_factor_eq latents pr B sh Sl Sr)|].
  cbn [data]. split; [now rewrite nth_error_map, Hw|].
  split; [exact Hloss|]. cbn [data].
  apply nmean_NonFinite.
  apply (nth_error_flatten_Exists _ 3 _ b
           (tmap (fun v => nmul v v) 3
              (tmap2 (fun a g => nsub a (nsub a g)) 3 x
                 (tmap (fun v => ndiv v (Finite 0)) 3 (tmap2 nsub 3 f x))))).
  - change (tmap (fun v => nmul v v) 4 ?t)
      with (map (tmap (fun v => nmul v v) 3) t).
    rewrite nth_error_map.
    change (tmap2 (fun a g => nsub a (nsub a g)) 4 ?u ?v)
      with (zip_with (tmap2 (fun a g => nsub a (nsub a g)) 3) u v).
    rewrite nth_error_zip_with, Hl, nth_error_zip_with, Hw.
    change (tmap2 nsub 4 (data pf) (data pr))
      with (zip_with (tmap2 nsub 3) (data pf) (data pr)).
    now rewrite nth_error_zip_with, Hf, Hr.
  - apply (zero_weight_error sh); auto. now apply tmap2_shape.
Qed.

(** With zero networks and no noise added, the real estimate is the
    latents. *)
Lemma demo_dm_estimates_no_noise :
  dm_estimates (Demo.zero_unet Teacher) (Demo.zero_unet Fake)
    Demo.thousand_steps (const (Demo.two 0 1))
    (const (Demo.embeddings 2)) (const (Demo.embeddings 2))
    (Demo.args None None) [20%Z; 979%Z] (Demo.two 0 0)
  = Ok (Var (n := 4) (Demo.two 0 1) [], Var (n := 4) (Demo.two 0 1) []).
Proof.
  pose (s1 := sqrt (1 / 4)). pose (s2 := sqrt (1 - 1 / 4)).
  assert (Hs1 : (0 < s1)%R) by (apply sqrt_lt_R0; lra).
  pose (noisy_latents := Demo.two (s1 * 0 + s2 * 0) (s1 * 1 + s2 * 0)).
  assert (Hadd : add_noise Demo.thousand_steps (Demo.two 0 1) (Demo.two 0 0)
                           [20%Z; 979%Z] = Ok noisy_latents).
  { unfold Demo.thousand_steps, Demo.scheduler. cbn [add_noise].
    unfold sample_to_epsilon_target.
    change (index_select (repeat (Finite (1 / 4)) 1000) [20%Z; 979%Z])
      with (index_select (alphas_cumprod Demo.thousand_steps) [20%Z; 979%Z]).
    rewrite demo_index.
    cbn [Py.bind zip3_with tmap2 zip_with Demo.two]. unfold noisy.
    cbn [nsub lift2]. rewrite !npow_half_valid by lra. reflexivity. }
  rewrite (dm_estimates_zero (Demo.zero_unet Teacher) (Demo.zero_unet Fake)
             Demo.thousand_steps (const (Demo.two 0 1)) _ _ (Demo.args None None)
             [20%Z; 979%Z] (Demo.two 0 0) 2%nat [1; 1; 1]%nat noisy_latents
             [Finite (1 / 4); Finite (1 / 4)]);
    try reflexivity; try apply demo_dm_range; try exact Hadd; try lia.
  assert (Hp : epsilon_to_sample 3 [Finite (1 / 4); Finite (1 / 4)]
                 (zeros_like 4 noisy_latents) noisy_latents
               = Demo.two 0 1).
  { unfold epsilon_to_sample, noisy_latents, Demo.two, zeros_like.
    cbn [zip3_with tmap tmap2 zip_with map].
    rewrite !pred_clean_finite by lra. fold s1 s2.
    repeat f_equal; field; lra. }
  now rewrite Hp.
Qed.

Lemma dm_loss_zero_weight_is_not_finite_witness :
  exists loss,
    distribution_matching_loss (Demo.zero_unet Teacher) (Demo.zero_unet Fake)
      Demo.thousand_steps (const (Demo.two 0 1))
      (const (Demo.embeddings 2)) (const (Demo.embeddings 2))
      (Demo.args None None) [20%Z; 979%Z] (Demo.two 0 0) = Ok loss
    /\ data loss = NonFinite.
Proof.
  destruct (dm_loss_zero_weight_is_not_finite
              (Demo.zero_unet Teacher) (Demo.zero_unet Fake) Demo.thousand_steps
              (const (Demo.two 0 1))
              (const (Demo.embeddings 2)) (const (Demo.embeddings 2))
              (Demo.args None None) [20%Z; 979%Z] (Demo.two 0 0)
              _ _ 2%nat [1; 1; 1]%nat 0%nat [[[Finite 0]]]
              demo_dm_estimates_no_noise eq_refl eq_refl eq_refl)
    as [w [loss [_ [_ [Hloss Hdata]]]]];
    try reflexivity; try (simpl; lia).
  exists loss. split; assumption.
Defined.

Lemma Int_part_le x y : (x <= y)%R -> (Int_part x <= Int_part y)%Z.
Proof.
  intros H.
  destruct (base_Int_part x) as [Hx1 Hx2], (base_Int_part y) as [Hy1 Hy2].
  assert (Hlt : (IZR (Int_part x) < IZR (Int_part y + 1))%R)
    by (rewrite plus_IZR; lra).
  apply lt_IZR in Hlt. lia.
Qed.

Lemma Int_part_nonneg x : (0 <= x)%R -> (0 <= Int_part x)%Z.
Proof.
  intros H. destruct (base_Int_part x) as [Hx1 Hx2].
  assert (Hlt : (IZR (-1) < IZR (Int_part x))%R) by lra.
  apply lt_IZR in Hlt. lia.
Qed.

(** [int] on floats is monotone. *)
Lemma py_int_le x y : (x <= y)%R -> (py_int x <= py_int y)%Z.
Proof.
  intros H. unfold py_int.
  destruct (Rlt_dec x 0) as [Hx|Hx], (Rlt_dec y 0) as [Hy|Hy].
  - assert (Hn : (Int_part (- y) <= Int_part (- x))%Z) by (apply Int_part_le; lra).
    lia.
  - assert (H1 : (0 <= Int_part (- x))%Z) by (apply Int_part_nonneg; lra).
    assert (H2 : (0 <= Int_part y)%Z) by (apply Int_part_nonneg; lra).
    lia.
  - lra.
  - apply Int_part_le. exact H.
Qed.

(** X10: the range of the random timestep.  With a non-negative number of
    training timesteps and [max_dm_step_ratio <= min_dm_step_ratio], the two
    bounds passed to [torch.randint] are in the wrong order and
    [distribution_matching_loss] raises before any network is evaluated. *)
Theorem dm_loss_empty_timestep_range :
  forall (real_unet fake_unet : Unet) (noise_scheduler : Scheduler)
         (latents : var 4) (prompt_embeds negative_prompt_embeds : var 3)
         (args : Args) (timestep : list Z) (noise : tensor 4),
    (0 <= num_train_timesteps noise_scheduler)%Z ->
    (max_dm_step_ratio args <= min_dm_step_ratio args)%R ->
    exists msg,
      distribution_matching_loss real_unet fake_unet noise_scheduler latents
        prompt_embeds negative_prompt_embeds args timestep noise
      = Raise (RuntimeError msg).
Proof.
  intros real fake s latents pe npe args ts noise HT Hr. eexists.
  assert (Hle : (py_int (IZR (num_train_timesteps s) * max_dm_step_ratio args)
                 <= py_int (IZR (num_train_timesteps s) * min_dm_step_ratio args))%Z).
  { apply py_int_le. apply Rmult_le_compat_l; [|exact Hr]. now apply IZR_le. }
  unfold distribution_matching_loss, dm_estimates, randint_check.
  destruct (Z.ltb_spec
              (py_int (IZR (num_train_timesteps s) * min_dm_step_ratio args))
              (py_int (IZR (num_train_timesteps s) * max_dm_step_ratio args)));
    [lia | reflexivity].
Qed.

Lemma dm_loss_empty_timestep_range_witness :
  exists msg,
    distribution_matching_loss (Demo.zero_unet Teacher) (Demo.zero_unet Fake)
      Demo.thousand_steps (const (Demo.two 0 1))
      (const (Demo.embeddings 2)) (const (Demo.embeddings 2))
      (Demo.args_with_ratios (1 / 2) (1 / 2)) [500%Z; 500%Z] (Demo.two 1 2)
    = Raise (RuntimeError msg).
Proof.
  apply (dm_loss_empty_timestep_range
           (Demo.zero_unet Teacher) (Demo.zero_unet Fake) Demo.thousand_steps
           (const (Demo.two 0 1))
           (const (Demo.embeddings 2)) (const (Demo.embeddings 2))
           (Demo.args_with_ratios (1 / 2) (1 / 2)) [500%Z; 500%Z] (Demo.two 1 2)).
  - simpl. lia.
  - simpl. lra.
Defined.

(** ** The student pass *)

Lemma vbcast2_graph f n (x y z : var n) :
  vbcast2 f x y = Ok z -> graph z = (graph x ++ graph y)%list.
Proof.
  unfold vbcast2. destruct (bcast2 f n (data x) (data y)); cbn [Py.bind];
    intros H; inversion H; reflexivity.
Qed.

Lemma eps_to_mu_graph s n (model_output sample : var (S n)) t y :
  eps_to_mu s model_output sample t = Ok y ->
  forall m, In m (graph y) -> In m (graph sample) \/ In m (graph model_output).
Proof.
  unfold eps_to_mu. intros H.
  destruct (index_select (alphas_cumprod s) t); cbn [Py.bind] in H; [|discriminate].
  match type of H with
  | Py.bind ?c _ = Ok _ => destruct c as [scaled|] eqn:H1; cbn [Py.bind] in H; [|discriminate]
  end.
  match type of H with
  | Py.bind ?c _ = Ok _ => destruct c as [diff|] eqn:H2; cbn [Py.bind] in H; [|discriminate]
  end.
  apply vbcast2_graph in H1, H2, H. cbn [vmap const graph] in *.
  intros m Hm. rewrite H, H2, H1 in Hm. rewrite !in_app_iff in Hm.
  cbn [In app] in Hm. tauto.
Qed.

Lemma generate_graph unet s (latents : var 4) (pe : var 3) y :
  generate unet s latents pe = Ok y ->
  forall m, In m (graph y) ->
            m = owner unet \/ In m (graph latents) \/ In m (graph pe).
Proof.
  unfold generate. cbv zeta. intros H.
  match type of H with
  | Py.bind ?c _ = Ok _ => destruct c as [np|] eqn:H1; cbn [Py.bind] in H; [|discriminate]
  end.
  apply call_unet_graph in H1. intros m Hm.
  destruct (eps_to_mu_graph _ _ _ _ _ _ H m Hm) as [Hl|Hn]; [tauto|].
  rewrite H1 in Hn. rewrite !in_app_iff in Hn.
  destruct (requires_grad unet); cbn [In] in Hn; intuition auto.
Qed.

Lemma perceptual_loss_graph E images_ref (latents_ref_pred : var 4) l :
  perceptual_loss E images_ref latents_ref_pred = Ok l ->
  graph l = graph latents_ref_pred.
Proof.
  unfold perceptual_loss. intros H.
  repeat match type of H with
         | Py.bind ?c _ = Ok _ =>
             destruct c; cbn [Py.bind] in H; [|discriminate]
         end.
  inversion H. reflexivity.
Qed.

Lemma not_reached who (g : list net) :
  (forall m, In m g -> m <> who) -> existsb (net_eqb who) g = false.
Proof.
  intros H. induction g as [|m g IH]; [reflexivity|].
  cbn [existsb]. rewrite IH by (intros m' Hm'; apply H; now right).
  assert (Hm : m <> who) by (apply H; now left).
  destruct who, m; try reflexivity; now contradiction Hm.
Qed.

(** What the student pass leaves alone. *)
Lemma train_student_frame E args acc s b (st : State E) :
  let st' := snd (train_student E args acc s b st) in
  teacher_w st' = teacher_w st
  /\ fake_w st' = fake_w st
  /\ fake_grad st' = fake_grad st
  /\ fake_optimizer st' = fake_optimizer st
  /\ global_step st' = global_step st
  /\ files st' = files st.
Proof.
  unfold train_student. rewrite run_bind_get.
  run_lift; [|now cbn].
  run_lift; [|now cbn].
  run_lift; [|now cbn].
  run_lift; [|now cbn].
  pose proof (generate_graph _ _ _ _ _ Hrun) as G1.
  pose proof (generate_graph _ _ _ _ _ Hrun0) as G2.
  pose proof (dm_loss_graph _ _ _ _ _ _ _ _ _ _ Hrun1) as G3.
  pose proof (perceptual_loss_graph _ _ _ _ Hrun2) as G4.
  cbn [student_unet owner prepare_latents encode_prompt const graph In] in G1, G2.
  cbn [cat graph] in G3.
  assert (Hfake : reaches Fake (generator_loss args a1 a2) = false).
  { unfold reaches, generator_loss. cbn [graph]. apply not_reached.
    intros m Hm. rewrite G3, G4 in Hm. rewrite !in_app_iff in Hm.
    assert (Hs : m = Student).
    { destruct Hm as [[Hm|Hm]|Hm];
        [apply G1 in Hm | apply G2 in Hm | apply G2 in Hm]; tauto. }
    rewrite Hs. discriminate. }
  unfold mbind, backward. rewrite Hfake.
  destruct (graph (generator_loss args a1 a2)); [now cbn|].
  destruct (sync_gradients acc); now cbn.
Qed.

(** X11: the student pass never touches the fake network or the teacher.
    Whatever the batch and whatever the outcome, the parameters, the
    gradient buffer and the optimizer of the fake network, and the
    parameters of the teacher, are after lines 362 to 386 what they were
    before: the gradient of the generator loss reaches the student only. *)
Theorem student_step_never_changes_fake_or_teacher :
  forall (E : Externals) (args : Args) (acc : Accelerator)
         (noise_scheduler : Scheduler) (b : Batch) (st : State E),
    let st' := snd (train_student E args acc noise_scheduler b st) in
    teacher_w st' = teacher_w st
    /\ fake_w st' = fake_w st
    /\ fake_grad st' = fake_grad st
    /\ fake_optimizer st' = fake_optimizer st
    /\ (forall r st1,
           train_student E args acc noise_scheduler b st = (Ok r, st1) ->
           reaches Student (snd r) = true
           /\ reaches Fake (snd r) = false
           /\ reaches Teacher (snd r) = false).
Proof.
  intros E args acc s b st st'.
  destruct (train_student_frame E args acc s b st) as (H1 & H2 & H3 & H4 & _).
  repeat (split; [assumption|]).
  clear. intros r st1. unfold train_student. rewrite run_bind_get.
  run_lift; [|discriminate].
  run_lift; [|discriminate].
  run_lift; [|discriminate].
  run_lift; [|discriminate].
  pose proof (generate_graph _ _ _ _ _ Hrun) as G1.
  pose proof (generate_graph _ _ _ _ _ Hrun0) as G2.
  pose proof (dm_loss_graph _ _ _ _ _ _ _ _ _ _ Hrun1) as G3.
  pose proof (perceptual_loss_graph _ _ _ _ Hrun2) as G4.
  cbn [student_unet owner prepare_latents encode_prompt const graph In] in G1, G2.
  cbn [cat graph] in G3.
  assert (Hall : forall m, In m (graph (generator_loss args a1 a2)) -> m = Student).
  { unfold generator_loss. cbn [graph]. intros m Hm.
    rewrite G3, G4 in Hm. rewrite !in_app_iff in Hm.
    destruct Hm as [[Hm|Hm]|Hm];
      [apply G1 in Hm | apply G2 in Hm | apply G2 in Hm]; tauto. }
  unfold mbind, backward.
  destruct (graph (generator_loss args a1 a2)) as [|m g] eqn:Hg; [discriminate|].
  intros Hrun3.
  assert (Hr : snd r = generator_loss args a1 a2).
  { destruct (sync_gradients acc); cbn in Hrun3; inversion Hrun3; reflexivity. }
  rewrite Hr. unfold reaches. rewrite Hg.
  split; [|split].
  - cbn [existsb]. rewrite (Hall m) by now left. reflexivity.
  - apply not_reached. intros m' Hm'. rewrite (Hall m' Hm'). discriminate.
  - apply not_reached. intros m' Hm'. rewrite (Hall m' Hm'). discriminate.
Qed.

(** ** The loop: what it never changes, and the order of the updates *)

Lemma same_networks_refl E (st : State E) : same_networks st st.
Proof. repeat split. Qed.

Lemma save_checkpoint_networks E args (st : State E) :
  same_networks st (snd (save_checkpoint E args st)).
Proof.
  unfold save_checkpoint. rewrite run_bind_get.
  destruct (checkpoints_total_limit args) as [limit|].
  - unfold mbind at 1. rewrite run_bind_lift.
    destruct (removing_checkpoints limit (files st)); repeat split.
  - repeat split.
Qed.

Lemma checkpoint_block_networks E args acc (st : State E) :
  same_networks st (snd (checkpoint_block E args acc st)).
Proof.
  unfold checkpoint_block.
  destruct (sync_gradients acc); [|repeat split].
  unfold mbind at 1. cbn [increment_global_step mbind get set_global_step].
  destruct (is_main_process acc); [|repeat split].
  rewrite run_bind_get. run_lift; [|repeat split].
  destruct (a =? 0)%Z; [|repeat split].
  apply (save_checkpoint_networks E args
           {| teacher_w := teacher_w st; fake_w := fake_w st;
              student_w := student_w st; fake_grad := fake_grad st;
              student_grad := student_grad st;
              fake_optimizer := fake_optimizer st;
              student_optimizer := student_optimizer st;
              global_step := (global_step st + 1)%Z;
              loss_local := loss_local st;
              files := files st; trace := trace st |}).
Qed.

Lemma emit_logs_networks E loss_d (st : State E) :
  same_networks st (snd (emit_logs E loss_d st)).
Proof.
  unfold emit_logs. rewrite run_bind_get.
  destruct (loss_local st) as [loss|]; [|repeat split].
  run_lift; repeat split.
Qed.

Lemma train_fake_teacher E args acc s lpc pe b (st : State E) :
  teacher_w (snd (train_fake E args acc s lpc pe b st)) = teacher_w st.
Proof.
  unfold train_fake. rewrite run_bind_get.
  run_randint; [|reflexivity].
  run_lift; [|reflexivity].
  run_lift; [|reflexivity].
  run_lift; [|reflexivity].
  run_lift; [|reflexivity].
  unfold mbind, assign_loss, backward. cbn [fst snd].
  destruct (graph (fst a2)); [reflexivity|].
  destruct (sync_gradients acc); reflexivity.
Qed.

(** The gradient buffer of the network a pass trains, after the pass. *)
Lemma train_student_grad E args acc s b (st : State E) :
  student_grad st = None ->
  student_grad (snd (train_student E args acc s b st)) = None.
Proof.
  intros Hg. unfold train_student. rewrite run_bind_get.
  run_lift; [|exact Hg].
  run_lift; [|exact Hg].
  run_lift; [|exact Hg].
  run_lift; [|exact Hg].
  unfold mbind, backward.
  destruct (graph (generator_loss args a1 a2)); [exact Hg|].
  destruct (sync_gradients acc); reflexivity.
Qed.

Lemma train_fake_grad E args acc s lpc pe b (st : State E) :
  fake_grad st = None ->
  fake_grad (snd (train_fake E args acc s lpc pe b st)) = None.
Proof.
  intros Hg. unfold train_fake. rewrite run_bind_get.
  run_randint; [|exact Hg].
  run_lift; [|exact Hg].
  run_lift; [|exact Hg].
  run_lift; [|exact Hg].
  run_lift; [|exact Hg].
  unfold mbind, assign_loss, backward. cbn [fst snd].
  destruct (graph (fst a2)); [exact Hg|].
  destruct (sync_gradients acc); reflexivity.
Qed.

(** One pass: the teacher, and the two gradient buffers. *)
Lemma train_iteration_invariant E args acc s b (st : State E) :
  let st' := snd (train_iteration E args acc s b st) in
  teacher_w st' = teacher_w st
  /\ (fake_grad st = None -> student_grad st = None ->
      fake_grad st' = None /\ student_grad st' = None).
Proof.
  cbv zeta.
  remember (snd (train_iteration E args acc s b st)) as st' eqn:Hst'.
  unfold train_iteration in Hst'. unfold mbind at 1 in Hst'.
  pose proof (train_student_frame E args acc s b st) as (T1 & _ & F1 & _).
  pose proof (train_student_grad E args acc s b st) as S1.
  destruct (train_student E args acc s b st) as [[r|e] st1]; cbn [snd] in *.
  2:{ subst st'. split; [exact T1|]. intros Hf Hs. split; [congruence | auto]. }
  unfold mbind at 1 in Hst'.
  pose proof (train_fake_teacher E args acc s (fst (fst r)) (snd (fst r)) b st1) as T2.
  pose proof (train_fake_grad E args acc s (fst (fst r)) (snd (fst r)) b st1) as F2.
  pose proof (train_fake_frame E args acc s (fst (fst r)) (snd (fst r)) b st1)
    as (_ & S2 & _).
  destruct (train_fake E args acc s (fst (fst r)) (snd (fst r)) b st1)
    as [[loss_d|e] st2]; cbn [snd] in *.
  2:{ subst st'. split; [congruence|]. intros Hf Hs. split.
      - apply F2. congruence.
      - rewrite S2. auto. }
  unfold mbind at 1 in Hst'.
  pose proof (checkpoint_block_networks E args acc st2)
    as (T3 & _ & _ & F3 & S3 & _).
  destruct (checkpoint_block E args acc st2) as [[[]|e] st3]; cbn [snd] in *.
  2:{ subst st'. split; [congruence|]. intros Hf Hs. split.
      - rewrite F3. apply F2. congruence.
      - rewrite S3, S2. auto. }
  unfold mbind at 1 in Hst'.
  pose proof (emit_logs_networks E loss_d st3) as (T4 & _ & _ & F4 & S4 & _).
  assert (Hst4 : st' = snd (emit_logs E loss_d st3)).
  { rewrite Hst'. destruct (emit_logs E loss_d st3) as [[[]|e] st4]; reflexivity. }
  rewrite Hst4. split; [congruence|]. intros Hf Hs. split.
  - rewrite F4, F3. apply F2. congruence.
  - rewrite S4, S3, S2. auto.
Qed.

Lemma train_loop_invariant E args acc s batches remaining :
  forall step (st : State E),
    let st' := snd (train_loop E args acc s batches step remaining st) in
    teacher_w st' = teacher_w st
    /\ (fake_grad st = None -> student_grad st = None ->
        fake_grad st' = None /\ student_grad st' = None).
Proof.
  induction remaining as [|remaining IH]; intros step st.
  - cbn. auto.
  - cbv zeta.
    remember (snd (train_loop E args acc s batches step (S remaining) st))
      as st' eqn:Hst'.
    cbn [train_loop] in Hst'. unfold mbind at 1 in Hst'.
    pose proof (train_iteration_invariant E args acc s (batches step) st)
      as [T1 G1].
    destruct (train_iteration E args acc s (batches step) st)
      as [[stop|e] st1]; cbn [snd] in *; [|subst st'; split; assumption].
    destruct stop; [subst st'; cbn; split; assumption|].
    destruct (IH (S step) st1) as [T2 G2]. rewrite <- Hst' in T2, G2.
    split; [congruence|]. intros Hf Hs.
    destruct (G1 Hf Hs) as [Hf1 Hs1]. now apply G2.
Qed.

(** X12: the teacher is frozen.  However many passes the loop makes and
    however it ends, the parameters of [real_unet] are after the loop what
    they were before it; resuming from a checkpoint does not load them
    either. *)
Theorem training_never_changes_teacher :
  forall (E : Externals) (args : Args) (acc : Accelerator)
         (noise_scheduler : Scheduler) (batches : nat -> Batch)
         (step remaining : nat) (st : State E),
    teacher_w (snd (train_loop E args acc noise_scheduler batches step remaining st))
    = teacher_w st
    /\ teacher_w (snd (resume E args st)) = teacher_w st.
Proof.
  intros E args acc s batches step remaining st. split.
  - apply (train_loop_invariant E args acc s batches remaining step st).
  - unfold resume.
    destruct (resume_from_checkpoint args) as [[|c name]|]; try reflexivity.
    rewrite run_bind_get. run_lift; [|reflexivity].
    destruct a as [path|]; [|reflexivity].
    unfold mbind, put. cbn [fst snd].
    destruct (lift (checkpoint_key path) _) as [[k|e] st2] eqn:Hk;
      unfold lift in Hk; inversion Hk; subst; reflexivity.
Qed.

(** X13: no gradient is carried from one pass to the next.  When the two
    gradient buffers are empty before the loop, they are empty after it,
    however many passes it made and whether it returned or raised: every
    optimizer step uses the gradient of the loss of its own pass only. *)
Theorem training_leaves_no_stale_gradient :
  forall (E : Externals) (args : Args) (acc : Accelerator)
         (noise_scheduler : Scheduler) (batches : nat -> Batch)
         (step remaining : nat) (st : State E),
    fake_grad st = None ->
    student_grad st = None ->
    let st' := snd (train_loop E args acc noise_scheduler batches step remaining st) in
    fake_grad st' = None /\ student_grad st' = None.
Proof.
  intros E args acc s batches step remaining st Hf Hs.
  destruct (train_loop_invariant E args acc s batches remaining step st) as [_ H].
  now apply H.
Qed.

Lemma steps_app who evs1 evs2 :
  steps who (evs1 ++ evs2) = (steps who evs1 + steps who evs2)%nat.
Proof. unfold steps. now rewrite filter_app, length_app. Qed.

Lemma steps_quiet who evs : Forall quiet evs -> steps who evs = 0%nat.
Proof.
  unfold steps. induction 1 as [|ev evs Hq _ IH]; [reflexivity|].
  destruct ev; cbn [filter]; try exact IH. contradiction.
Qed.

(** One pass: a pass that returns made one update of each network, the
    student first; a pass that raises made at most one of each, and none of
    the fake network without one of the student. *)
Lemma train_iteration_outcome E args acc s b (st : State E) :
  exists evs,
    trace (snd (train_iteration E args acc s b st)) = (trace st ++ evs)%list
    /\ match fst (train_iteration E args acc s b st) with
       | Ok _ => steps Student evs = 1%nat /\ steps Fake evs = 1%nat
       | Raise _ => (steps Fake evs <= steps Student evs <= 1)%nat
       end.
Proof.
  remember (train_iteration E args acc s b st) as res eqn:Hres.
  unfold train_iteration in Hres. unfold mbind at 1 in Hres.
  pose proof (train_student_trace E args acc s b st) as T1.
  destruct (train_student E args acc s b st) as [[r|e] st1].
  2:{ subst res. exists []. cbn. rewrite app_nil_r. split; [exact T1 | lia]. }
  unfold mbind at 1 in Hres.
  pose proof (train_fake_trace E args acc s (fst (fst r)) (snd (fst r)) b st1) as T2.
  destruct (train_fake E args acc s (fst (fst r)) (snd (fst r)) b st1)
    as [[loss_d|e] st2].
  2:{ subst res. exists [OptimizerStep Student]. cbn. rewrite T2, T1.
      split; [reflexivity | lia]. }
  unfold mbind at 1 in Hres.
  destruct (checkpoint_block_trace E args acc st2) as [ev3 [T3 Q3]].
  apply (Forall_impl quiet file_event_quiet) in Q3.
  destruct (checkpoint_block E args acc st2) as [[[]|e] st3]; cbn [snd] in T3.
  - unfold mbind at 1 in Hres.
    destruct (emit_logs_trace E loss_d st3) as [ev4 [T4 Q4]].
    exists ([OptimizerStep Student; OptimizerStep Fake] ++ (ev3 ++ ev4))%list.
    destruct (emit_logs E loss_d st3) as [[[]|e] st4]; cbn [snd] in T4.
    + rewrite run_bind_get in Hres. subst res. cbn [ret fst snd].
      rewrite !steps_app, !(steps_quiet _ _ Q3), !(steps_quiet _ _ Q4).
      split; [|split; reflexivity].
      rewrite T4, T3, T2, T1. now rewrite <- !app_assoc.
    + subst res. cbn [fst snd].
      rewrite !steps_app, !(steps_quiet _ _ Q3), !(steps_quiet _ _ Q4).
      split; [|cbn; lia].
      rewrite T4, T3, T2, T1. now rewrite <- !app_assoc.
  - subst res. cbn [fst snd].
    exists ([OptimizerStep Student; OptimizerStep Fake] ++ ev3)%list.
    split.
    + rewrite T3, T2, T1. now rewrite <- !app_assoc.
    + rewrite !steps_app, !(steps_quiet _ _ Q3). cbn. lia.
Qed.

(** X14: the two networks are updated in turn, the student first.  Over
    the whole loop the number of updates of the fake network is the number
    of updates of the student, or one less when the loop raised in between;
    the student is updated at most once for each pass, and exactly as often
    as the fake network when the loop returns. *)
Theorem training_alternates_student_then_fake :
  forall (E : Externals) (args : Args) (acc : Accelerator)
         (noise_scheduler : Scheduler) (batches : nat -> Batch)
         (remaining step : nat) (st : State E),
    exists evs,
      trace (snd (train_loop E args acc noise_scheduler batches step remaining st))
      = (trace st ++ evs)%list
      /\ (steps Fake evs <= steps Student evs <= steps Fake evs + 1)%nat
      /\ (steps Student evs <= remaining)%nat
      /\ (fst (train_loop E args acc noise_scheduler batches step remaining st)
          = Ok tt ->
          steps Fake evs = steps Student evs).
Proof.
  intros E args acc s batches remaining.
  induction remaining as [|remaining IH]; intros step st.
  - exists []. cbn. rewrite app_nil_r. repeat split; lia.
  - remember (train_loop E args acc s batches step (S remaining) st)
      as res eqn:Hres.
    cbn [train_loop] in Hres. unfold mbind at 1 in Hres.
    destruct (train_iteration_outcome E args acc s (batches step) st)
      as [ev1 [T1 O1]].
    destruct (train_iteration E args acc s (batches step) st)
      as [[stop|e] st1]; cbn [fst snd] in *.
    + destruct O1 as [O1s O1f]. destruct stop.
      * subst res. exists ev1. cbn [ret fst snd]. repeat split; try lia.
        exact T1.
      * destruct (IH (S step) st1) as [ev2 [T2 [A2 [B2 C2]]]].
        rewrite <- Hres in T2, C2.
        exists (ev1 ++ ev2)%list. rewrite !steps_app.
        split; [rewrite T2, T1; now rewrite app_assoc|].
        split; [lia|]. split; [lia|]. intros Hok. specialize (C2 Hok). lia.
    + subst res. exists ev1. cbn [fst snd]. repeat split; try lia.
      * exact T1.
      * discriminate.
Qed.

(** ** The fake-score loss with SNR weights, and the log line *)

Lemma shape_ok_1 (l : tensor 1) : shape_ok [@length (tensor 0) l] 1 l = true.
Proof.
  apply shape_ok_S. split; [reflexivity|]. apply Forall_forall. reflexivity.
Qed.

Lemma fake_loss_weighted_eq E args s (model_pred target : var 4) timesteps
    gamma B sh :
  snr_gamma args = Some gamma ->
  shape_ok (B :: sh) 4 (data model_pred) = true ->
  shape_ok (B :: sh) 4 (data target) = true ->
  length timesteps = B ->
  length (effective_snr E s timesteps) = B ->
  let per_sample : list num :=
    map (fun r : tensor 3 => nmean (flatten 3 r))
        (tmap (fun v => nmul v v) 4 (tmap2 nsub 4 (data model_pred) (data target))) in
  let weights :=
    map (fun v => ndiv (nmin v (Finite gamma)) v) (effective_snr E s timesteps) in
  length per_sample = B
  /\ mse_loss_weights E s gamma timesteps = Ok weights
  /\ fake_loss E args s model_pred target timesteps
     = Ok (Var (n := 0) (nmean (zip_with nmul per_sample weights))
               (graph model_pred ++ graph target),
           Some (Var (n := 1) (zip_with nmul per_sample weights)
                     (graph model_pred ++ graph target))).
Proof.
  intros Hg Sm St Lt Ls per_sample weights.
  assert (Hw : mse_loss_weights E s gamma timesteps = Ok weights).
  { unfold mse_loss_weights. now rewrite Ls, Lt, Nat.eqb_refl. }
  assert (Ssq : shape_ok (B :: sh) 4
                  (tmap (fun v => nmul v v) 4
                     (tmap2 nsub 4 (data model_pred) (data target))) = true).
  { rewrite tmap_shape. now apply tmap2_shape. }
  pose proof (proj1 (shape_ok_S _ _ _ _) Ssq) as [Lsq _].
  assert (Lps : length per_sample = B)
    by (unfold per_sample; now rewrite length_map).
  assert (Lw : length weights = B) by (unfold weights; now rewrite length_map).
  split; [exact Lps|]. split; [exact Hw|].
  unfold fake_loss. rewrite Hg, Hw. cbn [Py.bind].
  rewrite (bcast2_same_shape nsub (B :: sh) 4 _ _ Sm St). cbn [Py.bind].
  fold per_sample.
  rewrite (bcast2_same_shape nmul [B] 1 per_sample weights).
  - cbn [Py.bind]. now rewrite flatten_1.
  - rewrite <- Lps. apply shape_ok_1.
  - rewrite <- Lw. apply shape_ok_1.
Qed.

Lemma nmean_one v : is_finite v = true -> nmean [v] = v.
Proof.
  destruct v as [r|]; [|discriminate]. intros _.
  change [Finite r] with (map Finite [r]). rewrite nmean_finite by discriminate.
  cbn [rsum fold_right length INR]. f_equal. field.
Qed.

(** X15: what the log line records when [snr_gamma] is set.  The branch of
    lines 417 to 431 binds [loss] to the weighted loss of the fake network,
    one value for each sample, and [loss_d] to its mean.  The log line then
    reads [loss.item()]: with one sample the value logged as [loss_g] is
    the loss of the fake network again, and with any other batch size
    [item] raises. *)
Theorem snr_branch_logs_fake_loss_as_generator_loss :
  forall (E : Externals) (args : Args) (noise_scheduler : Scheduler)
         (model_pred target : var 4) (timesteps : list Z) (gamma : R) B sh,
    snr_gamma args = Some gamma ->
    shape_ok (B :: sh) 4 (data model_pred) = true ->
    shape_ok (B :: sh) 4 (data target) = true ->
    length timesteps = B ->
    length (effective_snr E noise_scheduler timesteps) = B ->
    exists loss_d loss,
      fake_loss E args noise_scheduler model_pred target timesteps
      = Ok (loss_d, Some loss)
      /\ @length (tensor 0) (data loss) = B
      /\ data loss_d = nmean (data loss)
      /\ forall st : State E,
          loss_local st = Some loss ->
          (B <> 1%nat ->
           exists msg, emit_logs E loss_d st = (Raise (RuntimeError msg), st))
          /\ (B = 1%nat ->
              exists v,
                data loss = [v]
                /\ fst (emit_logs E loss_d st) = Ok tt
                /\ trace (snd (emit_logs E loss_d st))
                   = (trace st ++ [Log v (data loss_d) (global_step st)])%list
                /\ (is_finite v = true -> data loss_d = v)).
Proof.
  intros E args s mp tg ts gamma B sh Hg Sm St Lt Ls.
  destruct (fake_loss_weighted_eq E args s mp tg ts gamma B sh Hg Sm St Lt Ls)
    as [Lps [Hw Hloss]].
  cbv zeta in Lps, Hw, Hloss.
  set (per_sample := map (fun r : tensor 3 => nmean (flatten 3 r))
                         (tmap (fun v => nmul v v) 4 (tmap2 nsub 4 (data mp) (data tg)))) in *.
  set (weights := map (fun v => ndiv (nmin v (Finite gamma)) v)
                      (effective_snr E s ts)) in *.
  assert (Lz : length (zip_with nmul per_sample weights) = B).
  { rewrite zip_with_length; [exact Lps|].
    unfold weights. rewrite length_map. exact (eq_trans Lps (eq_sym Ls)). }
  eexists. eexists. split; [exact Hloss|]. cbn [data].
  split; [exact Lz|]. split; [reflexivity|].
  intros st Hst. unfold emit_logs. rewrite run_bind_get, Hst.
  unfold item, detach. cbn [data].
  destruct (zip_with nmul per_sample weights) as [|v [|v' l]] eqn:Hz;
    cbn [length] in Lz.
  - split; [intros _; eexists; reflexivity | intros HB; lia].
  - split; [intros HB; lia|]. intros _. exists v.
    split; [reflexivity|]. rewrite run_bind_lift.
    split; [reflexivity|]. split; [reflexivity|]. apply nmean_one.
  - split; [intros _; eexists; reflexivity | intros HB; lia].
Qed.

Lemma snr_branch_logs_fake_loss_as_generator_loss_witness :
  exists loss_d loss,
    fake_loss Demo.E (Demo.args (Some 5%R) None)
              (Demo.scheduler 1 "epsilon" [Finite (1 / 4)])
              (const (Demo.two 1 2)) (const (Demo.two 3 5)) [0%Z; 0%Z]
    = Ok (loss_d, Some loss)
    /\ @length (tensor 0) (data loss) = 2%nat
    /\ exists msg,
        emit_logs Demo.E loss_d
          {| teacher_w := (tt : Weights Demo.E); fake_w := tt; student_w := tt;
             fake_grad := None; student_grad := None;
             fake_optimizer := tt; student_optimizer := tt;
             global_step := 1%Z; loss_local := Some loss;
             files := []; trace := [] |}
        = (Raise (RuntimeError msg),
           {| teacher_w := (tt : Weights Demo.E); fake_w := tt; student_w := tt;
              fake_grad := None; student_grad := None;
              fake_optimizer := tt; student_optimizer := tt;
              global_step := 1%Z; loss_local := Some loss;
              files := []; trace := [] |}).
Proof.
  destruct (snr_branch_logs_fake_loss_as_generator_loss
              Demo.E (Demo.args (Some 5%R) None)
              (Demo.scheduler 1 "epsilon" [Finite (1 / 4)])
              (const (Demo.two 1 2)) (const (Demo.two 3 5)) [0%Z; 0%Z] 5%R
              2%nat [1; 1; 1]%nat eq_refl eq_refl eq_refl eq_refl eq_refl)
    as [loss_d [loss [Hloss [Hlen [_ Hlog]]]]].
  exists loss_d, loss. split; [exact Hloss|]. split; [exact Hlen|].
  apply Hlog; [reflexivity | lia].
Defined.

Lemma snr_weight_range r gamma :
  (0 < r)%R -> (0 < gamma)%R ->
  ndiv (nmin (Finite r) (Finite gamma)) (Finite r) = Finite (Rmin r gamma / r)
  /\ (0 < Rmin r gamma / r <= 1)%R
  /\ (r <= gamma -> Rmin r gamma / r = 1)%R
  /\ (gamma < r -> Rmin r gamma / r = gamma / r)%R.
Proof.
  intros Hr Hg. split; [|split; [|split]].
  - cbn. destruct (Req_dec_T r 0) as [E0|_]; [lra | reflexivity].
  - assert (Hm : (0 < Rmin r gamma <= r)%R).
    { split; [now apply Rmin_glb_lt | apply Rmin_l]. }
    split.
    + now apply Rdiv_lt_0_compat.
    + apply (Rmult_le_reg_r r); [exact Hr|].
      unfold Rdiv. rewrite Rmult_assoc, Rinv_l by lra. lra.
  - intros Hle. rewrite Rmin_left by exact Hle. field. lra.
  - intros Hlt. rewrite Rmin_right by lra. reflexivity.
Qed.

(** X16: the SNR weights of lines 425 to 427.  For positive
    signal-to-noise ratios and a positive [snr_gamma], the weight of a
    sample is 1 where its ratio is at most [snr_gamma] and
    [snr_gamma / snr] above: always in (0, 1]. *)
Theorem snr_weights_between_zero_and_one :
  forall (E : Externals) (noise_scheduler : Scheduler) (gamma : R)
         (timesteps : list Z),
    (0 < gamma)%R ->
    length (effective_snr E noise_scheduler timesteps) = length timesteps ->
    Forall (fun v => exists r, v = Finite r /\ (0 < r)%R)
           (effective_snr E noise_scheduler timesteps) ->
    exists weights,
      mse_loss_weights E noise_scheduler gamma timesteps = Ok weights
      /\ Forall2 (fun snr w =>
                    exists r c,
                      snr = Finite r /\ w = Finite c /\ (0 < c <= 1)%R
                      /\ (r <= gamma -> c = 1)%R
                      /\ (gamma < r -> c = gamma / r)%R)
                 (effective_snr E noise_scheduler timesteps) weights.
Proof.
  intros E s gamma ts Hg Ls Hsnr.
  unfold mse_loss_weights. rewrite Ls, Nat.eqb_refl.
  eexists. split; [reflexivity|]. clear Ls.
  induction Hsnr as [|v snr [r [-> Hr]] _ IH]; cbn [map]; [constructor|].
  constructor; [|exact IH].
  destruct (snr_weight_range r gamma Hr Hg) as (H1 & H2 & H3 & H4).
  exists r, (Rmin r gamma / r)%R. auto.
Qed.

Lemma snr_weights_between_zero_and_one_witness :
  exists weights,
    mse_loss_weights Demo.E (Demo.scheduler 1 "epsilon" [Finite (1 / 4)]) 5
                     [0%Z; 0%Z] = Ok weights
    /\ Forall2 (fun snr w =>
                  exists r c,
                    snr = Finite r /\ w = Finite c /\ (0 < c <= 1)%R
                    /\ (r <= 5 -> c = 1)%R
                    /\ (5 < r -> c = 5 / r)%R)
               [Finite 1; Finite 1] weights.
Proof.
  apply (snr_weights_between_zero_and_one
           Demo.E (Demo.scheduler 1 "epsilon" [Finite (1 / 4)]) 5 [0%Z; 0%Z]).
  - lra.
  - reflexivity.
  - repeat constructor; exists 1%R; split; try reflexivity; lra.
Defined.

(** C9, the part of the claim that does not hold: [gamma] at least the
    largest signal-to-noise ratio does not make every weight 1 in
    ["v_prediction"] mode.  With a ratio of 1 and [gamma = 1] the weight is
    [min(1 + 1, 1) / (1 + 1)], a half, and the reweighted loss is half the
    unweighted one. *)
Lemma snr_gamma_at_max_snr_reweights_velocity :
  compute_snr Demo.E
    (Demo.scheduler 1000 "v_prediction" (repeat (Finite (1 / 4)) 1000)) [0%Z]
  = [Finite 1]
  /\ mse_loss_weights Demo.E
       (Demo.scheduler 1000 "v_prediction" (repeat (Finite (1 / 4)) 1000))
       1 [0%Z]
     = Ok [Finite (1 / 2)]
  /\ (exists weighted,
         fake_loss Demo.E (Demo.args (Some 1%R) None)
           (Demo.scheduler 1000 "v_prediction" (repeat (Finite (1 / 4)) 1000))
           (const (Demo.one 1)) (const (Demo.one 2)) [0%Z] = Ok weighted
         /\ data (fst weighted) = Finite (1 / 2))
  /\ (exists unweighted,
         mse_loss (const (Demo.one 1)) (const (Demo.one 2)) = Ok unweighted
         /\ data unweighted = Finite 1).
Proof.
  assert (Hw : ndiv (nmin (nadd (Finite 1) (Finite 1)) (Finite 1))
                    (nadd (Finite 1) (Finite 1)) = Finite (1 / 2)).
  { cbn [nadd lift2].
    destruct (snr_weight_range (1 + 1) 1) as (H1 & _ & _ & H4); [lra | lra |].
    rewrite H1, H4 by lra. f_equal; lra. }
  assert (Hsq : nmul (nsub (Finite 1) (Finite 2)) (nsub (Finite 1) (Finite 2))
                = Finite 1).
  { cbn [nsub nmul lift2]. f_equal. ring. }
  assert (Hweights : mse_loss_weights Demo.E
                       (Demo.scheduler 1000 "v_prediction"
                          (repeat (Finite (1 / 4)) 1000)) 1 [0%Z]
                     = Ok [Finite (1 / 2)]).
  { unfold mse_loss_weights, effective_snr.
    cbn [prediction_type Demo.scheduler String.eqb Ascii.eqb Bool.eqb
         compute_snr Demo.E map length Nat.eqb].
    now rewrite Hw. }
  split; [reflexivity|]. split; [exact Hweights|]. split.
  - unfold fake_loss. cbn [snr_gamma Demo.args]. rewrite Hweights.
    cbn [Py.bind data const Demo.one bcast2 length Nat.eqb zipM tmap map
         flatten flat_map app].
    rewrite Hsq, (nmean_one (Finite 1)) by reflexivity.
    cbn [nmul lift2 Py.bind fst data].
    eexists. split; [reflexivity|]. cbn [data fst].
    rewrite nmean_one by reflexivity. f_equal. field.
  - unfold mse_loss.
    cbn [Py.bind data const Demo.one bcast2 length Nat.eqb zipM tmap map
         flatten flat_map app].
    rewrite Hsq. eexists. split; [reflexivity|]. cbn [data].
    now rewrite nmean_one.
Qed.

(** ** Checkpoints: what a save removes, and what it needs *)

Lemma slice_to_In {A} (xs : list A) stop x :
  In x (PyStr.slice_to xs stop) -> In x xs.
Proof.
  unfold PyStr.slice_to.
  destruct (stop <? 0)%Z; intros H;
    match type of H with
    | In _ (firstn ?k _) => rewrite <- (firstn_skipn k xs)
    end; apply in_or_app; now left.
Qed.

Lemma slice_to_firstn {A} (xs : list A) stop :
  exists j, PyStr.slice_to xs stop = firstn j xs.
Proof. unfold PyStr.slice_to. destruct (stop <? 0)%Z; eexists; reflexivity. Qed.

(** The names [removing_checkpoints] returns are the first ones of the
    checkpoints in the order of their steps. *)
Lemma removing_checkpoints_firstn limit listing removed :
  removing_checkpoints limit listing = Ok removed ->
  exists (ps : list (Z * string)) j,
    removed = firstn j (map snd ps)
    /\ Permutation (filter is_checkpoint listing) (map snd ps)
    /\ StronglySorted PyStr.key_le ps
    /\ (forall p, In p ps -> checkpoint_key (snd p) = Ok (fst p)).
Proof.
  unfold removing_checkpoints.
  destruct (PyStr.sorted checkpoint_key (filter is_checkpoint listing))
    as [sorted|] eqn:Hs; cbn [Py.bind]; [|discriminate].
  destruct (sorted_spec _ _ _ Hs) as [ps [Eps [Hperm [Hss Hk]]]]. subst sorted.
  intros H. exists ps.
  destruct (Z.of_nat (length (map snd ps)) >=? limit)%Z.
  - destruct (slice_to_firstn (map snd ps)
                (Z.of_nat (length (map snd ps)) - limit + 1)) as [j Hj].
    exists j. rewrite Hj in H. inversion H. auto.
  - exists 0%nat. inversion H. auto.
Qed.

Lemma removing_checkpoints_In limit listing removed r :
  removing_checkpoints limit listing = Ok removed ->
  In r removed -> In r listing /\ is_checkpoint r = true.
Proof.
  intros H Hr.
  destruct (removing_checkpoints_firstn _ _ _ H) as [ps [j [-> [Hperm _]]]].
  apply filter_In. eapply Permutation_in; [apply Permutation_sym, Hperm|].
  rewrite <- (firstn_skipn j (map snd ps)). apply in_or_app. now left.
Qed.

Lemma kept_true removing f :
  ~ In f removing -> kept removing f = true.
Proof.
  intros H. unfold kept. apply negb_true_iff.
  destruct (existsb (String.eqb f) removing) eqn:Hx; [|reflexivity].
  apply existsb_exists in Hx. destruct Hx as [g [Hg Heq]].
  apply String.eqb_eq in Heq. now subst g.
Qed.

Lemma kept_false removing f :
  In f removing -> kept removing f = false.
Proof.
  intros H. unfold kept. apply negb_false_iff. apply existsb_exists.
  exists f. split; [exact H | apply String.eqb_refl].
Qed.

(** The outcome and the directory after [save_checkpoint]. *)
Lemma save_checkpoint_run E args (st : State E) :
  let new := ("checkpoint-" ++ PyStr.str (global_step st))%string in
  let add := fun l : list string =>
               if existsb (String.eqb new) l then l else (l ++ [new])%list in
  match checkpoints_total_limit args with
  | Some limit =>
      match removing_checkpoints limit (files st) with
      | Ok removing =>
          fst (save_checkpoint E args st) = Ok tt
          /\ files (snd (save_checkpoint E args st))
             = add (filter (kept removing) (files st))
          /\ trace (snd (save_checkpoint E args st))
             = (trace st ++ map RemoveTree removing ++ [SaveState new])%list
      | Raise e => save_checkpoint E args st = (Raise e, st)
      end
  | None =>
      fst (save_checkpoint E args st) = Ok tt
      /\ files (snd (save_checkpoint E args st)) = add (files st)
      /\ trace (snd (save_checkpoint E args st)) = (trace st ++ [SaveState new])%list
  end.
Proof.
  cbv zeta. unfold save_checkpoint. rewrite run_bind_get.
  destruct (checkpoints_total_limit args) as [limit|].
  - unfold mbind at 1. rewrite run_bind_lift.
    destruct (removing_checkpoints limit (files st)) as [removing|e];
      [|reflexivity].
    unfold remove_trees. rewrite run_bind_get.
    unfold set_files at 1. unfold save_state. rewrite run_bind_get.
    cbn [files trace global_step fst snd set_files].
    repeat split. now rewrite app_assoc.
  - unfold mbind, ret, save_state, get, set_files. cbn [fst snd files trace].
    repeat split.
Qed.

Lemma In_add_entry (new : string) (l : list string) f :
  In f l -> In f (if existsb (String.eqb new) l then l else (l ++ [new])%list).
Proof.
  intros H. destruct (existsb (String.eqb new) l); [exact H|].
  apply in_or_app. now left.
Qed.

(** X17: a save removes nothing but checkpoints.  Every name that
    [removing_checkpoints] returns is an entry of the directory that starts
    with ["checkpoint"], and an entry that does not start with it is still
    in the directory after [save_checkpoint], whatever the limit. *)
Theorem retention_only_removes_checkpoints :
  forall (E : Externals) (args : Args) (st : State E) (f : string),
    In f (files st) ->
    is_checkpoint f = false ->
    In f (files (snd (save_checkpoint E args st)))
    /\ forall N removed,
        removing_checkpoints N (files st) = Ok removed ->
        ~ In f removed
        /\ forall r, In r removed -> In r (files st) /\ is_checkpoint r = true.
Proof.
  intros E args st f Hf Hc.
  assert (Hnot : forall N removed,
             removing_checkpoints N (files st) = Ok removed -> ~ In f removed).
  { intros N removed H Hin.
    destruct (removing_checkpoints_In _ _ _ _ H Hin) as [_ Hck]. congruence. }
  split.
  - pose proof (save_checkpoint_run E args st) as Hrun. cbv zeta in Hrun.
    destruct (checkpoints_total_limit args) as [limit|].
    + destruct (removing_checkpoints limit (files st)) as [removing|e] eqn:Hrem.
      * destruct Hrun as (_ & -> & _). apply In_add_entry.
        apply filter_In. split; [exact Hf|]. apply kept_true.
        now apply (Hnot limit).
      * now rewrite Hrun.
    + destruct Hrun as (_ & -> & _). now apply In_add_entry.
  - intros N removed H. split; [now apply (Hnot N)|].
    intros r Hr. now apply (removing_checkpoints_In N _ removed).
Qed.

Lemma retention_only_removes_checkpoints_witness :
  In "readme"%string
     (files (snd (save_checkpoint Demo.E (Demo.args None (Some 1%Z))
                    (Demo.state 30 ["checkpoint-10"; "readme"; "checkpoint-20"]%string)))).
Proof.
  apply (retention_only_removes_checkpoints
           Demo.E (Demo.args None (Some 1%Z))
           (Demo.state 30 ["checkpoint-10"; "readme"; "checkpoint-20"]%string)
           "readme"%string).
  - simpl. auto.
  - reflexivity.
Defined.

Lemma StronglySorted_app_le {A} (R : A -> A -> Prop) l1 l2 :
  StronglySorted R (l1 ++ l2) -> forall x y, In x l1 -> In y l2 -> R x y.
Proof.
  induction l1 as [|a l1 IH]; intros Hs x y Hx Hy; [contradiction|].
  cbn [app] in Hs. inversion Hs as [|? ? Hs' Hall]; subst.
  destruct Hx as [->|Hx].
  - rewrite Forall_forall in Hall. apply Hall. apply in_or_app. now right.
  - now apply IH.
Qed.

(** X18: a save removes the oldest checkpoints.  Every checkpoint that
    [removing_checkpoints] returns has a step number at most that of every
    checkpoint it leaves in the directory. *)
Theorem retention_removes_oldest_first :
  forall (N : Z) (listing removed : list string) (r c : string) (kr kc : Z),
    removing_checkpoints N listing = Ok removed ->
    In r removed ->
    In c listing -> is_checkpoint c = true -> ~ In c removed ->
    checkpoint_key r = Ok kr ->
    checkpoint_key c = Ok kc ->
    (kr <= kc)%Z.
Proof.
  intros N listing removed r c kr kc H Hr Hc Hck Hnot Kr Kc.
  destruct (removing_checkpoints_firstn _ _ _ H)
    as [ps [j [-> [Hperm [Hss Hk]]]]].
  assert (Hcs : In c (skipn j (map snd ps))).
  { assert (Hin : In c (map snd ps)).
    { eapply Permutation_in; [exact Hperm|]. apply filter_In. now split. }
    rewrite <- (firstn_skipn j (map snd ps)) in Hin.
    apply in_app_or in Hin. destruct Hin as [Hin|Hin]; [contradiction | exact Hin]. }
  rewrite firstn_map in Hr. rewrite skipn_map in Hcs.
  apply in_map_iff in Hr. destruct Hr as [pr [Er Hr]].
  apply in_map_iff in Hcs. destruct Hcs as [pc [Ec Hcs]].
  rewrite <- (firstn_skipn j ps) in Hss.
  pose proof (StronglySorted_app_le _ _ _ Hss pr pc Hr Hcs) as Hle.
  unfold PyStr.key_le in Hle.
  assert (Hpr : checkpoint_key (snd pr) = Ok (fst pr)).
  { apply Hk. rewrite <- (firstn_skipn j ps). apply in_or_app. now left. }
  assert (Hpc : checkpoint_key (snd pc) = Ok (fst pc)).
  { apply Hk. rewrite <- (firstn_skipn j ps). apply in_or_app. now right. }
  rewrite Er, Kr in Hpr. rewrite Ec, Kc in Hpc.
  inversion Hpr. inversion Hpc. lia.
Qed.

Lemma retention_removes_oldest_first_witness :
  removing_checkpoints 2
    ["checkpoint-10"; "readme"; "checkpoint-20"; "checkpoint-5"]%string
  = Ok ["checkpoint-5"; "checkpoint-10"]%string
  /\ (10 <= 20)%Z.
Proof.
  split; [reflexivity|].
  apply (retention_removes_oldest_first 2
           ["checkpoint-10"; "readme"; "checkpoint-20"; "checkpoint-5"]%string
           ["checkpoint-5"; "checkpoint-10"]%string
           "checkpoint-10"%string "checkpoint-20"%string 10 20).
  - reflexivity.
  - simpl. auto.
  - simpl. auto.
  - reflexivity.
  - simpl. intros [H|[H|[]]]; discriminate H.
  - reflexivity.
  - reflexivity.
Defined.

Lemma filter_kept_nil (l : list string) : filter (kept []) l = l.
Proof.
  induction l as [|x l IH]; [reflexivity|]. cbn. now rewrite IH.
Qed.

(** X19: below the limit nothing is removed.  With fewer checkpoints in the
    directory than [checkpoints_total_limit], all of them with a step number
    that parses, [save_checkpoint] removes none, saves the new one and
    leaves every entry in place. *)
Theorem retention_below_limit_removes_nothing :
  forall (E : Externals) (args : Args) (st : State E) (N : Z),
    checkpoints_total_limit args = Some N ->
    (Z.of_nat (length (filter is_checkpoint (files st))) < N)%Z ->
    Forall (fun d => exists k, checkpoint_key d = Ok k)
           (filter is_checkpoint (files st)) ->
    let new := ("checkpoint-" ++ PyStr.str (global_step st))%string in
    removing_checkpoints N (files st) = Ok []
    /\ fst (save_checkpoint E args st) = Ok tt
    /\ trace (snd (save_checkpoint E args st)) = (trace st ++ [SaveState new])%list
    /\ files (snd (save_checkpoint E args st))
       = (if existsb (String.eqb new) (files st) then files st
          else files st ++ [new])%list.
Proof.
  intros E args st N Hlim HN Hkeys new.
  destruct (mapM_total checkpoint_key _ Hkeys) as [ks Hks].
  assert (Hrem : removing_checkpoints N (files st) = Ok []).
  { unfold removing_checkpoints, PyStr.sorted. rewrite Hks. cbn [Py.bind].
    assert (Hlen : length (map snd (PyStr.isort (combine ks (filter is_checkpoint (files st)))))
                   = length (filter is_checkpoint (files st))).
    { rewrite length_map, <- (Permutation_length (isort_perm _)).
      rewrite length_combine, (mapM_length _ _ _ Hks). apply Nat.min_id. }
    rewrite Hlen.
    destruct (Z.geb_spec (Z.of_nat (length (filter is_checkpoint (files st)))) N);
      [lia | reflexivity]. }
  split; [exact Hrem|].
  pose proof (save_checkpoint_run E args st) as Hrun. cbv zeta in Hrun.
  rewrite Hlim, Hrem in Hrun. destruct Hrun as (H1 & H2 & H3).
  split; [exact H1|]. split; [exact H3|].
  rewrite H2, filter_kept_nil. reflexivity.
Qed.

Lemma retention_below_limit_removes_nothing_witness :
  removing_checkpoints 3 ["checkpoint-10"; "readme"; "checkpoint-20"]%string = Ok []
  /\ files (snd (save_checkpoint Demo.E (Demo.args None (Some 3%Z))
                   (Demo.state 30 ["checkpoint-10"; "readme"; "checkpoint-20"]%string)))
     = ["checkpoint-10"; "readme"; "checkpoint-20"; "checkpoint-30"]%string.
Proof.
  destruct (retention_below_limit_removes_nothing
              Demo.E (Demo.args None (Some 3%Z))
              (Demo.state 30 ["checkpoint-10"; "readme"; "checkpoint-20"]%string)
              3%Z eq_refl) as (H1 & _ & _ & H4).
  - simpl. lia.
  - repeat constructor; eexists; reflexivity.
  - split; [exact H1 | exact H4].
Defined.

Lemma mapM_raises {A B} (f : A -> result B) xs :
  Exists (fun x => forall y, f x <> Ok y) xs -> exists e, mapM f xs = Raise e.
Proof.
  induction 1 as [x xs Hx | x xs _ [e IH]]; cbn [mapM].
  - destruct (f x) as [y|e] eqn:Hf; [now contradiction (Hx y)|].
    exists e. reflexivity.
  - destruct (f x) as [y|e']; cbn [Py.bind].
    + rewrite IH. exists e. reflexivity.
    + exists e'. reflexivity.
Qed.

Lemma sorted_raises {A} (key : A -> result Z) xs :
  Exists (fun x => forall k, key x <> Ok k) xs ->
  exists e, PyStr.sorted key xs = Raise e.
Proof.
  intros H. destruct (mapM_raises key xs H) as [e He].
  exists e. unfold PyStr.sorted. now rewrite He.
Qed.

(** A piece with a letter in it is no integer. *)
Lemma uint_of_string_letter c s :
  In c (list_ascii_of_string s) -> PyStr.is_ascii_letter c = true ->
  NilEmpty.uint_of_string s = None.
Proof.
  induction s as [|a s IH]; intros Hin Hc; [contradiction|].
  cbn [list_ascii_of_string] in Hin. cbn [NilEmpty.uint_of_string].
  destruct Hin as [->|Hin].
  - destruct (NilEmpty.uint_of_string s); [|reflexivity].
    destruct c as [[] [] [] [] [] [] [] []]; try discriminate Hc; reflexivity.
  - now rewrite (IH Hin Hc).
Qed.

Lemma int_letter c s :
  In c (list_ascii_of_string s) -> PyStr.is_ascii_letter c = true ->
  exists msg, PyStr.int s = Raise (ValueError msg).
Proof.
  intros Hin Hc. unfold PyStr.int.
  assert (Hnone : NilZero.int_of_string s = None).
  { destruct s as [|a s]; [contradiction|]. cbn [NilZero.int_of_string].
    destruct (Ascii.eqb_spec a "-") as [->|Hne].
    - destruct Hin as [<-|Hin]; [discriminate Hc|].
      unfold NilZero.uint_of_string.
      destruct s as [|a' s']; [contradiction|].
      now rewrite (uint_of_string_letter c _ Hin Hc).
    - unfold NilZero.uint_of_string.
      now rewrite (uint_of_string_letter c _ Hin Hc). }
  rewrite Hnone. eexists. reflexivity.
Qed.

(** The names whose step number Python rejects, whatever spellings of an
    integer [int] accepts: no ["-"] in the name, nothing after the first
    ["-"], or a letter in the piece after it. *)
Lemma checkpoint_key_raises d :
  (length (PyStr.split "-" d) = 1%nat
   \/ exists piece,
        nth_error (PyStr.split "-" d) 1 = Some piece
        /\ (piece = EmptyString
            \/ exists c, In c (list_ascii_of_string piece)
                         /\ PyStr.is_ascii_letter c = true)) ->
  exists e, checkpoint_key d = Raise e.
Proof.
  unfold checkpoint_key. intros [Hlen|[piece [Hp Hbad]]].
  - rewrite getitem_out_of_range; [eexists; reflexivity|].
    rewrite Hlen. right. simpl. lia.
  - assert (Hget : getitem (PyStr.split "-" d) 1 = Ok piece).
    { assert (Hl : (1 < length (PyStr.split "-" d))%nat)
        by (apply nth_error_Some; congruence).
      unfold getitem. cbv zeta.
      change (1 <? 0)%Z with false. cbv iota.
      change (0 <=? 1)%Z with true. change (Z.to_nat 1) with 1%nat.
      destruct (Z.ltb_spec 1 (Z.of_nat (length (PyStr.split "-" d)))); [|lia].
      cbn [andb]. now rewrite Hp. }
    rewrite Hget. cbn [Py.bind].
    destruct Hbad as [->|[c [Hin Hc]]].
    + eexists. reflexivity.
    + destruct (int_letter c piece Hin Hc) as [msg ->]. eexists. reflexivity.
Qed.

(** X20: a stray entry blocks saving and resuming.  An entry of the output
    directory that starts with ["checkpoint"] and has no ["-"]
    (["checkpoints"], ["checkpoint_old"]), nothing after its first ["-"]
    (["checkpoint-"]) or a letter in the piece after it
    (["checkpoint-final"]) has no step number for [int]: it makes every
    save under a limit raise before anything is removed or written, and
    makes [--resume_from_checkpoint latest] raise before anything is
    loaded.  A name with no ["-"] raises [IndexError]. *)
Theorem malformed_checkpoint_name_blocks_save_and_resume :
  forall (E : Externals) (args : Args) (st : State E) (d : string),
    In d (files st) ->
    is_checkpoint d = true ->
    (length (PyStr.split "-" d) = 1%nat
     \/ exists piece,
          nth_error (PyStr.split "-" d) 1 = Some piece
          /\ (piece = EmptyString
              \/ exists c, In c (list_ascii_of_string piece)
                           /\ PyStr.is_ascii_letter c = true)) ->
    (forall N, checkpoints_total_limit args = Some N ->
               exists e, save_checkpoint E args st = (Raise e, st))
    /\ (resume_from_checkpoint args = Some "latest"%string ->
        exists e, resume E args st = (Raise e, st))
    /\ (length (PyStr.split "-" d) = 1%nat -> checkpoint_key d = Raise IndexError).
Proof.
  intros E args st d Hd Hck Hbad.
  assert (Hkey : forall k, checkpoint_key d <> Ok k).
  { intros k. destruct (checkpoint_key_raises d Hbad) as [e ->]. discriminate. }
  assert (Hs : exists e, PyStr.sorted checkpoint_key (filter is_checkpoint (files st))
                         = Raise e).
  { apply sorted_raises. apply Exists_exists. exists d. split; [|exact Hkey].
    apply filter_In. now split. }
  destruct Hs as [e Hs]. split; [|split].
  - intros N Hlim. exists e.
    pose proof (save_checkpoint_run E args st) as Hrun. cbv zeta in Hrun.
    rewrite Hlim in Hrun. unfold removing_checkpoints in Hrun.
    rewrite Hs in Hrun. exact Hrun.
  - intros Hres. exists e. unfold resume. rewrite Hres.
    rewrite run_bind_get. cbn [String.eqb Ascii.eqb Bool.eqb negb].
    rewrite Hs. cbn [Py.bind]. now rewrite run_bind_lift.
  - intros Hlen. unfold checkpoint_key.
    rewrite getitem_out_of_range; [reflexivity|]. rewrite Hlen. right. simpl. lia.
Qed.

Lemma malformed_checkpoint_name_blocks_save_and_resume_witness :
  (exists e,
      save_checkpoint Demo.E (Demo.args None (Some 3%Z))
        (Demo.state 30 ["checkpoint-10"; "checkpoint-final"]%string)
      = (Raise e, Demo.state 30 ["checkpoint-10"; "checkpoint-final"]%string))
  /\ (exists e,
        resume Demo.E (Demo.args_resuming "latest")
          (Demo.state 0 ["checkpoint-10"; "checkpoint-final"]%string)
        = (Raise e, Demo.state 0 ["checkpoint-10"; "checkpoint-final"]%string)).
Proof.
  split.
  - destruct (malformed_checkpoint_name_blocks_save_and_resume
                Demo.E (Demo.args None (Some 3%Z))
                (Demo.state 30 ["checkpoint-10"; "checkpoint-final"]%string)
                "checkpoint-final"%string) as (H1 & _).
    + simpl. auto.
    + reflexivity.
    + right. exists "final"%string. split; [reflexivity|]. right.
      exists "f"%char. split; [simpl; auto | reflexivity].
    + apply (H1 3%Z). reflexivity.
  - destruct (malformed_checkpoint_name_blocks_save_and_resume
                Demo.E (Demo.args_resuming "latest")
                (Demo.state 0 ["checkpoint-10"; "checkpoint-final"]%string)
                "checkpoint-final"%string) as (_ & H2 & _).
    + simpl. auto.
    + reflexivity.
    + right. exists "final"%string. split; [reflexivity|]. right.
      exists "f"%char. split; [simpl; auto | reflexivity].
    + apply H2. reflexivity.
Defined.

Lemma filter_none {A} (p : A -> bool) l :
  (forall x, In x l -> p x = false) -> filter p l = [].
Proof.
  induction l as [|x l IH]; intros H; [reflexivity|].
  cbn [filter]. rewrite (H x) by now left.
  apply IH. intros y Hy. apply H. now right.
Qed.

(** X21: a limit of zero or less.  [len(checkpoints) >= limit] then always
    holds and [num_to_remove] exceeds the number of checkpoints: every
    checkpoint of the directory is removed, and the one being saved is the
    only one left. *)
Theorem retention_limit_zero_keeps_only_new :
  forall (E : Externals) (args : Args) (st : State E) (N : Z),
    checkpoints_total_limit args = Some N ->
    (N <= 0)%Z ->
    Forall (fun d => exists k, checkpoint_key d = Ok k)
           (filter is_checkpoint (files st)) ->
    let new := ("checkpoint-" ++ PyStr.str (global_step st))%string in
    fst (save_checkpoint E args st) = Ok tt
    /\ filter is_checkpoint (files (snd (save_checkpoint E args st))) = [new]
    /\ (forall d, In d (files st) -> is_checkpoint d = true ->
                  In (RemoveTree d) (trace (snd (save_checkpoint E args st)))).
Proof.
  intros E args st N Hlim HN Hkeys new.
  destruct (mapM_total checkpoint_key _ Hkeys) as [ks Hks].
  assert (Hsorted : PyStr.sorted checkpoint_key (filter is_checkpoint (files st))
                    = Ok (map snd (PyStr.isort (combine ks (filter is_checkpoint (files st)))))).
  { unfold PyStr.sorted. now rewrite Hks. }
  destruct (sorted_spec _ _ _ Hsorted) as [ps [Eps [Hperm _]]].
  rewrite Eps in Hsorted, Hperm. clear Eps.
  set (sorted := map snd ps) in *.
  assert (Hrem : removing_checkpoints N (files st) = Ok sorted).
  { unfold removing_checkpoints. rewrite Hsorted. cbn [Py.bind].
    destruct (Z.geb_spec (Z.of_nat (length sorted)) N); [|lia].
    unfold PyStr.slice_to.
    destruct (Z.ltb_spec (Z.of_nat (length sorted) - N + 1) 0); [lia|].
    rewrite firstn_all2 by lia. reflexivity. }
  pose proof (save_checkpoint_run E args st) as Hrun. cbv zeta in Hrun.
  rewrite Hlim, Hrem in Hrun. destruct Hrun as (H1 & H2 & H3). fold new in H2, H3.
  assert (Hnone : forall x, In x (filter (kept sorted) (files st)) ->
                            is_checkpoint x = false).
  { intros x Hx. apply filter_In in Hx. destruct Hx as [Hx Hkept].
    destruct (is_checkpoint x) eqn:Hc; [|reflexivity].
    rewrite kept_false in Hkept; [discriminate|].
    eapply Permutation_in; [exact Hperm|]. apply filter_In. now split. }
  assert (Hnew : existsb (String.eqb new) (filter (kept sorted) (files st)) = false).
  { destruct (existsb (String.eqb new) (filter (kept sorted) (files st))) eqn:Hx;
      [|reflexivity].
    apply existsb_exists in Hx. destruct Hx as [g [Hg Heq]].
    apply String.eqb_eq in Heq. subst g. apply Hnone in Hg.
    unfold new in Hg. rewrite new_checkpoint_name in Hg. discriminate. }
  split; [exact H1|]. split.
  - rewrite H2, Hnew, filter_app, (filter_none _ _ Hnone). cbn [filter app].
    unfold new. now rewrite new_checkpoint_name.
  - intros d Hd Hc. rewrite H3. apply in_or_app. right. apply in_or_app. left.
    apply in_map. eapply Permutation_in; [exact Hperm|]. apply filter_In. now split.
Qed.

Lemma retention_limit_zero_keeps_only_new_witness :
  filter is_checkpoint
    (files (snd (save_checkpoint Demo.E (Demo.args None (Some 0%Z))
                   (Demo.state 30 ["checkpoint-10"; "readme"; "checkpoint-20"]%string))))
  = ["checkpoint-30"%string].
Proof.
  destruct (retention_limit_zero_keeps_only_new
              Demo.E (Demo.args None (Some 0%Z))
              (Demo.state 30 ["checkpoint-10"; "readme"; "checkpoint-20"]%string)
              0%Z eq_refl) as (_ & H2 & _).
  - lia.
  - repeat constructor; eexists; reflexivity.
  - exact H2.
Defined.

(** ** The name of a checkpoint and its step *)

Lemma split_digits d :
  PyStr.split "-" (NilEmpty.string_of_uint d) = [NilEmpty.string_of_uint d].
Proof.
  induction d; cbn [NilEmpty.string_of_uint PyStr.split]; try reflexivity;
    rewrite IHd; reflexivity.
Qed.

Lemma split_string_of_uint d :
  PyStr.split "-" (NilZero.string_of_uint d) = [NilZero.string_of_uint d].
Proof.
  unfold NilZero.string_of_uint. destruct d; try apply split_digits. reflexivity.
Qed.

Lemma int_str n : PyStr.int (PyStr.str n) = Ok n.
Proof.
  unfold PyStr.int, PyStr.str.
  rewrite NilZero.isi.
  - now rewrite DecimalZ.of_to.
  - destruct n; cbn; try discriminate.
    intros H. inversion H as [H0]. now apply DecimalPos.Unsigned.to_uint_nonnil in H0.
  - destruct n; cbn; try discriminate.
    intros H. inversion H as [H0]. now apply DecimalPos.Unsigned.to_uint_nonnil in H0.
Qed.

Lemma checkpoint_pieces s :
  PyStr.split "-" ("checkpoint-" ++ s)
  = ("checkpoint"%string :: PyStr.split "-" s).
Proof.
  cbn [append PyStr.split Ascii.eqb Bool.eqb].
  destruct (PyStr.split "-" s) eqn:Hs; reflexivity.
Qed.

(** X22: the name written at line 464 and the key read at lines 340, 349
    and 450.  For a step that is not negative,
    [int(f"checkpoint-{step}".split("-")[1])] is the step again; for a
    negative step the second piece of the name is empty and [int] raises. *)
Theorem checkpoint_name_round_trip :
  forall n : Z,
    is_checkpoint ("checkpoint-" ++ PyStr.str n) = true
    /\ ((0 <= n)%Z -> checkpoint_key ("checkpoint-" ++ PyStr.str n) = Ok n)
    /\ ((n < 0)%Z ->
        exists msg,
          checkpoint_key ("checkpoint-" ++ PyStr.str n) = Raise (ValueError msg)).
Proof.
  intros n. split; [apply new_checkpoint_name|]. split; intros Hn.
  - unfold checkpoint_key. rewrite checkpoint_pieces.
    assert (Hs : PyStr.split "-" (PyStr.str n) = [PyStr.str n]).
    { unfold PyStr.str. destruct n as [|p|p]; [reflexivity | | lia].
      cbn [Z.to_int NilZero.string_of_int]. apply split_string_of_uint. }
    rewrite Hs. cbn [getitem length Z.of_nat Pos.of_succ_nat Pos.succ].
    cbn. apply int_str.
  - unfold checkpoint_key. rewrite checkpoint_pieces.
    destruct n as [|p|p]; try lia.
    unfold PyStr.str. cbn [Z.to_int NilZero.string_of_int PyStr.split Ascii.eqb Bool.eqb].
    rewrite split_string_of_uint. eexists. reflexivity.
Qed.

(** ** Resuming *)

Lemma StronglySorted_last {A} (R : A -> A -> Prop) (l : list A) d :
  (forall x, R x x) ->
  StronglySorted R l -> forall x, In x l -> R x (last l d).
Proof.
  intros Hrefl Hs. induction Hs as [|a l Hs IH Hall]; intros x Hx; [contradiction|].
  destruct l as [|b l].
  - destruct Hx as [->|[]]. apply Hrefl.
  - change (last (a :: b :: l) d) with (last (b :: l) d).
    destruct Hx as [->|Hx]; [|now apply IH].
    rewrite Forall_forall in Hall. apply Hall.
    clear. revert b. induction l as [|c l IHl]; intros b; [now left|].
    change (last (b :: c :: l) d) with (last (c :: l) d). right. apply IHl.
Qed.

Lemma last_map {A B} (f : A -> B) (l : list A) d :
  last (map f l) (f d) = f (last l d).
Proof.
  induction l as [|a l IH]; [reflexivity|].
  destruct l as [|b l]; [reflexivity|]. exact IH.
Qed.

Lemma last_In {A} (l : list A) d : l <> [] -> In (last l d) l.
Proof.
  induction l as [|a l IH]; intros Hne; [contradiction|].
  destruct l as [|b l]; [now left|]. right. apply IH. discriminate.
Qed.

(** X23: [--resume_from_checkpoint latest].  With no checkpoint in the
    output directory nothing is loaded and the state is unchanged.
    Otherwise, when every checkpoint name has a step that parses, the state
    loaded is that of a checkpoint whose step is the largest in the
    directory, [global_step] becomes that step, and the directory is not
    touched. *)
Theorem resume_latest_restores_largest_step :
  forall (E : Externals) (args : Args) (st : State E),
    resume_from_checkpoint args = Some "latest"%string ->
    Forall (fun d => exists k, checkpoint_key d = Ok k)
           (filter is_checkpoint (files st)) ->
    (filter is_checkpoint (files st) = [] -> resume E args st = (Ok tt, st))
    /\ (filter is_checkpoint (files st) <> [] ->
        exists d k,
          In d (files st) /\ is_checkpoint d = true
          /\ checkpoint_key d = Ok k
          /\ (forall d' k', In d' (files st) -> is_checkpoint d' = true ->
                            checkpoint_key d' = Ok k' -> (k' <= k)%Z)
          /\ fst (resume E args st) = Ok tt
          /\ global_step (snd (resume E args st)) = k
          /\ ((student_w (snd (resume E args st)),
               student_optimizer (snd (resume E args st))),
              (fake_w (snd (resume E args st)),
               fake_optimizer (snd (resume E args st))))
             = load_state E d ((student_w st, student_optimizer st),
                               (fake_w st, fake_optimizer st))
          /\ files (snd (resume E args st)) = files st
          /\ trace (snd (resume E args st)) = trace st).
Proof.
  intros E args st Hres Hkeys.
  destruct (mapM_total checkpoint_key _ Hkeys) as [ks Hks].
  assert (Hsorted : PyStr.sorted checkpoint_key (filter is_checkpoint (files st))
                    = Ok (map snd (PyStr.isort (combine ks (filter is_checkpoint (files st)))))).
  { unfold PyStr.sorted. now rewrite Hks. }
  destruct (sorted_spec _ _ _ Hsorted) as [ps [Eps [Hperm [Hss Hk]]]].
  rewrite Eps in Hsorted, Hperm. clear Eps.
  unfold resume. rewrite Hres. rewrite run_bind_get.
  cbn [String.eqb Ascii.eqb Bool.eqb negb]. rewrite Hsorted. cbn [Py.bind].
  rewrite run_bind_lift. split.
  - intros Hnil. rewrite Hnil in Hperm. apply Permutation_nil in Hperm.
    now rewrite Hperm.
  - intros Hne.
    assert (Hps : ps <> []).
    { intros ->. cbn in Hperm. apply Permutation_sym, Permutation_nil in Hperm.
      contradiction. }
    destruct (map snd ps) as [|d0 ds] eqn:Hmap.
    { destruct ps; [contradiction | discriminate]. }
    rewrite <- Hmap.
    change EmptyString with (snd (0%Z, EmptyString)).
    rewrite last_map.
    set (p := last ps (0%Z, EmptyString)).
    assert (Hp : In p ps) by now apply last_In.
    assert (Hd : In (snd p) (filter is_checkpoint (files st))).
    { eapply Permutation_in; [apply Permutation_sym; exact Hperm|].
      rewrite <- Hmap. now apply in_map. }
    apply filter_In in Hd. destruct Hd as [Hd Hc].
    exists (snd p), (fst p).
    split; [exact Hd|]. split; [exact Hc|]. split; [now apply Hk|].
    split.
    { intros d' k' Hd' Hc' Hk'.
      assert (Hin : In d' (map snd ps)).
      { rewrite Hmap. eapply Permutation_in; [exact Hperm|]. apply filter_In. now split. }
      apply in_map_iff in Hin. destruct Hin as [p' [Ep' Hp']].
      pose proof (Hk p' Hp') as Hkp'. rewrite Ep', Hk' in Hkp'. inversion Hkp'.
      apply (StronglySorted_last PyStr.key_le ps (0%Z, EmptyString));
        [intros x; unfold PyStr.key_le; lia | exact Hss | exact Hp']. }
    unfold mbind, put, lift, set_global_step. rewrite (Hk p Hp).
    cbn [fst snd global_step student_w student_optimizer fake_w fake_optimizer
         files trace].
    repeat split. now destruct (load_state E (snd p) _) as [[? ?] [? ?]].
Qed.

Lemma resume_latest_restores_largest_step_witness :
  global_step
    (snd (resume Demo.E
            (Demo.args_resuming "latest")
            (Demo.state 0 ["checkpoint-10"; "readme"; "checkpoint-9"]%string)))
  = 10%Z.
Proof.
  destruct (resume_latest_restores_largest_step Demo.E
              (Demo.args_resuming "latest")
              (Demo.state 0 ["checkpoint-10"; "readme"; "checkpoint-9"]%string)
              eq_refl) as [_ H].
  - repeat constructor; eexists; reflexivity.
  - destruct H as [d [k [_ [_ [_ [_ [_ [Hstep _]]]]]]]]; [discriminate|].
    reflexivity.
Defined.

(** ** The step counter and the saves of one pass *)

Lemma checkpoint_block_run E args acc (st : State E) :
  let st1 := snd (set_global_step E (global_step st + 1) st) in
  checkpoint_block E args acc st
  = if sync_gradients acc then
      if is_main_process acc then
        if (checkpointing_steps args =? 0)%Z then (Raise ZeroDivisionError, st1)
        else if ((global_step st + 1) mod checkpointing_steps args =? 0)%Z
             then save_checkpoint E args st1
             else (Ok tt, st1)
      else (Ok tt, st1)
    else (Ok tt, st).
Proof.
  cbv zeta. unfold checkpoint_block.
  destruct (sync_gradients acc); [|reflexivity].
  unfold mbind at 1. cbn [increment_global_step mbind get set_global_step].
  destruct (is_main_process acc); [|reflexivity].
  rewrite run_bind_get. cbn [global_step]. unfold PyStr.mod_.
  destruct (checkpointing_steps args =? 0)%Z; rewrite run_bind_lift; [reflexivity|].
  destruct ((global_step st + 1) mod checkpointing_steps args =? 0)%Z; reflexivity.
Qed.

(** X24: when a pass writes a checkpoint.  A [save_state] that lines 441 to
    466 add to the trace is made by the main process, on a pass that
    synchronised gradients, at a step counter that was just incremented and
    is a multiple of [checkpointing_steps], and under the name
    [checkpoint-<that step>]. *)
Theorem checkpoint_written_only_at_multiples :
  forall (E : Externals) (args : Args) (acc : Accelerator) (st : State E)
         (name : string),
    ~ In (SaveState name) (trace st) ->
    In (SaveState name) (trace (snd (checkpoint_block E args acc st))) ->
    sync_gradients acc = true
    /\ is_main_process acc = true
    /\ checkpointing_steps args <> 0%Z
    /\ ((global_step st + 1) mod checkpointing_steps args = 0)%Z
    /\ name = ("checkpoint-" ++ PyStr.str (global_step st + 1))%string
    /\ global_step (snd (checkpoint_block E args acc st)) = (global_step st + 1)%Z.
Proof.
  intros E args acc st name Hold Hnew.
  pose proof (checkpoint_block_run E args acc st) as Hrun. cbv zeta in Hrun.
  rewrite Hrun in *. clear Hrun.
  destruct (sync_gradients acc); [|contradiction].
  destruct (is_main_process acc); [|contradiction].
  destruct (Z.eqb_spec (checkpointing_steps args) 0) as [|Hsteps]; [contradiction|].
  destruct (Z.eqb_spec ((global_step st + 1) mod checkpointing_steps args) 0)
    as [Hmod|]; [|contradiction].
  repeat (split; [auto; fail|]).
  set (st1 := snd (set_global_step E (global_step st + 1) st)) in *.
  pose proof (save_checkpoint_run E args st1) as Hsave. cbv zeta in Hsave.
  assert (Hstep : global_step (snd (save_checkpoint E args st1)) = global_step st1).
  { unfold save_checkpoint. rewrite run_bind_get.
    destruct (checkpoints_total_limit args) as [limit|]; [|reflexivity].
    unfold mbind at 1. rewrite run_bind_lift.
    destruct (removing_checkpoints limit (files st1)); reflexivity. }
  split; [|exact Hstep].
  assert (Hcases : In (SaveState name)
                      (trace st1 ++ [SaveState ("checkpoint-" ++ PyStr.str (global_step st1))])
                   \/ exists removing,
                       In (SaveState name)
                          (trace st1 ++ map RemoveTree removing
                             ++ [SaveState ("checkpoint-" ++ PyStr.str (global_step st1))])).
  { destruct (checkpoints_total_limit args) as [limit|].
    - destruct (removing_checkpoints limit (files st1)) as [removing|e].
      + destruct Hsave as (_ & _ & Ht). rewrite Ht in Hnew. right. now exists removing.
      + rewrite Hsave in Hnew. contradiction.
    - destruct Hsave as (_ & _ & Ht). rewrite Ht in Hnew. now left. }
  change (trace st1) with (trace st) in Hcases.
  change (global_step st1) with (global_step st + 1)%Z in Hcases.
  destruct Hcases as [H|[removing H]]; rewrite !in_app_iff in H.
  - destruct H as [H|[H|[]]]; [contradiction|]. now inversion H.
  - destruct H as [H|[H|[H|[]]]]; [contradiction | | now inversion H].
    apply in_map_iff in H. destruct H as [x [Hx _]]. discriminate.
Qed.

Lemma checkpoint_written_only_at_multiples_witness :
  In (SaveState "checkpoint-30")
     (trace (snd (checkpoint_block Demo.E (Demo.args None None) Demo.accelerator
                    (Demo.state 29 ["checkpoint-10"]%string))))
  /\ global_step (snd (checkpoint_block Demo.E (Demo.args None None)
                         Demo.accelerator (Demo.state 29 ["checkpoint-10"]%string)))
     = 30%Z.
Proof.
  assert (Hin : In (SaveState "checkpoint-30")
                   (trace (snd (checkpoint_block Demo.E (Demo.args None None)
                                  Demo.accelerator
                                  (Demo.state 29 ["checkpoint-10"]%string)))))
    by (simpl; auto).
  split; [exact Hin|].
  apply (checkpoint_written_only_at_multiples
           Demo.E (Demo.args None None) Demo.accelerator
           (Demo.state 29 ["checkpoint-10"]%string) "checkpoint-30"%string).
  - simpl. auto.
  - exact Hin.
Defined.

(** X25: [--checkpointing_steps 0].  On the main process the test
    [global_step % args.checkpointing_steps == 0] of line 445 then divides
    by zero: no pass of the loop returns, and a pass whose two training
    phases went through raises [ZeroDivisionError] after both optimizers
    have stepped and the step counter was incremented, with nothing
    logged. *)
Theorem zero_checkpointing_steps_never_completes_a_pass :
  forall (E : Externals) (args : Args) (acc : Accelerator)
         (noise_scheduler : Scheduler) (b : Batch) (st : State E),
    sync_gradients acc = true ->
    is_main_process acc = true ->
    checkpointing_steps args = 0%Z ->
    exists e st',
      train_iteration E args acc noise_scheduler b st = (Raise e, st')
      /\ forall r st1 loss_d st2,
          train_student E args acc noise_scheduler b st = (Ok r, st1) ->
          train_fake E args acc noise_scheduler (fst (fst r)) (snd (fst r)) b st1
          = (Ok loss_d, st2) ->
          e = ZeroDivisionError
          /\ global_step st' = (global_step st2 + 1)%Z
          /\ trace st'
             = (trace st ++ [OptimizerStep Student; OptimizerStep Fake])%list.
Proof.
  intros E args acc s b st Hsync Hmain Hsteps.
  unfold train_iteration. unfold mbind at 1.
  pose proof (train_student_trace E args acc s b st) as T1.
  destruct (train_student E args acc s b st) as [[r|e] st1] eqn:Hs.
  2:{ exists e, st1. split; [reflexivity|]. intros ? ? ? ? H. discriminate H. }
  unfold mbind at 1.
  pose proof (train_fake_trace E args acc s (fst (fst r)) (snd (fst r)) b st1) as T2.
  destruct (train_fake E args acc s (fst (fst r)) (snd (fst r)) b st1)
    as [[loss_d|e] st2] eqn:Hf.
  2:{ exists e, st2. split; [reflexivity|]. intros r' st1' loss_d' st2' H H'.
      inversion H; subst r' st1'. rewrite Hf in H'. discriminate H'. }
  unfold mbind at 1.
  pose proof (checkpoint_block_run E args acc st2) as Hrun. cbv zeta in Hrun.
  rewrite Hsync, Hmain, Hsteps in Hrun. cbn [Z.eqb] in Hrun. rewrite Hrun.
  eexists. eexists. split; [reflexivity|].
  intros r' st1' loss_d' st2' H H'. inversion H; subst r' st1'.
  rewrite Hf in H'. inversion H'; subst loss_d' st2'.
  split; [reflexivity|]. split; [reflexivity|].
  cbn [set_global_step snd trace]. rewrite T2, T1. now rewrite <- app_assoc.
Qed.

(** ** The checkpoint hooks of [setup_model_saving] *)

Lemma length_removelast' {A} (l : list A) :
  length (removelast l) = (length l - 1)%nat.
Proof.
  induction l as [|a l IH]; [reflexivity|].
  destruct l as [|b l]; [reflexivity|].
  change (removelast (a :: b :: l)) with (a :: removelast (b :: l)).
  cbn [length] in *. rewrite IH. lia.
Qed.

Lemma last_default {A} (l : list A) d d' : l <> [] -> last l d = last l d'.
Proof.
  induction l as [|a l IH]; [contradiction|]. intros _.
  destruct l as [|b l]; [reflexivity|].
  change (last (a :: b :: l) d) with (last (b :: l) d).
  change (last (a :: b :: l) d') with (last (b :: l) d').
  apply IH. discriminate.
Qed.

Section HookProperties.

Import ModelSaving.

Context {W : Type}.

Lemma save_models_ok (store : @Store W) models weights dir :
  (length models <= length weights)%nat ->
  exists dir' weights',
    save_models store models weights dir = (None, (dir', weights'))
    /\ length weights' = (length weights - length models)%nat
    /\ (forall f, f <> "unet"%string -> dir' f = dir f)
    /\ dir' "unet"%string
       = match models with
         | [] => dir "unet"%string
         | m :: _ => Some (store (last models m))
         end.
Proof.
  revert weights dir. induction models as [|m models IH]; intros weights dir Hlen.
  - exists dir, weights. cbn. repeat split. lia.
  - cbn [save_models]. destruct weights as [|w weights]; [cbn in Hlen; lia|].
    destruct (IH (removelast (w :: weights))
                 (save_pretrained "unet" (store m) dir)) as [dir' [ws' [H1 [H2 [H3 H4]]]]].
    { rewrite length_removelast'. cbn [length] in *. lia. }
    exists dir', ws'. split; [exact H1|]. split.
    { rewrite H2, length_removelast'. cbn [length]. lia. }
    split.
    + intros f Hf. rewrite (H3 f Hf). unfold save_pretrained.
      destruct (String.eqb_spec f "unet"); [contradiction | reflexivity].
    + rewrite H4. destruct models as [|m' models]; [reflexivity|].
      change (last (m :: m' :: models) m) with (last (m' :: models) m).
      now rewrite (last_default (m' :: models) m' m).
Qed.

Lemma load_models_ok n : forall (models : list net) (dir : @Folders W) store w,
  length models = n ->
  dir "unet"%string = Some w ->
  exists store',
    load_models n models dir store = (None, (store', []))
    /\ forall m, store' m = if existsb (net_eqb m) models then w else store m.
Proof.
  induction n as [|n IH]; intros models dir store w Hlen Hunet.
  - destruct models; [|discriminate]. exists store. split; reflexivity.
  - destruct (exists_last (l := models)) as [init [lst ->]].
    { intros ->. discriminate. }
    cbn [load_models]. rewrite rev_unit, Hunet, removelast_last.
    destruct (IH init dir (load_state_dict lst w store) w) as [store' [H1 H2]].
    { rewrite length_app in Hlen. cbn in Hlen. lia. }
    { exact Hunet. }
    exists store'. split; [exact H1|].
    intros m. rewrite H2, existsb_app. cbn [existsb]. unfold load_state_dict.
    destruct (existsb (net_eqb m) init); [reflexivity|].
    cbn [orb]. now rewrite orb_false_r.
Qed.

Lemma existsb_net_In m (models : list net) :
  existsb (net_eqb m) models = true <-> In m models.
Proof.
  rewrite existsb_exists. split.
  - intros [x [Hx Heq]]. destruct m, x; try discriminate; exact Hx.
  - intros H. exists m. split; [exact H | now destruct m].
Qed.

(** X26: what a checkpoint keeps of the networks.  [save_model_hook]
    writes every prepared model to the same folder ["unet"], so the folder
    holds the last one only, and [load_model_hook] loads that folder into
    every prepared model.  After a save and a load, each prepared network
    holds the parameters the last prepared network had when the checkpoint
    was saved.  For the list [[fake_unet, student_unet]] of lines 314 to
    320, the student is restored and the fake network comes back with the
    parameters of the student. *)
Theorem checkpoint_hooks_restore_last_model_only :
  forall (student_unet : net) (store0 store1 : @Store W) (models : list net)
         (weights : list W) (dir : Folders),
    models <> [] ->
    (length models <= length weights)%nat ->
    exists dir' weights' store',
      save_model_hook true student_unet store0 models weights dir
      = (None, (dir', weights'))
      /\ length weights' = (length weights - length models)%nat
      /\ dir' "student_unet"%string = Some (store0 student_unet)
      /\ load_model_hook student_unet store1 models dir' = (None, (store', []))
      /\ (forall m, In m models -> store' m = store0 (last models student_unet))
      /\ (~ In student_unet models -> store' student_unet = store0 student_unet)
      /\ (forall m, ~ In m models -> m <> student_unet -> store' m = store1 m).
Proof.
  intros student store0 store1 models weights dir Hne Hlen.
  unfold save_model_hook.
  destruct (save_models_ok store0 models weights
              (save_pretrained "student_unet" (store0 student) dir) Hlen)
    as [dir' [ws' [H1 [H2 [H3 H4]]]]].
  assert (Hstudent : dir' "student_unet"%string = Some (store0 student)).
  { rewrite H3 by discriminate. reflexivity. }
  assert (Hunet : dir' "unet"%string = Some (store0 (last models student))).
  { rewrite H4. destruct models as [|m models]; [contradiction|].
    now rewrite (last_default (m :: models) m student). }
  destruct (load_models_ok (length models) models dir'
              (load_state_dict student (store0 student) store1)
              (store0 (last models student)) eq_refl Hunet) as [store' [L1 L2]].
  exists dir', ws', store'.
  split; [exact H1|]. split; [exact H2|]. split; [exact Hstudent|].
  split; [unfold load_model_hook; rewrite Hstudent; exact L1|]. split; [|split].
  - intros m Hm. rewrite L2.
    now rewrite (proj2 (existsb_net_In m models) Hm).
  - intros Hnot. rewrite L2.
    destruct (existsb (net_eqb student) models) eqn:Hx.
    + apply existsb_net_In in Hx. contradiction.
    + unfold load_state_dict. now destruct student.
  - intros m Hnot Hm. rewrite L2.
    destruct (existsb (net_eqb m) models) eqn:Hx.
    + apply existsb_net_In in Hx. contradiction.
    + unfold load_state_dict.
      destruct m, student; try reflexivity; now contradiction Hm.
Qed.

End HookProperties.

Lemma checkpoint_hooks_restore_last_model_only_witness :
  exists dir' weights' store',
    ModelSaving.save_model_hook true Student (Demo.numbered 0 1 2)
      [Fake; Student] [1; 2]%nat Demo.empty_dir
    = (None, (dir', weights'))
    /\ ModelSaving.load_model_hook Student (Demo.numbered 0 7 8)
         [Fake; Student] dir'
       = (None, (store', []))
    /\ store' Fake = 2%nat /\ store' Student = 2%nat /\ store' Teacher = 0%nat.
Proof.
  destruct (checkpoint_hooks_restore_last_model_only
              Student (Demo.numbered 0 1 2) (Demo.numbered 0 7 8)
              [Fake; Student] [1; 2]%nat Demo.empty_dir)
    as (dir' & ws' & store' & H1 & _ & _ & H4 & H5 & _ & H7).
  - discriminate.
  - simpl. lia.
  - exists dir', ws', store'. split; [exact H1|]. split; [exact H4|].
    split; [apply (H5 Fake); simpl; auto|].
    split; [apply (H5 Student); simpl; auto|].
    apply (H7 Teacher); [simpl; intros [H|[H|[]]]; discriminate H | discriminate].
Defined.

(** ** SNR weighting and the size of the loss *)

Lemma sq_diff_flatten sh n (x y : tensor n) :
  shape_ok sh n x = true -> shape_ok sh n y = true ->
  all_finite n x = true -> all_finite n y = true ->
  exists ds,
    flatten n (tmap (fun v => nmul v v) n (tmap2 nsub n x y)) = map Finite ds
    /\ Forall (fun d => 0 <= d)%R ds.
Proof.
  revert sh x y. induction n as [|k IH]; intros sh x y Sx Sy Fx Fy.
  - destruct x as [a|]; [|discriminate]. destruct y as [b|]; [|discriminate].
    exists [((a - b) * (a - b))%R]. split; [reflexivity|].
    constructor; [apply Rle_0_sqr | constructor].
  - destruct sh as [|d sh]; [discriminate|].
    apply shape_ok_S in Sx. apply shape_ok_S in Sy.
    destruct Sx as [Lx Sx], Sy as [Ly Sy]. rewrite <- Ly in Lx. clear Ly d.
    cbn [all_finite] in Fx, Fy. cbn [tmap tmap2 flatten].
    revert y Lx Sy Fy. induction x as [|x0 x IHx]; intros [|y0 y] Lx Sy Fy;
      try discriminate.
    + exists []. repeat split; constructor.
    + cbn [forallb] in Fx, Fy. apply andb_true_iff in Fx, Fy.
      destruct Fx as [Fx0 Fx], Fy as [Fy0 Fy].
      inversion Sx as [|? ? Sx0 Sx']; subst. inversion Sy as [|? ? Sy0 Sy']; subst.
      destruct (IH sh x0 y0 Sx0 Sy0 Fx0 Fy0) as [ds0 [E0 P0]].
      destruct (IHx Sx' Fx y (f_equal pred Lx) Sy' Fy) as [ds [E1 P1]].
      exists (ds0 ++ ds)%list. cbn [zip_with map flat_map].
      rewrite E0, E1, map_app. split; [reflexivity|].
      apply Forall_app; auto.
Qed.

(** The squared errors of a batch, sample by sample. *)
Lemma sq_diff_rows B sh (x y : tensor 4) :
  shape_ok (B :: sh) 4 x = true -> shape_ok (B :: sh) 4 y = true ->
  all_finite 4 x = true -> all_finite 4 y = true ->
  exists qss : list (list R),
    map (flatten 3) (tmap (fun v => nmul v v) 4 (tmap2 nsub 4 x y))
    = map (map Finite) qss
    /\ length qss = B
    /\ Forall (fun qs => length qs = fold_right Nat.mul 1%nat sh) qss
    /\ Forall (Forall (fun d => 0 <= d)%R) qss.
Proof.
  intros Sx Sy Fx Fy.
  apply shape_ok_S in Sx. apply shape_ok_S in Sy.
  destruct Sx as [Lx Sx], Sy as [Ly Sy]. subst B.
  change (tmap (fun v => nmul v v) 4 (tmap2 nsub 4 x y))
    with (map (tmap (fun v => nmul v v) 3) (zip_with (tmap2 nsub 3) x y)).
  revert y Ly Sy Fy. induction x as [|x0 x IHx]; intros [|y0 y] Ly Sy Fy;
    try discriminate.
  - exists []. repeat split; constructor.
  - rewrite all_finite_cons in Fx, Fy. apply andb_true_iff in Fx, Fy.
    destruct Fx as [Fx0 Fx], Fy as [Fy0 Fy].
    inversion Sx as [|? ? Sx0 Sx']; subst. inversion Sy as [|? ? Sy0 Sy']; subst.
    destruct (sq_diff_flatten sh 3 x0 y0 Sx0 Sy0 Fx0 Fy0) as [ds0 [E0 P0]].
    destruct (IHx Sx' Fx y (f_equal pred Ly) Sy' Fy) as [qss [E1 [L1 [M1 P1]]]].
    exists (ds0 :: qss). cbn [zip_with map]. rewrite E0, E1.
    split; [reflexivity|]. split; [cbn [length]; now rewrite L1|].
    split; [|now constructor].
    constructor; [|exact M1].
    rewrite <- (length_map Finite ds0), <- E0.
    apply flatten_length. rewrite tmap_shape. now apply tmap2_shape.
Qed.

Lemma finite_list (P : R -> Prop) (l : list num) :
  Forall (fun v => exists r, v = Finite r /\ P r) l ->
  exists rs, l = map Finite rs /\ Forall P rs.
Proof.
  induction 1 as [|v l [r [-> Hr]] _ [rs [-> Hrs]]].
  - exists []. split; [reflexivity | constructor].
  - exists (r :: rs). split; [reflexivity | now constructor].
Qed.

Lemma zip_with_map_map {A A' B B' C} (g : A' -> B' -> C) (f : A -> A')
    (h : B -> B') xs ys :
  zip_with g (map f xs) (map h ys) = zip_with (fun x y => g (f x) (h y)) xs ys.
Proof.
  revert ys. induction xs as [|x xs IH]; intros [|y ys]; simpl; try reflexivity.
  now rewrite IH.
Qed.

Lemma weighted_sum_le (qss : list (list R)) (cs : list R) m :
  (0 < m)%R ->
  Forall (Forall (fun d => 0 <= d)%R) qss ->
  Forall (fun c => 0 < c <= 1)%R cs ->
  (0 <= rsum (zip_with (fun qs c => rsum qs / m * c) qss cs)
   <= rsum (map rsum qss) / m)%R.
Proof.
  intros Hm Hq. revert cs. induction Hq as [|qs qss Hqs _ IH]; intros cs Hc.
  - cbn. unfold Rdiv. rewrite Rmult_0_l. lra.
  - assert (Hs : (0 <= rsum qs / m)%R).
    { apply Rmult_le_pos; [now apply sum_nonneg|].
      left. now apply Rinv_0_lt_compat. }
    assert (Hrest : (0 <= rsum (map rsum qss) / m)%R).
    { destruct (IH []) as [_ H]; [constructor|]. cbn in H.
      destruct qss; exact H. }
    destruct cs as [|c cs].
    + cbn [zip_with rsum fold_right map].
      change (fold_right Rplus 0%R (map rsum qss)) with (rsum (map rsum qss)).
      unfold Rdiv in *. rewrite Rmult_plus_distr_r. lra.
    + inversion Hc as [|? ? Hc0 Hc']; subst.
      destruct (IH cs Hc') as [I1 I2].
      cbn [zip_with rsum fold_right map].
      change (fold_right Rplus 0%R (map rsum qss)) with (rsum (map rsum qss)).
      change (fold_right Rplus 0%R
                (zip_with (fun qs0 c0 => rsum qs0 / m * c0) qss cs))%R
        with (rsum (zip_with (fun qs0 c0 => rsum qs0 / m * c0) qss cs))%R.
      unfold Rdiv in *. rewrite Rmult_plus_distr_r. nra.
Qed.

(** X27: SNR weighting never increases the loss of the fake network.  On
    finite predictions and targets, with positive signal-to-noise ratios and
    a positive [snr_gamma], the weighted loss of lines 417 to 431 is a
    finite number between 0 and the plain mean squared error of line 416. *)
Theorem snr_weighting_never_increases_loss :
  forall (E : Externals) (args : Args) (noise_scheduler : Scheduler)
         (model_pred target : var 4) (timesteps : list Z) (gamma : R) B sh,
    snr_gamma args = Some gamma ->
    (0 < gamma)%R ->
    (0 < B)%nat ->
    fold_right Nat.mul 1%nat sh <> 0%nat ->
    shape_ok (B :: sh) 4 (data model_pred) = true ->
    shape_ok (B :: sh) 4 (data target) = true ->
    all_finite 4 (data model_pred) = true ->
    all_finite 4 (data target) = true ->
    length timesteps = B ->
    length (effective_snr E noise_scheduler timesteps) = B ->
    Forall (fun v => exists r, v = Finite r /\ (0 < r)%R)
           (effective_snr E noise_scheduler timesteps) ->
    exists weighted unweighted rw ru,
      fake_loss E args noise_scheduler model_pred target timesteps = Ok weighted
      /\ mse_loss model_pred target = Ok unweighted
      /\ data (fst weighted) = Finite rw
      /\ data unweighted = Finite ru
      /\ (0 <= rw <= ru)%R.
Proof.
  intros E args s mp tg ts gamma B sh Hg Hgamma HB Hsize Sm St Fm Ft Lt Ls Hsnr.
  destruct (fake_loss_weighted_eq E args s mp tg ts gamma B sh Hg Sm St Lt Ls)
    as [_ [_ Hloss]]. cbv zeta in Hloss.
  destruct (sq_diff_rows B sh _ _ Sm St Fm Ft) as [qss [Eq [Lq [Mq Pq]]]].
  destruct (finite_list _ _ Hsnr) as [rs [Ers Prs]].
  set (m := fold_right Nat.mul 1%nat sh) in *.
  assert (Hm : (0 < INR m)%R) by (apply lt_0_INR; lia).
  assert (HBr : (0 < INR B)%R) by (apply lt_0_INR; lia).
  set (cs := map (fun r => Rmin r gamma / r)%R rs).
  assert (Pcs : Forall (fun c => 0 < c <= 1)%R cs).
  { unfold cs. apply Forall_map. eapply Forall_impl; [|exact Prs].
    intros r Hr. cbv beta. now destruct (snr_weight_range r gamma Hr Hgamma) as (_ & H & _). }
  assert (Ew : map (fun v => ndiv (nmin v (Finite gamma)) v)
                   (effective_snr E s ts) = map Finite cs).
  { rewrite Ers. unfold cs. rewrite !map_map. apply map_ext_in. intros r Hr.
    rewrite Forall_forall in Prs.
    now destruct (snr_weight_range r gamma (Prs r Hr) Hgamma) as (H & _). }
  assert (Ep : map (fun r : tensor 3 => nmean (flatten 3 r))
                   (tmap (fun v => nmul v v) 4 (tmap2 nsub 4 (data mp) (data tg)))
               = map (fun qs => Finite (rsum qs / INR m)) qss).
  { rewrite <- (map_map (flatten 3) nmean), Eq, map_map.
    apply map_ext_in. intros qs Hqs. rewrite Forall_forall in Mq.
    pose proof (Mq qs Hqs) as Hl.
    rewrite nmean_finite by (intros ->; cbn in Hl; lia). now rewrite Hl. }
  rewrite Ew, Ep in Hloss. rewrite zip_with_map_map in Hloss.
  cbn [nmul lift2] in Hloss.
  rewrite <- (map_zip_with Finite (fun qs c => rsum qs / INR m * c)%R) in Hloss.
  assert (Lz : length (zip_with (fun qs c => rsum qs / INR m * c)%R qss cs) = B).
  { rewrite zip_with_length; [exact Lq|].
    unfold cs. rewrite length_map.
    apply (f_equal (@length num)) in Ers. rewrite length_map in Ers. congruence. }
  rewrite nmean_finite in Hloss
    by (intros Hnil; rewrite Hnil in Lz; cbn in Lz; lia).
  rewrite Lz in Hloss.
  assert (Hu : mse_loss mp tg
               = Ok (Var (n := 0)
                       (Finite (rsum (map rsum qss) / INR (B * m)))
                       (graph mp ++ graph tg))).
  { unfold mse_loss.
    rewrite (bcast2_same_shape nsub (B :: sh) 4 _ _ Sm St). cbn [Py.bind].
    change (flatten 4 ?t) with (flat_map (flatten 3) t).
    rewrite flat_map_concat_map, Eq, <- concat_map.
    rewrite nmean_finite.
    - rewrite (length_concat_rect _ _ Mq), Lq, rsum_concat. reflexivity.
    - intros Hnil. apply (f_equal (@length R)) in Hnil.
      rewrite (length_concat_rect _ _ Mq), Lq in Hnil. cbn in Hnil. nia. }
  destruct (weighted_sum_le qss cs (INR m) Hm Pq Pcs) as [W1 W2].
  eexists. eexists. eexists. eexists.
  split; [exact Hloss|]. split; [exact Hu|]. cbn [fst data].
  split; [reflexivity|]. split; [reflexivity|].
  rewrite mult_INR. split.
  - apply Rmult_le_pos; [exact W1|]. left. now apply Rinv_0_lt_compat.
  - replace (rsum (map rsum qss) / (INR B * INR m))%R
      with (rsum (map rsum qss) / INR m / INR B)%R by (field; lra).
    unfold Rdiv at 1 3. apply Rmult_le_compat_r; [|exact W2].
    left. now apply Rinv_0_lt_compat.
Qed.

Lemma snr_weighting_never_increases_loss_witness :
  exists weighted unweighted rw ru,
    fake_loss Demo.E (Demo.args (Some (1 / 2)%R) None)
              (Demo.scheduler 1 "epsilon" [Finite (1 / 4)])
              (const (Demo.two 1 2)) (const (Demo.two 3 5)) [0%Z; 0%Z]
    = Ok weighted
    /\ mse_loss (const (Demo.two 1 2)) (const (Demo.two 3 5)) = Ok unweighted
    /\ data (fst weighted) = Finite rw
    /\ data unweighted = Finite ru
    /\ (0 <= rw <= ru)%R.
Proof.
  apply (snr_weighting_never_increases_loss
           Demo.E (Demo.args (Some (1 / 2)%R) None)
           (Demo.scheduler 1 "epsilon" [Finite (1 / 4)])
           (const (Demo.two 1 2)) (const (Demo.two 3 5)) [0%Z; 0%Z] (1 / 2)%R
           2%nat [1; 1; 1]%nat); try reflexivity; try lra; try lia.
  - simpl. lia.
  - repeat constructor; exists 1%R; split; try reflexivity; lra.
Defined.

(** ** A student pass that goes through *)

Lemma generate_eq (unet : Unet) (s : Scheduler) (latents : var 4) (pe : var 3)
    B sh (np : tensor 4) (a : num) :
  shape_ok (B :: sh) 4 (data latents) = true ->
  forward unet (data latents) (repeat (num_train_timesteps s - 1)%Z B) (data pe)
  = Ok np ->
  shape_ok (B :: sh) 4 np = true ->
  getitem (alphas_cumprod s) (num_train_timesteps s - 1) = Ok a ->
  generate unet s latents pe
  = Ok (Var (n := 4) (tmap2 (pred_clean a) 4 np (data latents))
            ((graph latents ++ [] ++
                ((if requires_grad unet then [owner unet] else [])
                   ++ graph latents ++ graph pe)) ++ [])).
Proof.
  intros Hx Hfwd Hnp Ha.
  pose proof (proj1 (shape_ok_S _ _ _ _) Hx) as [Lx _].
  pose proof (proj1 (shape_ok_S _ _ _ _) Hnp) as [Lnp _].
  unfold generate. cbv zeta. rewrite Lx.
  unfold call_unet. rewrite Hfwd. cbn [Py.bind].
  rewrite (eps_to_mu_eq s 3 B sh _ latents _ (repeat a B));
    [ | exact Hx | exact Hnp | apply repeat_length
      | now apply index_select_repeat ].
  cbn [data graph]. unfold epsilon_to_sample. rewrite <- Lnp.
  rewrite (zip3_with_repeat (fun a0 e x => tmap2 (pred_clean a0) 3 e x)).
  reflexivity.
Qed.

Lemma shape_ok_app B1 B2 sh n (x y : tensor (S n)) :
  shape_ok (B1 :: sh) (S n) x = true -> shape_ok (B2 :: sh) (S n) y = true ->
  shape_ok ((B1 + B2)%nat :: sh) (S n) (@app (tensor n) x y) = true.
Proof.
  intros Sx Sy. apply shape_ok_S in Sx, Sy.
  destruct Sx as [Lx Fx], Sy as [Ly Fy]. apply shape_ok_S. split.
  - rewrite length_app. now rewrite Lx, Ly.
  - apply Forall_app. now split.
Qed.

Lemma Forall_halves {A} (P : A -> Prop) B (y : list A) :
  length y = (B + B)%nat -> Forall P y ->
  length (firstn B y) = B /\ length (skipn B y) = B
  /\ Forall P (firstn B y) /\ Forall P (skipn B y).
Proof.
  intros Ly Fy. rewrite length_firstn, length_skipn, Ly.
  rewrite <- (firstn_skipn B y) in Fy. apply Forall_app in Fy.
  repeat split; try tauto; lia.
Qed.

Lemma shape_ok_halves B sh n (y : tensor (S n)) :
  shape_ok ((B + B)%nat :: sh) (S n) y = true ->
  exists u t : tensor (S n),
    y = @app (tensor n) u t
    /\ shape_ok (B :: sh) (S n) u = true /\ shape_ok (B :: sh) (S n) t = true.
Proof.
  intros Sy. apply shape_ok_S in Sy. destruct Sy as [Ly Fy].
  destruct (Forall_halves _ B (y : list (tensor n)) Ly Fy) as (L1 & L2 & F1 & F2).
  exists (@firstn (tensor n) B y), (@skipn (tensor n) B y).
  split; [symmetry; apply (@firstn_skipn (tensor n))|].
  split; apply shape_ok_S; split; assumption.
Qed.

(** The student pass on well-shaped inputs. *)
Lemma train_student_returns :
  forall (E : Externals) (args : Args) (acc : Accelerator)
         (noise_scheduler : Scheduler) (b : Batch) (st : State E)
         B1 B2 sh (a : num) (alpha_prod : list num),
    (forall w x t e sh',
        shape_ok sh' 4 x = true ->
        exists y, unet_forward E w x t e = Ok y /\ shape_ok sh' 4 y = true) ->
    (forall x, exists y, vae_decode E x = Ok y) ->
    (forall x y, exists l, lpips E x y = Ok l) ->
    (forall x,
        shape_ok ((B1 + B2)%nat :: sh) 4 x = true ->
        exists noisy,
          add_noise noise_scheduler x (dm_noise b) (dm_timestep b) = Ok noisy
          /\ shape_ok ((B1 + B2)%nat :: sh) 4 noisy = true) ->
    getitem (alphas_cumprod noise_scheduler)
            (num_train_timesteps noise_scheduler - 1) = Ok a ->
    index_select (alphas_cumprod noise_scheduler) (dm_timestep b) = Ok alpha_prod ->
    (py_int (IZR (num_train_timesteps noise_scheduler) * min_dm_step_ratio args)
     < py_int (IZR (num_train_timesteps noise_scheduler) * max_dm_step_ratio args))%Z ->
    shape_ok (B1 :: sh) 4 (z b) = true ->
    shape_ok (B2 :: sh) 4 (latents_ref b) = true ->
    (0 < B1 + B2)%nat ->
    length (dm_timestep b) = (B1 + B2)%nat ->
    student_grad st = None ->
    exists latents_pred_cat prompt_embeds loss_g st',
      train_student E args acc noise_scheduler b st
      = (Ok (latents_pred_cat, prompt_embeds, loss_g), st')
      /\ shape_ok ((B1 + B2)%nat :: sh) 4 (data latents_pred_cat) = true
      /\ trace st' = (trace st ++ [OptimizerStep Student])%list
      /\ student_grad st' = None
      /\ (student_w st', student_optimizer st')
         = (let g := autograd E Student loss_g in
            let g := if sync_gradients acc
                     then clip_grad_norm E (max_grad_norm args) g else g in
            let wo := adamw_step E (student_optimizer st) (student_w st) g in
            (fst wo, lr_step E (snd wo))).
Proof.
  intros E args acc s b st B1 B2 sh a alphas
         Hfwd Hvae Hlpips Hadd Ha Hidx Hrange Sz Sref HB Lt Hgrad.
  (* the two generations *)
  destruct (Hfwd (student_w st) (z b)
              (repeat (num_train_timesteps s - 1)%Z B1)
              (text_encode E (prompts b)) _ Sz) as [np1 [F1 S1]].
  destruct (Hfwd (student_w st) (latents_ref b)
              (repeat (num_train_timesteps s - 1)%Z B2)
              (text_encode E (prompts_ref b)) _ Sref) as [np2 [F2 S2]].
  pose proof (generate_eq (student_unet E st) s (prepare_latents (z b))
                (encode_prompt (prompts b) (text_encode E)) B1 sh np1 a
                Sz F1 S1 Ha) as G1.
  pose proof (generate_eq (student_unet E st) s (const (n := 4) (latents_ref b))
                (encode_prompt (prompts_ref b) (text_encode E)) B2 sh np2 a
                Sref F2 S2 Ha) as G2.
  cbn [student_unet requires_grad owner prepare_latents encode_prompt const
       data graph app] in G1, G2.
  set (lp := Var (n := 4) (tmap2 (pred_clean a) 4 np1 (z b)) [Student]) in *.
  set (lrp := Var (n := 4) (tmap2 (pred_clean a) 4 np2 (latents_ref b)) [Student]) in *.
  assert (Slp : shape_ok (B1 :: sh) 4 (data lp) = true) by now apply tmap2_shape.
  assert (Slrp : shape_ok (B2 :: sh) 4 (data lrp) = true) by now apply tmap2_shape.
  set (lpc := cat (n := 3) lp lrp).
  assert (Slpc : shape_ok ((B1 + B2)%nat :: sh) 4 (data lpc) = true)
    by (apply shape_ok_app; assumption).
  set (pe := cat (n := 2) (encode_prompt (prompts b) (text_encode E))
                 (encode_prompt (prompts_ref b) (text_encode E))).
  set (npe := encode_prompt
                (repeat EmptyString (length (prompts b ++ prompts_ref b)))
                (text_encode E)).
  (* the distribution matching loss *)
  destruct (Hadd (data lpc) Slpc) as [noisy [Hnoisy Sn]].
  destruct (Hfwd (fake_w st) noisy (dm_timestep b) (data pe) _ Sn) as [ef [Ff Sf]].
  assert (Sdouble : shape_ok (((B1 + B2) + (B1 + B2))%nat :: sh) 4
                      (@app (tensor 3) noisy noisy) = true)
    by (apply shape_ok_app; assumption).
  destruct (Hfwd (teacher_w st) (@app (tensor 3) noisy noisy)
              (dm_timestep b ++ dm_timestep b)%list
              (@app (tensor 2) (data npe) (data pe)) _ Sdouble) as [er [Fr Sr]].
  destruct (shape_ok_halves _ _ _ _ Sr) as [eu [et [Er [Su St]]]]. subst er.
  pose proof (dm_estimates_eq (real_unet E st) (fake_unet E st) s lpc pe npe args
                (dm_timestep b) (dm_noise b) (B1 + B2)%nat sh noisy alphas ef eu et
                Hrange HB Lt Hidx Hnoisy Sn Ff Sf Fr Su St) as Hest.
  pose proof (mapM_length _ _ _ Hidx) as La. rewrite Lt in La.
  destruct (dm_loss_eq (real_unet E st) (fake_unet E st) s lpc pe npe args
              (dm_timestep b) (dm_noise b) _ _ (B1 + B2)%nat sh Hest Slpc)
    as [_ Hkl]; cbn [data].
  { now apply epsilon_to_sample_shape. }
  { apply epsilon_to_sample_shape; auto. now apply tmap2_shape. }
  cbn [data] in Hkl.
  (* the perceptual loss *)
  destruct (Hvae (tmap (fun v => ndiv v (Finite (vae_scaling_factor E))) 4 (data lrp)))
    as [decoded Hdec].
  destruct (Hlpips (images_ref b)
              (tmap nclamp01 4
                 (tmap (fun v => nadd (ndiv v (Finite 2)) (Finite (1 / 2))) 4 decoded)))
    as [l Hl].
  assert (Hreg : perceptual_loss E (images_ref b) lrp
                 = Ok (Var (n := 0) l (graph lrp))).
  { unfold perceptual_loss. rewrite Hdec. cbn [Py.bind]. now rewrite Hl. }
  (* the pass *)
  unfold train_student. rewrite run_bind_get.
  rewrite run_bind_lift, G1. rewrite run_bind_lift, G2.
  fold lpc pe npe. rewrite run_bind_lift, Hkl. rewrite run_bind_lift, Hreg.
  unfold mbind, backward, generator_loss, reaches. cbn [graph lpc cat lp lrp app].
  cbn [existsb net_eqb orb]. rewrite Hgrad. cbn [accumulate].
  destruct (sync_gradients acc);
    cbn [clip_student student_optimizer_step ret fst snd student_grad
         student_w student_optimizer trace option_map];
    (eexists; eexists; eexists; eexists;
     split; [reflexivity|]; split; [exact Slpc|];
     split; [reflexivity|]; split; reflexivity).
Qed.

(** X28: a student pass that goes through.  When the networks return
    tensors of the shape of their input, the decoder and the perceptual
    loss return, the schedule covers the timesteps and the batch is not
    empty, lines 362 to 386 return: the concatenated prediction has the
    batch size of the two batches together, and the student is updated
    exactly once, by the optimizer step on the gradient of
    [loss_kl + loss_reg * reg_loss_weight], clipped when gradients were
    synchronised, after which its gradient buffer is empty again.  A
    prediction type other than ["epsilon"] and ["v_prediction"] is found
    only then: the pass of the loop raises with the student already
    updated. *)
Theorem student_pass_returns_with_one_update :
  forall (E : Externals) (args : Args) (acc : Accelerator)
         (noise_scheduler : Scheduler) (b : Batch) (st : State E)
         B1 B2 sh (a : num) (alpha_prod : list num),
    (forall w x t e sh',
        shape_ok sh' 4 x = true ->
        exists y, unet_forward E w x t e = Ok y /\ shape_ok sh' 4 y = true) ->
    (forall x, exists y, vae_decode E x = Ok y) ->
    (forall x y, exists l, lpips E x y = Ok l) ->
    (forall x,
        shape_ok ((B1 + B2)%nat :: sh) 4 x = true ->
        exists noisy,
          add_noise noise_scheduler x (dm_noise b) (dm_timestep b) = Ok noisy
          /\ shape_ok ((B1 + B2)%nat :: sh) 4 noisy = true) ->
    getitem (alphas_cumprod noise_scheduler)
            (num_train_timesteps noise_scheduler - 1) = Ok a ->
    index_select (alphas_cumprod noise_scheduler) (dm_timestep b) = Ok alpha_prod ->
    (py_int (IZR (num_train_timesteps noise_scheduler) * min_dm_step_ratio args)
     < py_int (IZR (num_train_timesteps noise_scheduler) * max_dm_step_ratio args))%Z ->
    shape_ok (B1 :: sh) 4 (z b) = true ->
    shape_ok (B2 :: sh) 4 (latents_ref b) = true ->
    (0 < B1 + B2)%nat ->
    length (dm_timestep b) = (B1 + B2)%nat ->
    student_grad st = None ->
    exists latents_pred_cat prompt_embeds loss_g st',
      train_student E args acc noise_scheduler b st
      = (Ok (latents_pred_cat, prompt_embeds, loss_g), st')
      /\ shape_ok ((B1 + B2)%nat :: sh) 4 (data latents_pred_cat) = true
      /\ trace st' = (trace st ++ [OptimizerStep Student])%list
      /\ student_grad st' = None
      /\ (student_w st', student_optimizer st')
         = (let g := autograd E Student loss_g in
            let g := if sync_gradients acc
                     then clip_grad_norm E (max_grad_norm args) g else g in
            let wo := adamw_step E (student_optimizer st) (student_w st) g in
            (fst wo, lr_step E (snd wo)))
      /\ (prediction_type noise_scheduler <> "epsilon"%string ->
          prediction_type noise_scheduler <> "v_prediction"%string ->
          exists e,
            train_iteration E args acc noise_scheduler b st = (Raise e, st')).
Proof.
  intros E args acc s b st B1 B2 sh a alphas
         Hfwd Hvae Hlpips Hadd Ha Hidx Hrange Sz Sref HB Lt Hgrad.
  destruct (train_student_returns E args acc s b st B1 B2 sh a alphas
              Hfwd Hvae Hlpips Hadd Ha Hidx Hrange Sz Sref HB Lt Hgrad)
    as (lpc' & pe' & loss_g & st' & Hrun & P1 & P2 & P3 & P4).
  exists lpc', pe', loss_g, st'. repeat (split; [assumption|]).
  intros H1 H2.
  destruct (unknown_type_raises_after_student_step E args acc s b st _ st'
              H1 H2 Hrun) as [e [He _]].
  exists e. exact He.
Qed.

Lemma student_pass_returns_with_one_update_witness :
  exists latents_pred_cat prompt_embeds loss_g st',
    train_student Demo.E (Demo.args None None) Demo.accelerator
                  (Demo.scheduler 1000 "sample" (repeat (Finite (1 / 4)) 1000))
                  Demo.batch (Demo.state 0 [])
    = (Ok (latents_pred_cat, prompt_embeds, loss_g), st')
    /\ trace st' = [OptimizerStep Student]
    /\ exists e,
        train_iteration Demo.E (Demo.args None None) Demo.accelerator
                        (Demo.scheduler 1000 "sample" (repeat (Finite (1 / 4)) 1000))
                        Demo.batch (Demo.state 0 [])
        = (Raise e, st').
Proof.
  destruct (student_pass_returns_with_one_update
              Demo.E (Demo.args None None) Demo.accelerator
              (Demo.scheduler 1000 "sample" (repeat (Finite (1 / 4)) 1000))
              Demo.batch (Demo.state 0 []) 1%nat 1%nat [1; 1; 1]%nat
              (Finite (1 / 4)) [Finite (1 / 4); Finite (1 / 4)])
    as (lpc & pe & loss_g & st' & Hrun & _ & Ht & _ & _ & Hraise).
  - intros w x t e sh' Sx. exists (zeros_like 4 x).
    split; [reflexivity | now rewrite zeros_like_shape].
  - intros x. exists x. reflexivity.
  - intros x y. exists (Finite 0). reflexivity.
  - intros x Sx. eexists. split; [reflexivity|].
    apply (zip3_tmap2_shape (fun a0 => noisy a0) 3 2 [1; 1; 1]%nat);
      [reflexivity | exact Sx | reflexivity].
  - reflexivity.
  - reflexivity.
  - exact (demo_dm_range None None).
  - reflexivity.
  - reflexivity.
  - lia.
  - reflexivity.
  - reflexivity.
  - exists lpc, pe, loss_g, st'. split; [exact Hrun|]. split; [exact Ht|].
    apply Hraise; discriminate.
Defined.


(** ** A whole pass in the default configuration *)

(** The fake-score pass on well-shaped inputs, with the ["epsilon"] target
    and no SNR weighting. *)
Lemma train_fake_returns :
  forall (E : Externals) (args : Args) (acc : Accelerator)
         (noise_scheduler : Scheduler) (latents_pred_cat : var 4)
         (prompt_embeds : var 3) (b : Batch) (st : State E) B sh,
    (forall w x t e sh',
        shape_ok sh' 4 x = true ->
        exists y, unet_forward E w x t e = Ok y /\ shape_ok sh' 4 y = true) ->
    (0 < num_train_timesteps noise_scheduler)%Z ->
    prediction_type noise_scheduler = "epsilon"%string ->
    snr_gamma args = None ->
    (forall x,
        shape_ok (B :: sh) 4 x = true ->
        exists noisy,
          add_noise noise_scheduler x (fake_noise b) (fake_timesteps b) = Ok noisy
          /\ shape_ok (B :: sh) 4 noisy = true) ->
    shape_ok (B :: sh) 4 (data latents_pred_cat) = true ->
    shape_ok (B :: sh) 4 (fake_noise b) = true ->
    fake_grad st = None ->
    exists model_pred loss_d st',
      train_fake E args acc noise_scheduler latents_pred_cat prompt_embeds b st
      = (Ok loss_d, st')
      /\ shape_ok (B :: sh) 4 model_pred = true
      /\ data loss_d
         = nmean (flatten 4 (tmap (fun v => nmul v v) 4
                               (tmap2 nsub 4 model_pred (fake_noise b))))
      /\ trace st' = (trace st ++ [OptimizerStep Fake])%list
      /\ fake_grad st' = None
      /\ (fake_w st', fake_optimizer st')
         = (let g := autograd E Fake loss_d in
            let g := if sync_gradients acc
                     then clip_grad_norm E (max_grad_norm args) g else g in
            let wo := adamw_step E (fake_optimizer st) (fake_w st) g in
            (fst wo, lr_step E (snd wo)))
      /\ global_step st' = global_step st
      /\ files st' = files st
      /\ loss_local st' = loss_local st
      /\ student_grad st' = student_grad st.
Proof.
  intros E args acc s lpc pe b st B sh Hfwd HT Hpt Hsnr Hadd Sl Sn Hgrad.
  destruct (Hadd (data lpc) Sl) as [noisy [Hnoisy Snoisy]].
  destruct (Hfwd (fake_w st) noisy (fake_timesteps b) (data pe) _ Snoisy)
    as [mp [Hmp Smp]].
  exists mp.
  unfold train_fake. rewrite run_bind_get.
  rewrite run_bind_lift. unfold randint_check.
  destruct (Z.ltb_spec 0 (num_train_timesteps s)) as [_|HT']; [|lia].
  unfold vadd_noise, stopgrad, detach, const. cbn [data graph].
  rewrite Hnoisy. cbn [Py.bind]. rewrite run_bind_lift.
  unfold select_target. rewrite Hpt. cbn [String.eqb Ascii.eqb Bool.eqb].
  rewrite run_bind_lift.
  unfold call_unet. cbn [fake_unet forward requires_grad owner data graph app].
  rewrite Hmp. cbn [Py.bind]. rewrite run_bind_lift.
  unfold fake_loss. rewrite Hsnr. unfold mse_loss. cbn [data graph].
  rewrite (bcast2_same_shape nsub (B :: sh) 4 _ _ Smp Sn). cbn [Py.bind app].
  rewrite run_bind_lift.
  unfold mbind, assign_loss, backward, reaches. cbn [fst snd graph].
  cbn [existsb net_eqb orb]. rewrite Hgrad. cbn [accumulate].
  destruct (sync_gradients acc);
    cbn [clip_fake fake_optimizer_step ret fst snd fake_grad fake_w
         fake_optimizer trace option_map global_step files loss_local
         student_grad];
    (eexists; eexists; split; [reflexivity|]; split; [exact Smp|];
     cbn [data fake_grad fake_w fake_optimizer trace global_step files
          loss_local student_grad];
     repeat split).
Qed.

(** The two training passes of one pass of the loop, one after the other. *)
Lemma train_both_return :
  forall (E : Externals) (args : Args) (acc : Accelerator)
         (noise_scheduler : Scheduler) (b : Batch) (st : State E)
         B1 B2 sh (a : num) (alpha_prod : list num),
    (forall w x t e sh',
        shape_ok sh' 4 x = true ->
        exists y, unet_forward E w x t e = Ok y /\ shape_ok sh' 4 y = true) ->
    (forall x, exists y, vae_decode E x = Ok y) ->
    (forall x y, exists l, lpips E x y = Ok l) ->
    (forall x,
        shape_ok ((B1 + B2)%nat :: sh) 4 x = true ->
        exists noisy,
          add_noise noise_scheduler x (dm_noise b) (dm_timestep b) = Ok noisy
          /\ shape_ok ((B1 + B2)%nat :: sh) 4 noisy = true) ->
    (forall x,
        shape_ok ((B1 + B2)%nat :: sh) 4 x = true ->
        exists noisy,
          add_noise noise_scheduler x (fake_noise b) (fake_timesteps b) = Ok noisy
          /\ shape_ok ((B1 + B2)%nat :: sh) 4 noisy = true) ->
    getitem (alphas_cumprod noise_scheduler)
            (num_train_timesteps noise_scheduler - 1) = Ok a ->
    index_select (alphas_cumprod noise_scheduler) (dm_timestep b) = Ok alpha_prod ->
    (py_int (IZR (num_train_timesteps noise_scheduler) * min_dm_step_ratio args)
     < py_int (IZR (num_train_timesteps noise_scheduler) * max_dm_step_ratio args))%Z ->
    (0 < num_train_timesteps noise_scheduler)%Z ->
    prediction_type noise_scheduler = "epsilon"%string ->
    shape_ok (B1 :: sh) 4 (z b) = true ->
    shape_ok (B2 :: sh) 4 (latents_ref b) = true ->
    shape_ok ((B1 + B2)%nat :: sh) 4 (fake_noise b) = true ->
    (0 < B1 + B2)%nat ->
    length (dm_timestep b) = (B1 + B2)%nat ->
    snr_gamma args = None ->
    student_grad st = None ->
    fake_grad st = None ->
    exists r loss_d st1 st2,
      train_student E args acc noise_scheduler b st = (Ok r, st1)
      /\ train_fake E args acc noise_scheduler (fst (fst r)) (snd (fst r)) b st1
         = (Ok loss_d, st2)
      /\ trace st2
         = (trace st ++ [OptimizerStep Student; OptimizerStep Fake])%list
      /\ global_step st2 = global_step st
      /\ files st2 = files st
      /\ loss_local st2 = loss_local st
      /\ student_grad st2 = None
      /\ fake_grad st2 = None.
Proof.
  intros E args acc s b st B1 B2 sh a alphas
         Hfwd Hvae Hlpips Hadd Hadd' Ha Hidx Hrange HT Hpt Sz Sref Sn HB Lt
         Hsnr Hsg Hfg.
  destruct (train_student_returns E args acc s b st B1 B2 sh a alphas
              Hfwd Hvae Hlpips Hadd Ha Hidx Hrange Sz Sref HB Lt Hsg)
    as (lpc & pe & loss_g & st1 & Hrun1 & Slpc & T1 & G1 & _).
  pose proof (train_student_frame E args acc s b st)
    as (_ & _ & F1 & _ & S1 & D1).
  pose proof (train_student_loss_local E args acc s b st) as L1.
  rewrite Hrun1 in F1, S1, D1, L1. cbn [snd] in F1, S1, D1, L1.
  destruct (train_fake_returns E args acc s lpc pe b st1 (B1 + B2)%nat sh
              Hfwd HT Hpt Hsnr Hadd' Slpc Sn)
    as (mp & loss_d & st2 & Hrun2 & _ & _ & T2 & G2 & _ & S2 & D2 & L2 & G2').
  { now rewrite F1. }
  exists (lpc, pe, loss_g), loss_d, st1, st2.
  split; [exact Hrun1|]. split; [exact Hrun2|].
  split; [rewrite T2, T1; now rewrite <- app_assoc|].
  repeat split; congruence.
Qed.

(** The checkpoint block with no retention limit and a period other than
    zero: it goes through, and counts the pass when gradients were
    synchronised. *)
Lemma checkpoint_block_returns E args acc (st : State E) :
  checkpointing_steps args <> 0%Z ->
  checkpoints_total_limit args = None ->
  exists st' evs,
    checkpoint_block E args acc st = (Ok tt, st')
    /\ trace st' = (trace st ++ evs)%list
    /\ Forall file_event evs
    /\ global_step st'
       = (if sync_gradients acc then global_step st + 1 else global_step st)%Z
    /\ loss_local st' = loss_local st
    /\ student_grad st' = student_grad st
    /\ fake_grad st' = fake_grad st.
Proof.
  intros Hsteps Hlimit.
  pose proof (checkpoint_block_run E args acc st) as Hcb. cbv zeta in Hcb.
  pose proof (checkpoint_block_trace E args acc st) as [evs [T3 Q3]].
  pose proof (checkpoint_block_loss_local E args acc st) as L3.
  pose proof (checkpoint_block_networks E args acc st)
    as (_ & _ & _ & G3 & G3' & _).
  assert (Hok : fst (checkpoint_block E args acc st) = Ok tt
                /\ global_step (snd (checkpoint_block E args acc st))
                   = (if sync_gradients acc then global_step st + 1
                      else global_step st)%Z).
  { rewrite Hcb.
    destruct (sync_gradients acc); [|split; reflexivity].
    destruct (is_main_process acc); [|split; reflexivity].
    destruct (Z.eqb_spec (checkpointing_steps args) 0); [contradiction|].
    destruct ((global_step st + 1) mod checkpointing_steps args =? 0)%Z;
      [|split; reflexivity].
    pose proof (save_checkpoint_run E args
                  (snd (set_global_step E (global_step st + 1) st))) as Hsave.
    cbv zeta in Hsave. rewrite Hlimit in Hsave. destruct Hsave as (H1 & _).
    split; [exact H1|].
    unfold save_checkpoint. rewrite run_bind_get, Hlimit. reflexivity. }
  destruct Hok as [Hok Hstep].
  destruct (checkpoint_block E args acc st) as [[[]|e] st3];
    cbn [fst snd] in *; [|discriminate].
  exists st3, evs. repeat split; assumption.
Qed.

(** X29: a whole pass in the default configuration.  With [snr_gamma]
    unset, the ["epsilon"] target, a positive number of timesteps (line
    400 draws from them), well-shaped networks and a batch that is
    not empty, no retention limit and [checkpointing_steps] other than
    zero, a pass of the loop takes one optimizer step of the student, then
    one of the fake network, increments the step counter when gradients
    were synchronised, touches nothing but files after that, and then
    raises [UnboundLocalError] on [loss] at the log line, with both
    gradient buffers empty: nothing is logged and the next pass is never
    reached. *)
Theorem default_pass_updates_both_networks_then_raises :
  forall (E : Externals) (args : Args) (acc : Accelerator)
         (noise_scheduler : Scheduler) (b : Batch) (st : State E)
         B1 B2 sh (a : num) (alpha_prod : list num),
    (forall w x t e sh',
        shape_ok sh' 4 x = true ->
        exists y, unet_forward E w x t e = Ok y /\ shape_ok sh' 4 y = true) ->
    (forall x, exists y, vae_decode E x = Ok y) ->
    (forall x y, exists l, lpips E x y = Ok l) ->
    (forall x,
        shape_ok ((B1 + B2)%nat :: sh) 4 x = true ->
        exists noisy,
          add_noise noise_scheduler x (dm_noise b) (dm_timestep b) = Ok noisy
          /\ shape_ok ((B1 + B2)%nat :: sh) 4 noisy = true) ->
    (forall x,
        shape_ok ((B1 + B2)%nat :: sh) 4 x = true ->
        exists noisy,
          add_noise noise_scheduler x (fake_noise b) (fake_timesteps b) = Ok noisy
          /\ shape_ok ((B1 + B2)%nat :: sh) 4 noisy = true) ->
    getitem (alphas_cumprod noise_scheduler)
            (num_train_timesteps noise_scheduler - 1) = Ok a ->
    index_select (alphas_cumprod noise_scheduler) (dm_timestep b) = Ok alpha_prod ->
    (py_int (IZR (num_train_timesteps noise_scheduler) * min_dm_step_ratio args)
     < py_int (IZR (num_train_timesteps noise_scheduler) * max_dm_step_ratio args))%Z ->
    (0 < num_train_timesteps noise_scheduler)%Z ->
    prediction_type noise_scheduler = "epsilon"%string ->
    shape_ok (B1 :: sh) 4 (z b) = true ->
    shape_ok (B2 :: sh) 4 (latents_ref b) = true ->
    shape_ok ((B1 + B2)%nat :: sh) 4 (fake_noise b) = true ->
    (0 < B1 + B2)%nat ->
    length (dm_timestep b) = (B1 + B2)%nat ->
    snr_gamma args = None ->
    checkpointing_steps args <> 0%Z ->
    checkpoints_total_limit args = None ->
    student_grad st = None ->
    fake_grad st = None ->
    loss_local st = None ->
    exists st' evs,
      train_iteration E args acc noise_scheduler b st
      = (Raise (UnboundLocalError "loss"), st')
      /\ trace st'
         = (trace st ++ OptimizerStep Student :: OptimizerStep Fake :: evs)%list
      /\ Forall file_event evs
      /\ global_step st'
         = (if sync_gradients acc then global_step st + 1 else global_step st)%Z
      /\ student_grad st' = None
      /\ fake_grad st' = None.
Proof.
  intros E args acc s b st B1 B2 sh a alphas
         Hfwd Hvae Hlpips Hadd Hadd' Ha Hidx Hrange HT Hpt Sz Sref Sn HB Lt
         Hsnr Hsteps Hlimit Hsg Hfg Hloss.
  destruct (train_both_return E args acc s b st B1 B2 sh a alphas
              Hfwd Hvae Hlpips Hadd Hadd' Ha Hidx Hrange HT Hpt Sz Sref Sn HB Lt
              Hsnr Hsg Hfg)
    as (r & loss_d & st1 & st2 & Hrun1 & Hrun2 & T2 & S2 & _ & L2 & G2 & G2').
  destruct (checkpoint_block_returns E args acc st2 Hsteps Hlimit)
    as (st3 & evs & Hrun3 & T3 & Q3 & S3 & L3 & G3 & G3').
  exists st3, evs.
  split.
  - unfold train_iteration. unfold mbind at 1. rewrite Hrun1.
    unfold mbind at 1. rewrite Hrun2.
    unfold mbind at 1. rewrite Hrun3.
    unfold mbind at 1. unfold emit_logs. rewrite run_bind_get.
    replace (loss_local st3) with (@None (var 1)) by congruence.
    reflexivity.
  - split; [rewrite T3, T2; now rewrite <- !app_assoc|].
    split; [exact Q3|]. split; [now rewrite S3, S2|].
    split; congruence.
Qed.

Lemma default_pass_updates_both_networks_then_raises_witness :
  exists st' evs,
    train_iteration Demo.E (Demo.args None None) Demo.accelerator
                    Demo.thousand_steps Demo.batch (Demo.state 0 [])
    = (Raise (UnboundLocalError "loss"), st')
    /\ trace st' = (OptimizerStep Student :: OptimizerStep Fake :: evs)%list
    /\ global_step st' = 1%Z.
Proof.
  destruct (default_pass_updates_both_networks_then_raises
              Demo.E (Demo.args None None) Demo.accelerator
              Demo.thousand_steps Demo.batch (Demo.state 0 [])
              1%nat 1%nat [1; 1; 1]%nat
              (Finite (1 / 4)) [Finite (1 / 4); Finite (1 / 4)])
    as (st' & evs & Hrun & Ht & _ & Hstep & _).
  - intros w x t e sh' Sx. exists (zeros_like 4 x).
    split; [reflexivity | now rewrite zeros_like_shape].
  - intros x. exists x. reflexivity.
  - intros x y. exists (Finite 0). reflexivity.
  - intros x Sx. eexists. split; [reflexivity|].
    apply (zip3_tmap2_shape (fun a0 => noisy a0) 3 2 [1; 1; 1]%nat);
      [reflexivity | exact Sx | reflexivity].
  - intros x Sx. eexists. split; [reflexivity|].
    apply (zip3_tmap2_shape (fun a0 => noisy a0) 3 2 [1; 1; 1]%nat);
      [reflexivity | exact Sx | reflexivity].
  - reflexivity.
  - reflexivity.
  - exact (demo_dm_range None None).
  - reflexivity.
  - reflexivity.
  - reflexivity.
  - reflexivity.
  - reflexivity.
  - lia.
  - reflexivity.
  - reflexivity.
  - discriminate.
  - reflexivity.
  - reflexivity.
  - reflexivity.
  - reflexivity.
  - exists st', evs. split; [exact Hrun|]. split; [exact Ht|]. exact Hstep.
Defined.

(** ** Passes of the loop on a schedule of 1000 steps *)

(** With the libraries of [Demo.E], the schedule of 1000 steps and the
    batch of in-range draws, the two training passes go through. *)
Lemma drawn_batch_both_return (args : Args) :
  min_dm_step_ratio args = (2 / 100)%R ->
  max_dm_step_ratio args = (98 / 100)%R ->
  snr_gamma args = None ->
  exists r loss_d st1 st2,
    train_student Demo.E args Demo.accelerator Demo.thousand_steps
                  Demo.drawn_batch (Demo.state 0 []) = (Ok r, st1)
    /\ train_fake Demo.E args Demo.accelerator Demo.thousand_steps
                  (fst (fst r)) (snd (fst r)) Demo.drawn_batch st1
       = (Ok loss_d, st2)
    /\ trace st2 = [OptimizerStep Student; OptimizerStep Fake]
    /\ global_step st2 = 0%Z
    /\ files st2 = []
    /\ loss_local st2 = None
    /\ student_grad st2 = None
    /\ fake_grad st2 = None.
Proof.
  intros Hmin Hmax Hsnr.
  apply (train_both_return Demo.E args Demo.accelerator Demo.thousand_steps
           Demo.drawn_batch (Demo.state 0 []) 1%nat 1%nat [1; 1; 1]%nat
           (Finite (1 / 4)) [Finite (1 / 4); Finite (1 / 4)]).
  - intros w x t e sh' Sx. exists (zeros_like 4 x).
    split; [reflexivity | now rewrite zeros_like_shape].
  - intros x. exists x. reflexivity.
  - intros x y. exists (Finite 0). reflexivity.
  - intros x Sx. eexists. split; [reflexivity|].
    apply (zip3_tmap2_shape (fun a0 => noisy a0) 3 2 [1; 1; 1]%nat);
      [reflexivity | exact Sx | reflexivity].
  - intros x Sx. eexists. split; [reflexivity|].
    apply (zip3_tmap2_shape (fun a0 => noisy a0) 3 2 [1; 1; 1]%nat);
      [reflexivity | exact Sx | reflexivity].
  - reflexivity.
  - reflexivity.
  - rewrite Hmin, Hmax. exact (demo_dm_range None None).
  - reflexivity.
  - reflexivity.
  - reflexivity.
  - reflexivity.
  - reflexivity.
  - simpl. lia.
  - reflexivity.
  - exact Hsnr.
  - reflexivity.
  - reflexivity.
Qed.

Lemma iteration_log_reads_unbound_loss_witness :
  exists st' evs,
    train_iteration Demo.E (Demo.args None None) Demo.accelerator
                    Demo.thousand_steps Demo.drawn_batch (Demo.state 0 [])
    = (Raise (UnboundLocalError "loss"), st')
    /\ trace st' = (OptimizerStep Student :: OptimizerStep Fake :: evs)%list.
Proof.
  destruct (drawn_batch_both_return (Demo.args None None) eq_refl eq_refl eq_refl)
    as (r & loss_d & st1 & st2 & Hs & Hf & T2 & _).
  destruct (checkpoint_block_returns Demo.E (Demo.args None None)
              Demo.accelerator st2) as (st3 & evs & Hc & T3 & _);
    [discriminate | reflexivity |].
  destruct (iteration_log_reads_unbound_loss
              Demo.E (Demo.args None None) Demo.accelerator
              Demo.thousand_steps Demo.drawn_batch (Demo.state 0 [])
              eq_refl eq_refl) as [Hlog _].
  exists st3, evs. split.
  - exact (Hlog r st1 loss_d st2 st3 Hs Hf Hc).
  - rewrite T3, T2. reflexivity.
Defined.

Lemma training_leaves_no_stale_gradient_witness :
  exists e st' evs,
    train_loop Demo.E (Demo.args None None) Demo.accelerator
               Demo.thousand_steps (fun _ => Demo.drawn_batch) 0 3
               (Demo.state 0 [])
    = (Raise e, st')
    /\ trace st' = (OptimizerStep Student :: OptimizerStep Fake :: evs)%list
    /\ fake_grad st' = None
    /\ student_grad st' = None.
Proof.
  pose proof (training_leaves_no_stale_gradient
                Demo.E (Demo.args None None) Demo.accelerator
                Demo.thousand_steps (fun _ => Demo.drawn_batch) 0 3
                (Demo.state 0 []) eq_refl eq_refl) as Hgrad.
  cbv zeta in Hgrad.
  destruct (drawn_batch_both_return (Demo.args None None) eq_refl eq_refl eq_refl)
    as (r & loss_d & st1 & st2 & Hs & Hf & T2 & _ & _ & L2 & _).
  destruct (checkpoint_block_returns Demo.E (Demo.args None None)
              Demo.accelerator st2) as (st3 & evs & Hc & T3 & _ & _ & L3 & _);
    [discriminate | reflexivity |].
  assert (Hrun : train_loop Demo.E (Demo.args None None) Demo.accelerator
                   Demo.thousand_steps (fun _ => Demo.drawn_batch) 0 3
                   (Demo.state 0 [])
                 = (Raise (UnboundLocalError "loss"), st3)).
  { cbn [train_loop]. unfold mbind at 1.
    unfold train_iteration. unfold mbind at 1. rewrite Hs.
    unfold mbind at 1. rewrite Hf.
    unfold mbind at 1. rewrite Hc.
    unfold mbind at 1. unfold emit_logs. rewrite run_bind_get.
    replace (loss_local st3) with (@None (var 1)) by congruence.
    reflexivity. }
  rewrite Hrun in Hgrad. cbn [snd] in Hgrad.
  exists (UnboundLocalError "loss"), st3, evs.
  split; [exact Hrun|]. split; [rewrite T3, T2; reflexivity|]. exact Hgrad.
Defined.

Lemma zero_checkpointing_steps_never_completes_a_pass_witness :
  exists st',
    train_iteration Demo.E (Demo.args_every 0) Demo.accelerator
                    Demo.thousand_steps Demo.drawn_batch (Demo.state 0 [])
    = (Raise ZeroDivisionError, st')
    /\ global_step st' = 1%Z
    /\ trace st' = [OptimizerStep Student; OptimizerStep Fake].
Proof.
  destruct (zero_checkpointing_steps_never_completes_a_pass
              Demo.E (Demo.args_every 0) Demo.accelerator
              Demo.thousand_steps Demo.drawn_batch
              (Demo.state 0 []) eq_refl eq_refl eq_refl) as [e [st' [H Hinner]]].
  destruct (drawn_batch_both_return (Demo.args_every 0) eq_refl eq_refl eq_refl)
    as (r & loss_d & st1 & st2 & Hs & Hf & _ & S2 & _).
  destruct (Hinner r st1 loss_d st2 Hs Hf) as (He & Hstep & Ht).
  exists st'. rewrite He in H. split; [exact H|].
  split; [rewrite Hstep, S2; reflexivity | exact Ht].
Defined.

(** C8, the part of the claim that does not hold: the error for an unknown
    prediction type is not raised before any parameter update.  With
    libraries whose parameter sets count the optimizer steps applied to
    them, a first pass of the loop on a scheduler of type ["sample"] raises
    the [ValueError] of line 410 with the student's parameters already
    updated once. *)
Lemma unknown_type_raises_after_student_update :
  exists st',
    train_iteration Demo.counting (Demo.args None None) Demo.accelerator
                    Demo.unknown_type_steps Demo.drawn_batch Demo.fresh
    = (Raise (ValueError "Unknown prediction type sample"), st')
    /\ student_w Demo.fresh = 0%nat
    /\ student_w st' = 1%nat
    /\ trace st' = [OptimizerStep Student].
Proof.
  destruct (train_student_returns Demo.counting (Demo.args None None)
              Demo.accelerator Demo.unknown_type_steps Demo.drawn_batch
              Demo.fresh 1%nat 1%nat [1; 1; 1]%nat
              (Finite (1 / 4)) [Finite (1 / 4); Finite (1 / 4)])
    as (lpc & pe & loss_g & st1 & Hrun & _ & Ht & _ & Hw).
  - intros w x t e sh' Sx. exists (zeros_like 4 x).
    split; [reflexivity | now rewrite zeros_like_shape].
  - intros x. exists x. reflexivity.
  - intros x y. exists (Finite 0). reflexivity.
  - intros x Sx. eexists. split; [reflexivity|].
    apply (zip3_tmap2_shape (fun a0 => noisy a0) 3 2 [1; 1; 1]%nat);
      [reflexivity | exact Sx | reflexivity].
  - reflexivity.
  - reflexivity.
  - exact (demo_dm_range None None).
  - reflexivity.
  - reflexivity.
  - simpl. lia.
  - reflexivity.
  - reflexivity.
  - exists st1.
    destruct (train_fake_unknown_type Demo.counting (Demo.args None None)
                Demo.accelerator Demo.unknown_type_steps lpc pe
                Demo.drawn_batch st1) as [e [He [Hv _]]];
      [discriminate | discriminate |].
    assert (Ee : e = ValueError "Unknown prediction type sample").
    { eapply Hv; [reflexivity|]. reflexivity. }
    subst e.
    split.
    + unfold train_iteration. unfold mbind at 1. rewrite Hrun.
      unfold mbind at 1. cbn [fst snd]. now rewrite He.
    + split; [reflexivity|]. split; [|exact Ht].
      apply (f_equal fst) in Hw. exact Hw.
Defined.
